(** * The entity facade of taipy.core (src/taipy/core/taipy.py)

    A shallow embedding of the kind-polymorphic entry points of the module
    ([set], [get], [exists], [delete], [is_deletable], [submit],
    [clean_all_entities], [export_scenario], [get_parents]) over an explicit
    world of per-kind entity stores, followed by the properties the
    specification states about them. *)

From Stdlib Require Import String.
From stdpp Require Import base strings gmap list.

Local Open Scope string_scope.

(** ** Entity kinds, Python values, outcomes *)

(** The seven entity classes the module imports. *)
Inductive Kind : Type :=
  | Job | Cycle | Scenario | Sequence | Task | DataNode | Submission.

#[global] Instance Kind_eq_dec : EqDecision Kind.
Proof. solve_decision. Defined.

Definition Kind_to_nat (k : Kind) : nat :=
  match k with
  | Job => 0 | Cycle => 1 | Scenario => 2 | Sequence => 3
  | Task => 4 | DataNode => 5 | Submission => 6
  end.

Definition Kind_of_nat (n : nat) : option Kind :=
  match n with
  | 0 => Some Job | 1 => Some Cycle | 2 => Some Scenario | 3 => Some Sequence
  | 4 => Some Task | 5 => Some DataNode | 6 => Some Submission
  | _ => None
  end.

#[global] Instance Kind_countable : Countable Kind.
Proof.
  apply (inj_countable Kind_to_nat Kind_of_nat).
  intros []; reflexivity.
Defined.

(** The attributes of an entity object that the module reads:
    [entity.version], [entity.parent_ids], [scenario.cycle] (kept as the
    identifier of the cycle, [None] when the scenario has none) and, for
    jobs and submissions, whether the execution reached a terminal state
    (section 3 of the specification). A record keeps one field per
    attribute whatever its kind; an attribute that a kind does not have is
    never read on a record of that kind: [version] is not read on cycles,
    which no version partition holds, and [parent_ids] is read on
    sequences, tasks and data nodes only. The identifier is not a field: it
    is the key of the record in its store, and it travels with the record
    in an entity value. *)
Record EntityData : Type := mkEntityData {
  version : string;
  parent_ids : gset string;
  cycle : option string;
  finished : bool
}.

(** Python values that reach the entry points: [None], a [str] (the
    identifier types are [NewType]s of [str]), an instance of one of the
    seven entity classes, or an object of any other class. *)
Inductive value : Type :=
  | VNone
  | VStr (s : string)
  | VEnt (k : Kind) (i : string) (d : EntityData)
  | VObj (cls : string).

(** Exceptions that can leave the entry points. *)
Inductive exn : Type :=
  | ModelNotFound (model : string) (entity_id : value)
  | NonExistingVersion (version_number : value)
  | VersionIsNotProductionVersion (version_number : string)
  | InvalidExportPath (msg : string)
  | ExportFolderAlreadyExists (folder : string) (scenario_id : value)
  | JobNotDeletable (job_id : string)
  | SequenceBelongsToNonExistingScenario (sequence_id : string)
  | AttributeError
  | RuntimeError (msg : string).

Inductive outcome (A : Type) : Type :=
  | Ret (a : A)
  | Raise (e : exn).
Arguments Ret {A} a.
Arguments Raise {A} e.

(** [isinstance(v, K)] for an entity class [K]. *)
Definition isinstance (v : value) (k : Kind) : bool :=
  match v with
  | VEnt k' _ _ => bool_decide (k' = k)
  | _ => false
  end.

(** [isinstance(v, str)]. *)
Definition is_str (v : value) : bool :=
  match v with VStr _ => true | _ => false end.

(** [isinstance(v, str) and v.startswith(p)]. *)
Definition str_startswith (v : value) (p : string) : bool :=
  match v with VStr s => String.prefix p s | _ => false end.

(** ** The world: one store per kind, versions, export targets, log *)

(** A [folder_path] is a [str] or a [pathlib.Path]. *)
Inductive path : Type :=
  | PStr (s : string)
  | PPath (s : string).

(** [str(folder_path)], also the location the path denotes on disk. *)
Definition path_str (p : path) : string :=
  match p with PStr s | PPath s => s end.

(** Locations on disk are normalised paths. A location lies in the tree of
    a folder when it is the folder itself or starts with the folder
    followed by a separator. *)
Definition in_tree (folder location : string) : bool :=
  String.eqb location folder || String.prefix (folder ++ "/") location.

(** [folder_path == root] for a [str] root: a [pathlib.Path] never compares
    equal to a [str]. *)
Definition path_eq_str (p : path) (root : string) : bool :=
  match p with
  | PStr s => bool_decide (s = root)
  | PPath _ => false
  end.

(** One record written into an export folder. *)
Inductive Exported : Type :=
  | ExpEntity (k : Kind) (i : string) (include_data : bool)
  | ExpVersion (v : string).

(** Messages passed to the logger and to [warnings]. *)
Inductive LogEntry : Type :=
  | WarnNonExistingVersion (version_number : value)
  | WarnProductionVersion (version_number : string)
  | WarnOverride (folder : string)
  | WarnNoCoreService (msg : string).

Record World : Type := mkWorld {
  job_store : gmap string EntityData;
  cycle_store : gmap string EntityData;
  scenario_store : gmap string EntityData;
  sequence_store : gmap string EntityData;
  task_store : gmap string EntityData;
  data_store : gmap string EntityData;
  submission_store : gmap string EntityData;
  (** bookkeeping entries of the version manager *)
  versions : list string;
  production_versions : list string;
  (** [Config.core.taipy_storage_folder] *)
  taipy_storage_folder : string;
  (** folders that exist on disk, with their contents *)
  fs : gmap string (list Exported);
  (** whether the Core service dispatcher is running *)
  core_running : bool;
  log : list LogEntry
}.

Definition store_of (k : Kind) (w : World) : gmap string EntityData :=
  match k with
  | Job => job_store w
  | Cycle => cycle_store w
  | Scenario => scenario_store w
  | Sequence => sequence_store w
  | Task => task_store w
  | DataNode => data_store w
  | Submission => submission_store w
  end.

Definition with_store (k : Kind) (m : gmap string EntityData) (w : World) : World :=
  let st k' := if decide (k' = k) then m else store_of k' w in
  mkWorld (st Job) (st Cycle) (st Scenario) (st Sequence) (st Task)
          (st DataNode) (st Submission)
          (versions w) (production_versions w) (taipy_storage_folder w)
          (fs w) (core_running w) (log w).

Definition with_versions (vs : list string) (w : World) : World :=
  mkWorld (job_store w) (cycle_store w) (scenario_store w) (sequence_store w)
          (task_store w) (data_store w) (submission_store w)
          vs (production_versions w) (taipy_storage_folder w)
          (fs w) (core_running w) (log w).

Definition with_production_versions (vs : list string) (w : World) : World :=
  mkWorld (job_store w) (cycle_store w) (scenario_store w) (sequence_store w)
          (task_store w) (data_store w) (submission_store w)
          (versions w) vs (taipy_storage_folder w)
          (fs w) (core_running w) (log w).

Definition with_fs (f : gmap string (list Exported)) (w : World) : World :=
  mkWorld (job_store w) (cycle_store w) (scenario_store w) (sequence_store w)
          (task_store w) (data_store w) (submission_store w)
          (versions w) (production_versions w) (taipy_storage_folder w)
          f (core_running w) (log w).

(** [__logger.warning(...)] / [warnings.warn(...)]. *)
Definition log_warning (e : LogEntry) (w : World) : World :=
  mkWorld (job_store w) (cycle_store w) (scenario_store w) (sequence_store w)
          (task_store w) (data_store w) (submission_store w)
          (versions w) (production_versions w) (taipy_storage_folder w)
          (fs w) (core_running w) (log w ++ [e])%list.

(** ** The managers

    The manager classes are imported by the module and their code is not
    part of it. Their single-store operations are modelled below; the
    operations whose effect the specification leaves to other components
    are the fields of [Collaborators]. *)

(** Modelled from the spec: a manager accepts "either a concrete entity
    instance or an opaque identifier" (section 4.2) and keys its store by
    the identifier. *)
Definition entity_id_of (v : value) : option string :=
  match v with
  | VStr s => Some s
  | VEnt _ i _ => Some i
  | _ => None
  end.

(** Modelled from the spec: the manager's [_get], a lookup in the store of
    its kind; as the docstring of [get] says, [None] is returned when no
    matching entity is found. *)
Definition _get (k : Kind) (v : value) (w : World) : value :=
  match entity_id_of v with
  | Some i =>
      match store_of k w !! i with
      | Some d => VEnt k i d
      | None => VNone
      end
  | None => VNone
  end.

(** Modelled from the spec: the manager's [_exists] (section 4.2). *)
Definition _exists (k : Kind) (v : value) (w : World) : bool :=
  match entity_id_of v with
  | Some i => bool_decide (is_Some (store_of k w !! i))
  | None => false
  end.

(** Modelled from the spec: the manager's [_delete], the removal of a
    single record (the "direct leaf delete" of section 4.3); as the
    docstring of [delete] says, [ModelNotFound] is raised when no entity
    corresponds to the identifier. *)
Definition _delete (k : Kind) (v : value) (w : World) : outcome value * World :=
  match entity_id_of v with
  | Some i =>
      match store_of k w !! i with
      | Some _ => (Ret VNone, with_store k (delete i (store_of k w)) w)
      | None => (Raise (ModelNotFound "" v), w)
      end
  | None => (Raise AttributeError, w)
  end.

(** Modelled from the spec: the job manager's [_delete] without [force]
    (section 4.3): the job "must be in a terminal state", and then the job
    record only is deleted; otherwise [JobNotDeletable]. *)
Definition _job_delete (job : value) (w : World) : outcome value * World :=
  match job with
  | VEnt _ i d =>
      if finished d then _delete Job job w
      else (Raise (JobNotDeletable i), w)
  | _ => (Raise AttributeError, w)
  end.

(** The scenarios of a store that are attached to the cycle [c]. *)
Definition attached_to (c : string) (scenarios : gmap string EntityData)
  : gmap string EntityData :=
  filter (fun kv => cycle (snd kv) = Some c) scenarios.

(** Modelled from the spec: one step of the scenario manager's
    [_delete_by_version]. A scenario is deleted with the cascade rule of
    its kind (section 4.3): when it "is the sole scenario in its Cycle",
    the cycle is deleted too. [st] holds the scenario store and the cycle
    store. *)
Definition _delete_scenario_of_version
    (st : gmap string EntityData * gmap string EntityData)
    (scenario : string * EntityData)
  : gmap string EntityData * gmap string EntityData :=
  let cycles :=
    match cycle (snd scenario) with
    | Some c =>
        if bool_decide (size (attached_to c (fst st)) = 1)
        then delete c (snd st)
        else snd st
    | None => snd st
    end in
  (delete (fst scenario) (fst st), cycles).

(** Modelled from the spec: the manager's [_delete_by_version], which
    deletes "every record in that version partition" of its store
    (section 4.6). The scenario manager deletes the scenarios of the
    version one after the other, each with its cycle when it is the last
    scenario of that cycle. Cycles carry no version: the cycle manager has
    no partition to delete, and the module never asks it to. *)
Definition _delete_by_version (k : Kind) (version_number : string) (w : World) : World :=
  match k with
  | Scenario =>
      let st :=
        foldl _delete_scenario_of_version (scenario_store w, cycle_store w)
          (map_to_list
             (filter (fun kv => version (snd kv) = version_number)
                     (scenario_store w))) in
      with_store Cycle (snd st) (with_store Scenario (fst st) w)
  | Cycle => w
  | Job | Sequence | Task | DataNode | Submission =>
      with_store k
        (filter (fun kv => version (snd kv) <> version_number) (store_of k w)) w
  end.

(** Modelled from the spec: the version manager (section 4.6), which
    "tracks the set of versions and which single version (if any) is
    production". *)
Definition _get_production_versions (w : World) : list string :=
  production_versions w.

(** Modelled from the spec: the version manager's [_delete], which "removes
    the version's bookkeeping entry" (section 4.6). *)
Definition _version_delete (version_number : string) (w : World) : outcome value * World :=
  if bool_decide (version_number ∈ versions w)
  then (Ret VNone,
        with_versions (filter (fun v => v <> version_number) (versions w)) w)
  else (Raise (ModelNotFound "" (VStr version_number)), w).

(** Modelled from the spec: the version manager's
    [_delete_production_version], which "clears any production-version
    marker pointing at" the version (section 4.6) and raises
    [VersionIsNotProductionVersion], the exception the module catches, when
    there is none. *)
Definition _delete_production_version (version_number : string) (w : World)
  : outcome value * World :=
  if bool_decide (version_number ∈ production_versions w)
  then (Ret VNone,
        with_production_versions
          (filter (fun v => v <> version_number) (production_versions w)) w)
  else (Raise (VersionIsNotProductionVersion version_number), w).

(** Modelled from the spec: the write of "one serialized record per entity
    into a target directory" (section 6), which creates the directory when
    needed. *)
Definition write_record (folder : path) (r : Exported) (w : World) : World :=
  with_fs (<[path_str folder := (default [] (fs w !! path_str folder) ++ [r])%list]>
             (fs w)) w.

(** [os.path.exists(folder_path)]. *)
Definition path_exists (folder : path) (w : World) : bool :=
  bool_decide (is_Some (fs w !! path_str folder)).

(** Modelled from the spec: the entity stores are persistent and, with
    the version records, live under "the configured primary storage root"
    (sections 2 and 4.4). Removing that folder removes them. *)
Definition wipe_storage (w : World) : World :=
  mkWorld ∅ ∅ ∅ ∅ ∅ ∅ ∅ [] [] (taipy_storage_folder w)
          (fs w) (core_running w) (log w).

(** [shutil.rmtree(folder_path, ignore_errors=True)], on a disk that lets
    the folder be removed: the folder goes with everything in its tree,
    the stores included when the storage folder lies in that tree. *)
Definition rmtree (folder : path) (w : World) : World :=
  let w :=
    with_fs (filter (fun kv => in_tree (path_str folder) (fst kv) = false) (fs w))
            w in
  if in_tree (path_str folder) (taipy_storage_folder w)
  then wipe_storage w
  else w.

(** Modelled from the spec: the decorator [_warn_no_core_service] of
    [submit]. No operation blocks on the execution subsystem (section 5):
    when the Core service is not running the decorator only warns, with the
    message it is given, and then runs the decorated function. *)
Definition _warn_no_core_service {A : Type} (msg : string)
    (f : World -> A * World) (w : World) : A * World :=
  f (if core_running w then w else log_warning (WarnNoCoreService msg) w).

(** The [_EntityIds] container filled by the scenario manager. *)
Record EntityIds : Type := mkEntityIds {
  data_node_ids : gset string;
  task_ids : gset string;
  sequence_ids : gset string;
  cycle_ids : gset string;
  scenario_ids : gset string;
  job_ids : gset string;
  submission_ids : gset string
}.

(** Modelled from the spec: the class attribute [_MANAGER_NAME] of each
    entity class, the key under which [get_parents] groups the parents of
    that kind; the source searches the keys ["scenario"] and ["task"] and
    section 8 names the entries [task] and [scenario]. *)
Definition _MANAGER_NAME (k : Kind) : string :=
  match k with
  | Job => "job"
  | Cycle => "cycle"
  | Scenario => "scenario"
  | Sequence => "sequence"
  | Task => "task"
  | DataNode => "data"
  | Submission => "submission"
  end.

(** What the module takes from its collaborators without this development
    fixing it: the identifier prefixes of the entity classes, the version
    manager's alias resolution, the cascading deletes of the lifecycle
    engine (section 4.3), the managers' deletability checks, the
    submission of an entity to the executor, the collection of the
    entities a scenario owns, the write path of the sequence manager
    (which files a sequence with the scenario that owns it and refuses a
    sequence whose scenario it does not find), and the exception a
    repository raises when it is asked to export a record it does not
    hold. *)
Class Collaborators : Type := {
  _ID_PREFIX : Kind -> string;
  _replace_version_number : World -> value -> outcome string;
  _hard_delete : Kind -> value -> World -> outcome value * World;
  _is_deletable : Kind -> value -> World -> bool;
  _submit : Kind -> value -> bool -> bool -> value -> list (string * value) ->
            World -> outcome value * World;
  _get_children_entity_ids : World -> string -> EntityData -> EntityIds;
  _sequence_set : value -> World -> outcome value * World;
  _export_error : string -> exn
}.

(** Modelled from the spec: the manager's [_set], "an upsert keyed by the
    entity's identifier" (section 4.2), the sole write path of a kind; the
    sequence manager has a write path of its own. *)
Definition _set {C : Collaborators} (k : Kind) (v : value) (w : World)
  : outcome value * World :=
  match k with
  | Sequence => _sequence_set v w
  | Job | Cycle | Scenario | Task | DataNode | Submission =>
      match v with
      | VEnt _ i d => (Ret VNone, with_store k (<[i := d]> (store_of k w)) w)
      | _ => (Raise AttributeError, w)
      end
  end.

(** Modelled from the spec: a manager's [_export], which asks the
    repository "to serialize its matching records to a target location"
    (section 4.4), "one serialized record per entity" (section 6); a record
    the store does not hold cannot be serialized, and the call raises. *)
Definition _export {C : Collaborators} (k : Kind) (i : string) (folder : path)
    (include_data : bool) (w : World) : outcome value * World :=
  match store_of k w !! i with
  | Some _ => (Ret VNone, write_record folder (ExpEntity k i include_data) w)
  | None => (Raise (_export_error i), w)
  end.

(** Modelled from the spec: the version manager's [_export], the same for
    the bookkeeping entry of a version. *)
Definition _version_export {C : Collaborators} (v : string) (folder : path)
    (w : World) : outcome value * World :=
  if bool_decide (v ∈ versions w)
  then (Ret VNone, write_record folder (ExpVersion v) w)
  else (Raise (_export_error v), w).

(** Modelled from the spec: the job manager's [_delete(job, force)]
    (section 4.3): the job "must be in a terminal state unless
    force=true". *)
Definition _job_delete_force (job : value) (force : bool) (w : World)
  : outcome value * World :=
  match job with
  | VEnt _ i d =>
      if finished d || force then _delete Job job w
      else (Raise (JobNotDeletable i), w)
  | _ => (Raise AttributeError, w)
  end.

(** Truth value of a Python object in a condition: [None] and the empty
    string are false, an entity or any other object is true. *)
Definition truthy (v : value) : bool :=
  match v with
  | VNone => false
  | VStr s => negb (bool_decide (s = ""))
  | VEnt _ _ _ | VObj _ => true
  end.

(** Further answers the module takes from the managers as they are: the
    submittability, editability and readability checks, which records of
    its store a manager lists (the managers of versioned kinds filter by
    version), the scenarios of a cycle and of a tag, and
    [scenario.has_tag(tag)]. *)
Class Services : Type := {
  _is_submittable : Kind -> value -> World -> bool;
  _is_editable : Kind -> value -> World -> bool;
  _is_readable : Kind -> value -> World -> bool;
  _listed : Kind -> World -> string -> EntityData -> bool;
  _get_all_by_cycle : value -> World -> list value;
  _get_all_by_tag : value -> World -> list value;
  has_tag : value -> value -> bool
}.

(** Modelled from the spec: a manager's [_get_all], a read of the store of
    its kind (section 2: a manager is "CRUD" over its entity store) that
    returns the records the manager lists. *)
Definition _get_all {S : Services} (k : Kind) (w : World) : list value :=
  (fun kv => VEnt k (fst kv) (snd kv)) <$>
  map_to_list (filter (fun kv => _listed k w (fst kv) (snd kv) = true)
                      (store_of k w)).

(** ** The entry points of the module *)

(** Statements that change the world and may raise, run one after the
    other: an exception ends the run and keeps the world reached. *)
Definition action (A : Type) : Type := World -> outcome A * World.

Definition andthen {A B : Type} (m : action A) (k : action B) : action B :=
  fun w =>
    match m w with
    | (Ret _, w) => k w
    | (Raise e, w) => (Raise e, w)
    end.

Notation "m >> k" := (andthen m k) (at level 65, right associativity).

(** Results of a computation that may exhaust its recursion budget:
    [None] when the budget is exhausted, otherwise a value or an exception. *)
Definition fueled (A : Type) : Type := option (outcome A).

Definition fbind {A B : Type} (m : fueled A) (f : A -> fueled B) : fueled B :=
  match m with
  | None => None
  | Some (Raise e) => Some (Raise e)
  | Some (Ret a) => f a
  end.

Notation "'let*' x ':=' m 'in' k" := (fbind m (fun x => k))
  (at level 10, x name, m at level 100, k at level 200).

(** Modelled from the spec: a Python [set] of entities. "Result sets are
    deduplicated (set semantics)" and never hold two entries "for the same
    entity reached via two paths" (section 4.5): the entity classes hash
    and compare by class and identifier, so a set holds at most one object
    per class and identifier; [s ∪ s'] keeps the objects of [s], as
    [set.update] and [set.add] do. *)
Abbreviation EntitySet := (gmap (Kind * string) EntityData).

(** The dictionary [get_parents] returns: manager name to set of parents. *)
Abbreviation ParentDict := (gmap string (gmap (Kind * string) EntityData)).

Module taipy.
Section Facade.
Context {C : Collaborators}.

(** Modelled from the spec: the predicates of [common._check_instance],
    which accept an instance of the class or a string carrying the
    kind-specific identifier prefix (sections 3 and 4.1). *)
Definition _is_kind (k : Kind) (entity : value) : bool :=
  isinstance entity k || str_startswith entity (_ID_PREFIX k).

Definition _is_job := _is_kind Job.
Definition _is_cycle := _is_kind Cycle.
Definition _is_scenario := _is_kind Scenario.
Definition _is_sequence := _is_kind Sequence.
Definition _is_task := _is_kind Task.
Definition _is_data_node := _is_kind DataNode.
Definition _is_submission := _is_kind Submission.

(** [set(entity)] (lines 68-88). *)
Definition set (entity : value) (w : World) : outcome value * World :=
  if isinstance entity Cycle then _set Cycle entity w
  else if isinstance entity Scenario then _set Scenario entity w
  else if isinstance entity Sequence then _set Sequence entity w
  else if isinstance entity Task then _set Task entity w
  else if isinstance entity DataNode then _set DataNode entity w
  else if isinstance entity Submission then _set Submission entity w
  else (Ret VNone, w).

(** [submit(entity, force, wait, timeout, **properties)] (lines 226-266). *)
Definition submit (entity : value) (force wait : bool) (timeout : value)
    (properties : list (string * value)) : World -> outcome value * World :=
  _warn_no_core_service
    "The submitted entity will not be executed until the Core service is running."
    (fun w =>
       if isinstance entity Scenario
       then _submit Scenario entity force wait timeout properties w
       else if isinstance entity Sequence
       then _submit Sequence entity force wait timeout properties w
       else if isinstance entity Task
       then _submit Task entity force wait timeout properties w
       else (Ret VNone, w)).

(** [exists(entity_id)] (lines 309-346). *)
Definition exists_ (entity_id : value) (w : World) : outcome bool :=
  if _is_job entity_id then Ret (_exists Job entity_id w)
  else if _is_cycle entity_id then Ret (_exists Cycle entity_id w)
  else if _is_scenario entity_id then Ret (_exists Scenario entity_id w)
  else if _is_sequence entity_id then Ret (_exists Sequence entity_id w)
  else if _is_task entity_id then Ret (_exists Task entity_id w)
  else if _is_data_node entity_id then Ret (_exists DataNode entity_id w)
  else if _is_submission entity_id then Ret (_exists Submission entity_id w)
  else Raise (ModelNotFound "NOT_DETERMINED" entity_id).

(** [get(entity_id)] (lines 389-426). *)
Definition get (entity_id : value) (w : World) : outcome value :=
  if _is_job entity_id then Ret (_get Job entity_id w)
  else if _is_cycle entity_id then Ret (_get Cycle entity_id w)
  else if _is_scenario entity_id then Ret (_get Scenario entity_id w)
  else if _is_sequence entity_id then Ret (_get Sequence entity_id w)
  else if _is_task entity_id then Ret (_get Task entity_id w)
  else if _is_data_node entity_id then Ret (_get DataNode entity_id w)
  else if _is_submission entity_id then Ret (_get Submission entity_id w)
  else Raise (ModelNotFound "NOT_DETERMINED" entity_id).

(** [is_deletable(entity)] (lines 440-465). *)
Definition is_deletable (entity : value) (w : World) : bool :=
  if isinstance entity Job then _is_deletable Job entity w
  else if str_startswith entity (_ID_PREFIX Job) then _is_deletable Job entity w
  else if isinstance entity Scenario then _is_deletable Scenario entity w
  else if str_startswith entity (_ID_PREFIX Scenario)
  then _is_deletable Scenario entity w
  else if isinstance entity Submission then _is_deletable Submission entity w
  else if str_startswith entity (_ID_PREFIX Submission)
  then _is_deletable Submission entity w
  else true.

(** [delete(entity_id)] (lines 468-508). *)
Definition delete (entity_id : value) (w : World) : outcome value * World :=
  if _is_job entity_id then _job_delete (_get Job entity_id w) w
  else if _is_cycle entity_id then _hard_delete Cycle entity_id w
  else if _is_scenario entity_id then _hard_delete Scenario entity_id w
  else if _is_sequence entity_id then _hard_delete Sequence entity_id w
  else if _is_task entity_id then _hard_delete Task entity_id w
  else if _is_data_node entity_id then _delete DataNode entity_id w
  else if _is_submission entity_id then _hard_delete Submission entity_id w
  else (Raise (ModelNotFound "NOT_DETERMINED" entity_id), w).

(** [clean_all_entities(version_number)] (lines 899-942). *)
Definition clean_all_entities (version_number : value) (w : World)
  : outcome bool * World :=
  match _replace_version_number w version_number with
  | Raise (NonExistingVersion _) =>
      (Ret false, log_warning (WarnNonExistingVersion version_number) w)
  | Raise e => (Raise e, w)
  | Ret version_number =>
      if bool_decide (version_number ∈ _get_production_versions w)
      then (Ret false, log_warning (WarnProductionVersion version_number) w)
      else
        let w := _delete_by_version Job version_number w in
        let w := _delete_by_version Submission version_number w in
        let w := _delete_by_version Scenario version_number w in
        let w := _delete_by_version Sequence version_number w in
        let w := _delete_by_version Task version_number w in
        let w := _delete_by_version DataNode version_number w in
        match _version_delete version_number w with
        | (Raise e, w) => (Raise e, w)
        | (Ret _, w) =>
            match _delete_production_version version_number w with
            | (Raise (VersionIsNotProductionVersion _), w) => (Ret true, w)
            | (Raise e, w) => (Raise e, w)
            | (Ret _, w) => (Ret true, w)
            end
        end
  end.

(** The [for ..._id in entity_ids.<kind>_ids] loops of [export_scenario]:
    the first export that raises ends the loop, and what was written
    before stays written. *)
Fixpoint export_list (k : Kind) (ids : list string) (folder_path : path)
    (include_data : bool) : action value :=
  match ids with
  | [] => fun w => (Ret VNone, w)
  | i :: ids =>
      _export k i folder_path include_data >>
      export_list k ids folder_path include_data
  end.

Definition export_ids (k : Kind) (ids : gset string) (folder_path : path)
    (include_data : bool) : action value :=
  export_list k (elements ids) folder_path include_data.

Definition export_all (entity_ids : EntityIds) (scenario_version : string)
    (folder_path : path) (include_data : bool) : action value :=
  export_ids DataNode (data_node_ids entity_ids) folder_path include_data >>
  export_ids Task (task_ids entity_ids) folder_path false >>
  export_ids Sequence (sequence_ids entity_ids) folder_path false >>
  export_ids Cycle (cycle_ids entity_ids) folder_path false >>
  export_ids Scenario (scenario_ids entity_ids) folder_path false >>
  export_ids Job (job_ids entity_ids) folder_path false >>
  export_ids Submission (submission_ids entity_ids) folder_path false >>
  _version_export scenario_version folder_path.

(** The identifiers [export_scenario] exports: the children collected by
    the scenario manager, with [scenario_ids] and, when the scenario has a
    cycle, [cycle_ids] overwritten. *)
Definition export_entity_ids (scenario_id : string) (scenario : EntityData)
    (w : World) : EntityIds :=
  let entity_ids := _get_children_entity_ids w scenario_id scenario in
  let entity_ids :=
    mkEntityIds (data_node_ids entity_ids) (task_ids entity_ids)
                (sequence_ids entity_ids) (cycle_ids entity_ids)
                {[scenario_id]}
                (job_ids entity_ids) (submission_ids entity_ids) in
  match cycle scenario with
  | Some cycle_id =>
      mkEntityIds (data_node_ids entity_ids) (task_ids entity_ids)
                  (sequence_ids entity_ids) {[cycle_id]}
                  (scenario_ids entity_ids)
                  (job_ids entity_ids) (submission_ids entity_ids)
  | None => entity_ids
  end.

(** [export_scenario(scenario_id, folder_path, override, include_data)]
    (lines 945-1000). When the scenario manager has no record for
    [scenario_id], [scenario] is [None] and reading its attributes raises
    [AttributeError] before any check of the folder. *)
Definition export_scenario (scenario_id : string) (folder_path : path)
    (override include_data : bool) (w : World) : outcome value * World :=
  match _get Scenario (VStr scenario_id) w with
  | VEnt _ _ scenario =>
      let entity_ids := export_entity_ids scenario_id scenario w in
      if path_eq_str folder_path (taipy_storage_folder w)
      then (Raise (InvalidExportPath
                     "The export folder must not be the storage folder."), w)
      else
        let prepared :=
          if path_exists folder_path w
          then if override
               then Ret (rmtree folder_path
                           (log_warning (WarnOverride (path_str folder_path)) w))
               else Raise (ExportFolderAlreadyExists (path_str folder_path)
                                                     (VStr scenario_id))
          else Ret w in
        match prepared with
        | Raise e => (Raise e, w)
        | Ret w =>
            export_all entity_ids (version scenario) folder_path include_data w
        end
  | _ => (Raise AttributeError, w)
  end.

(** *** [get_parents] (lines 1003-1063) *)

(** The nested helper [update_parent_dict(parents_set, parent_dict)]: for
    each key of [parents_set], update the set already in [parent_dict] or
    store the new set. *)
Definition update_parent_dict (parents_set parent_dict : ParentDict) : ParentDict :=
  map_fold
    (fun k value parent_dict =>
       match parent_dict !! k with
       | Some s => <[k := s ∪ value]> parent_dict
       | None => <[k := value]> parent_dict
       end)
    parent_dict parents_set.

(** [entity.parent_ids]; an object without the attribute raises. The
    classes with the attribute are those of the annotation of
    [get_parents]: [Task], [DataNode] and [Sequence]. *)
Definition attr_parent_ids (entity : value) : outcome (gset string) :=
  match entity with
  | VEnt (Sequence | Task | DataNode) _ d => Ret (parent_ids d)
  | _ => Raise AttributeError
  end.

(** The body of the loop that fills [current_parent_dict]: the parent is
    added to the set under its [_MANAGER_NAME], or opens that set;
    [parent_entity._MANAGER_NAME] raises when [get] returned [None]. *)
Definition add_parent (current_parent_dict : ParentDict) (parent_entity : value)
  : outcome ParentDict :=
  match parent_entity with
  | VEnt k i d =>
      let name := _MANAGER_NAME k in
      Ret (match current_parent_dict !! name with
           | Some s => <[name := s ∪ {[(k, i) := d]}]> current_parent_dict
           | None => <[name := {[(k, i) := d]}]> current_parent_dict
           end)
  | _ => Raise AttributeError
  end.

(** The loop [for parent in entity.parent_ids]. *)
Fixpoint collect_parents (w : World) (ids : list string)
    (current_parent_dict : ParentDict) : outcome ParentDict :=
  match ids with
  | [] => Ret current_parent_dict
  | parent :: ids =>
      match get (VStr parent) w with
      | Raise e => Raise e
      | Ret parent_entity =>
          match add_parent current_parent_dict parent_entity with
          | Raise e => Raise e
          | Ret current_parent_dict => collect_parents w ids current_parent_dict
          end
      end
  end.

(** [parent_dict or {}]: a missing or empty dictionary is replaced by a
    fresh empty one. *)
Definition or_empty (parent_dict : option ParentDict) : ParentDict :=
  match parent_dict with
  | Some pd => if decide (pd = ∅) then ∅ else pd
  | None => ∅
  end.

(** The loop [for parent in parent_dict.get(key, []): get_parents(parent,
    parent_dict)] over a snapshot [xs] of the set found under [key], which
    held [used] entities when the iteration started. The callee works on
    the caller's dictionary object whenever that dictionary is not empty,
    so its result is the caller's dictionary afterwards; the set iterator
    raises [RuntimeError] as soon as the set it walks has changed size. *)
Fixpoint for_parents (rec : value -> option ParentDict -> fueled ParentDict)
    (key : string) (used : nat) (xs : list (Kind * string * EntityData))
    (parent_dict : ParentDict) : fueled ParentDict :=
  match xs with
  | [] => Some (Ret parent_dict)
  | (k, i, d) :: xs =>
      let* r := rec (VEnt k i d) (Some parent_dict) in
      let parent_dict := if decide (parent_dict = ∅) then parent_dict else r in
      if decide (size (default ∅ (parent_dict !! key)) = used)
      then for_parents rec key used xs parent_dict
      else Some (Raise (RuntimeError "Set changed size during iteration"))
  end.

Definition search_next (rec : value -> option ParentDict -> fueled ParentDict)
    (key : string) (parent_dict : ParentDict) : fueled ParentDict :=
  match parent_dict !! key with
  | Some s => for_parents rec key (size s) (map_to_list s) parent_dict
  | None => Some (Ret parent_dict)
  end.

(** [get_parents(entity, parent_dict)]; [fuel] bounds the depth of the
    nested activations, the outermost call included. *)
Fixpoint get_parents (fuel : nat) (w : World) (entity : value)
    (parent_dict : option ParentDict) {struct fuel} : fueled ParentDict :=
  match fuel with
  | 0 => None
  | S fuel =>
      let* entity := Some (if is_str entity then get entity w else Ret entity) in
      let parent_dict := or_empty parent_dict in
      if isinstance entity Scenario || isinstance entity Cycle
      then Some (Ret parent_dict)
      else
        let* ids := Some (attr_parent_ids entity) in
        let* current_parent_dict := Some (collect_parents w (elements ids) ∅) in
        let* parent_dict :=
          if isinstance entity Sequence
          then Some (Ret (update_parent_dict current_parent_dict parent_dict))
          else Some (Ret parent_dict) in
        let* parent_dict :=
          if isinstance entity Task
          then search_next (get_parents fuel w) "scenario"
                 (update_parent_dict current_parent_dict parent_dict)
          else Some (Ret parent_dict) in
        let* parent_dict :=
          if isinstance entity DataNode
          then search_next (get_parents fuel w) "task"
                 (update_parent_dict current_parent_dict parent_dict)
          else Some (Ret parent_dict) in
        Some (Ret parent_dict)
  end.

(** *** The other entry points *)

Context {S : Services}.

(** [is_submittable(entity)] (lines 91-111). *)
Definition is_submittable (entity : value) (w : World) : bool :=
  if isinstance entity Scenario then _is_submittable Scenario entity w
  else if str_startswith entity (_ID_PREFIX Scenario)
  then _is_submittable Scenario entity w
  else if isinstance entity Sequence then _is_submittable Sequence entity w
  else if str_startswith entity (_ID_PREFIX Sequence)
  then _is_submittable Sequence entity w
  else if isinstance entity Task then _is_submittable Task entity w
  else if str_startswith entity (_ID_PREFIX Task)
  then _is_submittable Task entity w
  else false.

(** [is_editable(entity)] (lines 114-167). *)
Definition is_editable (entity : value) (w : World) : bool :=
  if isinstance entity Cycle then _is_editable Cycle entity w
  else if str_startswith entity (_ID_PREFIX Cycle) then _is_editable Cycle entity w
  else if isinstance entity Scenario then _is_editable Scenario entity w
  else if str_startswith entity (_ID_PREFIX Scenario)
  then _is_editable Scenario entity w
  else if isinstance entity Sequence then _is_editable Sequence entity w
  else if str_startswith entity (_ID_PREFIX Sequence)
  then _is_editable Sequence entity w
  else if isinstance entity Task then _is_editable Task entity w
  else if str_startswith entity (_ID_PREFIX Task) then _is_editable Task entity w
  else if isinstance entity Job then _is_editable Job entity w
  else if str_startswith entity (_ID_PREFIX Job) then _is_editable Job entity w
  else if isinstance entity DataNode then _is_editable DataNode entity w
  else if str_startswith entity (_ID_PREFIX DataNode)
  then _is_editable DataNode entity w
  else if isinstance entity Submission then _is_editable Submission entity w
  else if str_startswith entity (_ID_PREFIX Submission)
  then _is_editable Submission entity w
  else false.

(** [is_readable(entity)] (lines 170-223). *)
Definition is_readable (entity : value) (w : World) : bool :=
  if isinstance entity Cycle then _is_readable Cycle entity w
  else if str_startswith entity (_ID_PREFIX Cycle) then _is_readable Cycle entity w
  else if isinstance entity Scenario then _is_readable Scenario entity w
  else if str_startswith entity (_ID_PREFIX Scenario)
  then _is_readable Scenario entity w
  else if isinstance entity Sequence then _is_readable Sequence entity w
  else if str_startswith entity (_ID_PREFIX Sequence)
  then _is_readable Sequence entity w
  else if isinstance entity Task then _is_readable Task entity w
  else if str_startswith entity (_ID_PREFIX Task) then _is_readable Task entity w
  else if isinstance entity Job then _is_readable Job entity w
  else if str_startswith entity (_ID_PREFIX Job) then _is_readable Job entity w
  else if isinstance entity DataNode then _is_readable DataNode entity w
  else if str_startswith entity (_ID_PREFIX DataNode)
  then _is_readable DataNode entity w
  else if isinstance entity Submission then _is_readable Submission entity w
  else if str_startswith entity (_ID_PREFIX Submission)
  then _is_readable Submission entity w
  else false.

(** [get_tasks()], [get_sequences()], [get_jobs()], [get_submissions()],
    [get_data_nodes()], [get_cycles()] (lines 429-437 and 727-832). *)
Definition get_tasks (w : World) : list value := _get_all Task w.
Definition get_sequences (w : World) : list value := _get_all Sequence w.
Definition get_jobs (w : World) : list value := _get_all Job w.
Definition get_submissions (w : World) : list value := _get_all Submission w.
Definition get_data_nodes (w : World) : list value := _get_all DataNode w.
Definition get_cycles (w : World) : list value := _get_all Cycle w.

(** [get_scenarios(cycle, tag)] (lines 511-537). *)
Definition get_scenarios (cycle tag : value) (w : World) : list value :=
  if negb (truthy cycle) && negb (truthy tag) then _get_all Scenario w
  else if truthy cycle && negb (truthy tag) then _get_all_by_cycle cycle w
  else if negb (truthy cycle) && truthy tag then _get_all_by_tag tag w
  else if truthy cycle && truthy tag
  then filter (fun scenario => has_tag scenario tag = true)
         (_get_all_by_cycle cycle w)
  else [].

(** [delete_job(job, force)] (lines 754-768). *)
Definition delete_job (job : value) (force : bool) (w : World)
  : outcome value * World :=
  _job_delete_force job force w.

(** The loop of [get_cycles_scenarios]: the scenario is appended to the
    list under its cycle, or opens that list. The key is the cycle of the
    scenario, kept as its identifier, or [None]; [scenario.cycle] raises on
    an object that is no entity. *)
Fixpoint group_by_cycle (scenarios : list value)
    (cycles_scenarios : gmap (option string) (list value))
  : outcome (gmap (option string) (list value)) :=
  match scenarios with
  | [] => Ret cycles_scenarios
  | scenario :: scenarios =>
      match scenario with
      | VEnt _ _ d =>
          group_by_cycle scenarios
            (match cycles_scenarios !! cycle d with
             | Some l => <[cycle d := (l ++ [scenario])%list]> cycles_scenarios
             | None => <[cycle d := [scenario]]> cycles_scenarios
             end)
      | _ => Raise AttributeError
      end
  end.

(** [get_cycles_scenarios()] (lines 1066-1079). *)
Definition get_cycles_scenarios (w : World)
  : outcome (gmap (option string) (list value)) :=
  group_by_cycle (get_scenarios VNone VNone w) ∅.

End Facade.
End taipy.

(** ** Notions of the specification *)

(** Section 4.1: the kinds are "tried in a fixed priority order (Job,
    Cycle, Scenario, Sequence, Task, DataNode, Submission)". *)
Definition priority : list Kind :=
  [Job; Cycle; Scenario; Sequence; Task; DataNode; Submission].

(** The position of a kind in [priority]. *)
Definition rank (k : Kind) : nat := Kind_to_nat k.

(** Section 4.1: [kind_of(id)] is the first kind of [priority] whose prefix
    starts [id], or no kind at all. *)
Definition kind_of {C : Collaborators} (id : string) : option Kind :=
  List.find (fun k => String.prefix (_ID_PREFIX k) id) priority.

(** Section 3: "no two kinds share a prefix", read as: the prefix of one
    kind never starts the prefix of another one. *)
Definition prefix_free {C : Collaborators} : Prop :=
  forall k1 k2 : Kind,
    k1 <> k2 -> String.prefix (_ID_PREFIX k1) (_ID_PREFIX k2) = false.

(** What [delete] does once the kind is known (section 4.3): the job
    manager deletes the job it looked up, the data manager deletes the one
    record, every other manager runs its cascading delete. *)
Definition delete_of_kind {C : Collaborators} (k : Kind) (entity_id : value)
    (w : World) : outcome value * World :=
  match k with
  | Job => _job_delete (_get Job entity_id w) w
  | DataNode => _delete DataNode entity_id w
  | Cycle | Scenario | Sequence | Task | Submission => _hard_delete k entity_id w
  end.

(** What a single-record delete may change: at most the record [i] of the
    store of kind [k]. *)
Definition removes_only (k : Kind) (i : string) (w w' : World) : Prop :=
  (forall k', k' <> k -> store_of k' w' = store_of k' w) /\
  (forall j, j <> i -> store_of k w' !! j = store_of k w !! j) /\
  versions w' = versions w /\
  production_versions w' = production_versions w /\
  fs w' = fs w /\
  log w' = log w.

(** The records [export_all] writes, in the order of its loops. *)
Definition exported_records (entity_ids : EntityIds) (scenario_version : string)
    (include_data : bool) : list Exported :=
  ((fun i => ExpEntity DataNode i include_data) <$> elements (data_node_ids entity_ids))
  ++ ((fun i => ExpEntity Task i false) <$> elements (task_ids entity_ids))
  ++ ((fun i => ExpEntity Sequence i false) <$> elements (sequence_ids entity_ids))
  ++ ((fun i => ExpEntity Cycle i false) <$> elements (cycle_ids entity_ids))
  ++ ((fun i => ExpEntity Scenario i false) <$> elements (scenario_ids entity_ids))
  ++ ((fun i => ExpEntity Job i false) <$> elements (job_ids entity_ids))
  ++ ((fun i => ExpEntity Submission i false) <$> elements (submission_ids entity_ids))
  ++ [ExpVersion scenario_version].

Definition write_all (folder : path) (rs : list Exported) (w : World) : World :=
  foldl (fun w r => write_record folder r w) w rs.

(** Whether the repositories hold what a record serializes, and the name
    under which they hold it. *)
Definition exportable (w : World) (r : Exported) : bool :=
  match r with
  | ExpEntity k i _ => bool_decide (is_Some (store_of k w !! i))
  | ExpVersion v => bool_decide (v ∈ versions w)
  end.

Definition record_name (r : Exported) : string :=
  match r with ExpEntity _ i _ => i | ExpVersion v => v end.

(** Writing a list of records until one cannot be exported. *)
Fixpoint write_until {C : Collaborators} (folder : path) (rs : list Exported)
    (w : World) : outcome value * World :=
  match rs with
  | [] => (Ret VNone, w)
  | r :: rs =>
      if exportable w r
      then write_until folder rs (write_record folder r w)
      else (Raise (_export_error (record_name r)), w)
  end.

(** The entity an argument of [get_parents] stands for: the object itself,
    or what [get] returns for an identifier. *)
Definition denotes {C : Collaborators} (w : World) (v : value) (k : Kind)
    (i : string) (d : EntityData) : Prop :=
  v = VEnt k i d \/
  exists s, v = VStr s /\ taipy.get (VStr s) w = Ret (VEnt k i d).

(** The set found under a key after [update_parent_dict]. *)
Definition merge_sets (old new : option EntitySet) : option EntitySet :=
  match old, new with
  | Some s, Some v => Some (s ∪ v)
  | Some s, None => Some s
  | None, new => new
  end.

(** A dictionary is well keyed when every set holds entities of the class
    whose manager name is the key of the set: what [get_parents] builds. *)
Definition well_keyed (pd : ParentDict) : Prop :=
  forall n s k i d,
    pd !! n = Some s -> s !! (k, i) = Some d -> _MANAGER_NAME k = n.

(** The entity of class [k] and identifier [i] is in the dictionary. *)
Definition has_parent (pd : ParentDict) (k : Kind) (i : string) : Prop :=
  exists s, pd !! _MANAGER_NAME k = Some s /\ is_Some (s !! (k, i)).

(** Every entity of the dictionary is a record of the store of its class,
    filed under the manager name of that class. *)
Definition from_stores (w : World) (pd : ParentDict) : Prop :=
  forall n s k i d,
    pd !! n = Some s -> s !! (k, i) = Some d ->
    _MANAGER_NAME k = n /\ store_of k w !! i = Some d.

(** [scenario.cycle], as the key [get_cycles_scenarios] files a scenario
    under. *)
Definition scenario_cycle (scenario : value) : option string :=
  match scenario with
  | VEnt _ _ d => cycle d
  | _ => None
  end.

(** The list found under a key once further scenarios were filed. *)
Definition joined (old : option (list value)) (new : list value)
  : option (list value) :=
  match old, new with
  | None, [] => None
  | None, _ :: _ => Some new
  | Some l, _ => Some (l ++ new)%list
  end.

(** The field of an [_EntityIds] container that holds the identifiers of a
    kind. *)
Definition ids_of (k : Kind) (entity_ids : EntityIds) : gset string :=
  match k with
  | Job => job_ids entity_ids
  | Cycle => cycle_ids entity_ids
  | Scenario => scenario_ids entity_ids
  | Sequence => sequence_ids entity_ids
  | Task => task_ids entity_ids
  | DataNode => data_node_ids entity_ids
  | Submission => submission_ids entity_ids
  end.

(** ** A concrete deployment

    The identifier prefixes of the released classes, a version manager that
    resolves the versions it knows, managers whose cascade stops at the
    record itself, and a small world: a data node shared by two tasks of
    one scenario, which belongs to a cycle; one of the tasks also belongs
    to a sequence of that scenario. The storage folder and one earlier
    export are on the disk. *)
Module Demo.

Definition prefixes (k : Kind) : string :=
  match k with
  | Job => "JOB"
  | Cycle => "CYCLE"
  | Scenario => "SCENARIO"
  | Sequence => "SEQUENCE"
  | Task => "TASK"
  | DataNode => "DATANODE"
  | Submission => "SUBMISSION"
  end.

Definition resolve_version (w : World) (v : value) : outcome string :=
  match v with
  | VStr s =>
      if bool_decide (s ∈ versions w) then Ret s
      else Raise (NonExistingVersion v)
  | _ => Raise (NonExistingVersion v)
  end.

Definition terminal (k : Kind) (v : value) (w : World) : bool :=
  match _get k v w with
  | VEnt _ _ d => finished d
  | _ => false
  end.

Definition children (w : World) (scenario_id : string) (scenario : EntityData)
  : EntityIds :=
  mkEntityIds {["DATANODE_d"]} {["TASK_t"; "TASK_u"]} ∅ ∅ ∅ ∅ ∅.

(** The sequence manager files a sequence when one of its owners is a
    stored scenario. *)
Definition set_sequence (v : value) (w : World) : outcome value * World :=
  match v with
  | VEnt _ i d =>
      if existsb (fun p => bool_decide (is_Some (scenario_store w !! p)))
                 (elements (parent_ids d))
      then (Ret VNone, with_store Sequence (<[i := d]> (sequence_store w)) w)
      else (Raise (SequenceBelongsToNonExistingScenario i), w)
  | _ => (Raise AttributeError, w)
  end.

Definition demo : Collaborators := {|
  _ID_PREFIX := prefixes;
  _replace_version_number := resolve_version;
  _hard_delete := _delete;
  _is_deletable := terminal;
  _submit := fun k entity force wait timeout properties w => (Ret entity, w);
  _get_children_entity_ids := children;
  _sequence_set := set_sequence;
  _export_error := fun i => ModelNotFound "" (VStr i)
|}.

(** Tags are not part of the records kept here: the demonstration managers
    know the tag ["reference"], worn by the one scenario. *)
Definition is_reference (tag : value) : bool :=
  match tag with
  | VStr t => String.eqb t "reference"
  | _ => false
  end.

Definition in_cycle (c scenario : value) : bool :=
  match scenario, c with
  | VEnt _ _ d, VEnt _ i _ => bool_decide (cycle d = Some i)
  | _, _ => false
  end.

(** The version the demonstration application runs: the managers of the
    versioned kinds list its records; cycles have no version. *)
Definition current_version : string := "1.0".

Definition listed (k : Kind) (w : World) (i : string) (d : EntityData) : bool :=
  match k with
  | Cycle => true
  | _ => String.eqb (version d) current_version
  end.

Definition stored_scenarios (w : World) : list value :=
  (fun kv => VEnt Scenario (fst kv) (snd kv)) <$> map_to_list (scenario_store w).

Definition services : Services := {|
  _is_submittable := fun k entity w => true;
  _is_editable := fun k entity w => true;
  _is_readable := fun k entity w => true;
  _listed := listed;
  _get_all_by_cycle := fun c w => List.filter (in_cycle c) (stored_scenarios w);
  _get_all_by_tag := fun t w =>
    if is_reference t then stored_scenarios w else [];
  has_tag := fun s t => is_reference t
|}.

Definition ent (v : string) (parents : list string) (c : option string)
    (f : bool) : EntityData :=
  mkEntityData v (list_to_set parents) c f.

Definition w0 : World :=
  mkWorld {["JOB_j" := ent "1.0" [] None true]}
          {["CYCLE_c" := ent "" [] None false]}
          {["SCENARIO_s" := ent "1.0" [] (Some "CYCLE_c") false]}
          {["SEQUENCE_q" := ent "1.0" ["SCENARIO_s"] None false]}
          {["TASK_t" := ent "1.0" ["SCENARIO_s"; "SEQUENCE_q"] None false;
            "TASK_u" := ent "1.0" ["SCENARIO_s"] None false]}
          {["DATANODE_d" := ent "1.0" ["TASK_t"; "TASK_u"] None false]}
          ∅
          ["1.0"; "2.0"] ["2.0"] "user_data"
          {["user_data" := []; "export" := [ExpVersion "0.9"]]}
          true [].

End Demo.

(** * Properties *)

(** ** Stores *)

Lemma store_of_with_store_eq (k : Kind) (m : gmap string EntityData) (w : World) :
  store_of k (with_store k m w) = m.
Proof. destruct k; reflexivity. Qed.

Lemma store_of_with_store_ne (k k' : Kind) (m : gmap string EntityData) (w : World) :
  k' <> k -> store_of k' (with_store k m w) = store_of k' w.
Proof. destruct k, k'; intros Hne; try reflexivity; congruence. Qed.

Lemma priority_rank (k : Kind) : priority !! rank k = Some k.
Proof. destruct k; reflexivity. Qed.

(** ** The entity router *)

Section Router.
Context {C : Collaborators}.

(** A chain of prefix tests in the order of [priority] selects what
    [kind_of] selects. *)
Lemma prefix_chain {A : Type} (s : string) (f : Kind -> A) (g : A) :
  (if taipy._is_job (VStr s) then f Job
   else if taipy._is_cycle (VStr s) then f Cycle
   else if taipy._is_scenario (VStr s) then f Scenario
   else if taipy._is_sequence (VStr s) then f Sequence
   else if taipy._is_task (VStr s) then f Task
   else if taipy._is_data_node (VStr s) then f DataNode
   else if taipy._is_submission (VStr s) then f Submission
   else g)
  = match kind_of s with Some k => f k | None => g end.
Proof.
  unfold kind_of, priority, taipy._is_job, taipy._is_cycle, taipy._is_scenario,
    taipy._is_sequence, taipy._is_task, taipy._is_data_node,
    taipy._is_submission, taipy._is_kind.
  cbn [List.find isinstance str_startswith orb].
  repeat (match goal with
          | |- context [String.prefix ?p s] => destruct (String.prefix p s)
          end; try reflexivity).
Qed.

Lemma kind_of_Some (s : string) (k : Kind) :
  kind_of s = Some k <->
  String.prefix (_ID_PREFIX k) s = true /\
  forall k', rank k' < rank k -> String.prefix (_ID_PREFIX k') s = false.
Proof.
  unfold kind_of, priority. cbn [List.find].
  split.
  - intros H.
    repeat match type of H with
           | (if String.prefix ?p s then _ else _) = _ =>
               let E := fresh "E" in
               destruct (String.prefix p s) eqn:E
           end;
      try discriminate; injection H as <-;
      (split; [assumption |]);
      intros [] Hlt; cbn in Hlt; try lia; assumption.
  - intros [Hk Hlow].
    destruct k;
      repeat match goal with
             | |- context [String.prefix (_ID_PREFIX ?k') s] =>
                 first [ rewrite Hk
                       | rewrite (Hlow k') by (cbn; lia) ]
             end; reflexivity.
Qed.

Lemma kind_of_None (s : string) :
  kind_of s = None <-> forall k, String.prefix (_ID_PREFIX k) s = false.
Proof.
  unfold kind_of, priority. cbn [List.find].
  split.
  - intros H.
    repeat match type of H with
           | (if String.prefix ?p s then _ else _) = _ =>
               let E := fresh "E" in
               destruct (String.prefix p s) eqn:E
           end;
      try discriminate.
    intros []; assumption.
  - intros H. rewrite !H. reflexivity.
Qed.

(** C2. For every identifier string, [get], [exists] and [delete] resolve
    the kind by trying the prefixes in the order Job, Cycle, Scenario,
    Sequence, Task, DataNode, Submission: the kind selected is the first
    one of that order whose prefix starts the identifier (one kind, or
    none), each function hands the identifier to the manager of that kind,
    and when no prefix matches each of them raises
    [ModelNotFound("NOT_DETERMINED", id)], [delete] leaving the world as it
    was. *)
Theorem kind_resolution_priority (s : string) (w : World) :
  (forall k, kind_of s = Some k <->
             String.prefix (_ID_PREFIX k) s = true /\
             forall k', rank k' < rank k ->
                        String.prefix (_ID_PREFIX k') s = false) /\
  (kind_of s = None <-> forall k, String.prefix (_ID_PREFIX k) s = false) /\
  match kind_of s with
  | Some k =>
      taipy.get (VStr s) w = Ret (_get k (VStr s) w) /\
      taipy.exists_ (VStr s) w = Ret (_exists k (VStr s) w) /\
      taipy.delete (VStr s) w = delete_of_kind k (VStr s) w
  | None =>
      taipy.get (VStr s) w = Raise (ModelNotFound "NOT_DETERMINED" (VStr s)) /\
      taipy.exists_ (VStr s) w = Raise (ModelNotFound "NOT_DETERMINED" (VStr s)) /\
      taipy.delete (VStr s) w = (Raise (ModelNotFound "NOT_DETERMINED" (VStr s)), w)
  end.
Proof.
  split; [intros k; apply kind_of_Some |].
  split; [apply kind_of_None |].
  pose proof (prefix_chain s (fun k => Ret (_get k (VStr s) w))
                (Raise (ModelNotFound "NOT_DETERMINED" (VStr s)))) as Hget.
  pose proof (prefix_chain s (fun k => Ret (_exists k (VStr s) w))
                (Raise (ModelNotFound "NOT_DETERMINED" (VStr s)))) as Hex.
  pose proof (prefix_chain s (fun k => delete_of_kind k (VStr s) w)
                (Raise (ModelNotFound "NOT_DETERMINED" (VStr s)), w)) as Hdel.
  unfold taipy.get, taipy.exists_, taipy.delete.
  cbn [delete_of_kind] in Hdel.
  rewrite Hget, Hex, Hdel.
  destruct (kind_of s); auto.
Qed.

End Router.

(** Two prefixes of one string: one of them starts the other. *)
Lemma prefix_common (p1 p2 s : string) :
  String.prefix p1 s = true -> String.prefix p2 s = true ->
  String.prefix p1 p2 = true \/ String.prefix p2 p1 = true.
Proof.
  revert p2 s. induction p1 as [|a p1 IH]; intros p2 s H1 H2.
  - left. destruct p2; reflexivity.
  - destruct p2 as [|b p2]; [right; reflexivity |].
    destruct s as [|c s]; [discriminate H1 |].
    cbn in H1, H2 |- *.
    destruct (Ascii.ascii_dec a c) as [->|]; [| discriminate H1].
    destruct (Ascii.ascii_dec b c) as [->|]; [| discriminate H2].
    destruct (Ascii.ascii_dec c c) as [_|Hne]; [| contradiction].
    eapply IH; eassumption.
Qed.

Lemma removes_only_refl (k : Kind) (i : string) (w : World) :
  removes_only k i w w.
Proof. repeat split. Qed.

Lemma removes_only_delete (k : Kind) (i : string) (w : World) :
  removes_only k i w (with_store k (delete i (store_of k w)) w).
Proof.
  split; [| split].
  - intros k' Hne. apply store_of_with_store_ne, Hne.
  - intros j Hne. rewrite store_of_with_store_eq.
    apply lookup_delete_ne. congruence.
  - destruct k; repeat split.
Qed.

Section Dispatch.
Context {C : Collaborators}.

(** Under [prefix_free] an identifier carries the prefix of one kind only. *)
Lemma prefix_unique (s : string) (k k' : Kind) :
  prefix_free -> String.prefix (_ID_PREFIX k) s = true -> k' <> k ->
  String.prefix (_ID_PREFIX k') s = false.
Proof.
  intros Hfree Hk Hne.
  destruct (String.prefix (_ID_PREFIX k') s) eqn:Hk'; [| reflexivity].
  destruct (prefix_common _ _ _ Hk Hk') as [H|H].
  - rewrite (Hfree k k') in H by congruence. discriminate.
  - rewrite (Hfree k' k) in H by congruence. discriminate.
Qed.

(** C4. For an identifier whose kind resolves, [delete] dispatches on the
    kind: a Cycle, Scenario, Sequence, Task or Submission identifier goes to
    the cascading [_hard_delete] of the manager of that kind; a DataNode
    identifier goes to the data manager's plain [_delete], which removes
    that one record (or raises [ModelNotFound] and changes nothing); a Job
    identifier deletes the job the job manager holds under it, provided it
    has finished, and nothing else. *)
Theorem delete_dispatch (s : string) (k : Kind) (w : World) :
  kind_of s = Some k ->
  match k with
  | Cycle | Scenario | Sequence | Task | Submission =>
      taipy.delete (VStr s) w = _hard_delete k (VStr s) w
  | DataNode =>
      taipy.delete (VStr s) w = _delete DataNode (VStr s) w /\
      taipy.delete (VStr s) w =
        match data_store w !! s with
        | Some _ => (Ret VNone, with_store DataNode (delete s (data_store w)) w)
        | None => (Raise (ModelNotFound "" (VStr s)), w)
        end /\
      removes_only DataNode s w (snd (taipy.delete (VStr s) w))
  | Job =>
      taipy.delete (VStr s) w =
        match job_store w !! s with
        | Some d =>
            if finished d
            then (Ret VNone, with_store Job (delete s (job_store w)) w)
            else (Raise (JobNotDeletable s), w)
        | None => (Raise AttributeError, w)
        end /\
      removes_only Job s w (snd (taipy.delete (VStr s) w))
  end.
Proof.
  intros Hk.
  pose proof (prefix_chain s (fun k => delete_of_kind k (VStr s) w)
                (Raise (ModelNotFound "NOT_DETERMINED" (VStr s)), w)) as Hdel.
  cbn [delete_of_kind] in Hdel. fold (taipy.delete (VStr s) w) in Hdel.
  rewrite Hk in Hdel.
  destruct k; cbn [delete_of_kind] in Hdel; try exact Hdel.
  - (* Job *)
    assert (Heq : taipy.delete (VStr s) w =
                  match job_store w !! s with
                  | Some d =>
                      if finished d
                      then (Ret VNone, with_store Job (delete s (job_store w)) w)
                      else (Raise (JobNotDeletable s), w)
                  | None => (Raise AttributeError, w)
                  end).
    { rewrite Hdel. unfold _job_delete, _get, _delete. cbn.
      destruct (job_store w !! s) as [d|] eqn:E; [| reflexivity].
      destruct (finished d); [| reflexivity].
      cbn. rewrite E. reflexivity. }
    split; [exact Heq |]. rewrite Heq.
    destruct (job_store w !! s) as [d|]; [destruct (finished d) |]; cbn;
      first [apply (removes_only_delete Job) | apply removes_only_refl].
  - (* DataNode *)
    assert (Heq : taipy.delete (VStr s) w =
                  match data_store w !! s with
                  | Some _ =>
                      (Ret VNone, with_store DataNode (delete s (data_store w)) w)
                  | None => (Raise (ModelNotFound "" (VStr s)), w)
                  end).
    { rewrite Hdel. unfold _delete. cbn. reflexivity. }
    split; [exact Hdel |]. split; [exact Heq |]. rewrite Heq.
    destruct (data_store w !! s); cbn;
      first [apply (removes_only_delete DataNode) | apply removes_only_refl].
Qed.

(** C7. [is_deletable] returns [True] for every DataNode, Task, Sequence or
    Cycle input, entity or identifier, and for every input of no kind at
    all; a Job, Scenario or Submission input is answered by the
    [_is_deletable] of the manager of its kind. Identifiers are told apart
    by their prefixes, which no two kinds share. *)
Theorem is_deletable_default (v : value) (w : World) :
  prefix_free ->
  (forall k, taipy._is_kind k v = true ->
     match k with
     | Job | Scenario | Submission =>
         taipy.is_deletable v w = _is_deletable k v w
     | Cycle | Sequence | Task | DataNode =>
         taipy.is_deletable v w = true
     end) /\
  ((forall k, taipy._is_kind k v = false) -> taipy.is_deletable v w = true).
Proof.
  intros Hfree. split.
  - intros k Hk. unfold taipy._is_kind in Hk. unfold taipy.is_deletable.
    destruct v as [| s | k0 i d | c]; cbn in Hk; try discriminate.
    + cbn [isinstance str_startswith].
      destruct k; rewrite ?Hk;
        rewrite ?(prefix_unique s _ Job Hfree Hk) by discriminate;
        rewrite ?(prefix_unique s _ Scenario Hfree Hk) by discriminate;
        rewrite ?(prefix_unique s _ Submission Hfree Hk) by discriminate;
        reflexivity.
    + rewrite orb_false_r in Hk. apply bool_decide_eq_true in Hk. subst k0.
      destruct k; reflexivity.
  - intros Hnone. unfold taipy.is_deletable.
    pose proof (Hnone Job) as HJ. pose proof (Hnone Scenario) as HS.
    pose proof (Hnone Submission) as HU.
    unfold taipy._is_kind in HJ, HS, HU.
    apply orb_false_iff in HJ as [-> ->], HS as [-> ->], HU as [-> ->].
    reflexivity.
Qed.

(** C9. For every argument that is not a Scenario, Sequence or Task
    instance, [submit] hands nothing to any manager and returns [None];
    the only trace it leaves is the decorator's warning when the Core
    service is not running, and no store changes. *)
Theorem submit_other_returns_none (entity : value) (force wait : bool)
    (timeout : value) (properties : list (string * value)) (w : World) :
  isinstance entity Scenario = false ->
  isinstance entity Sequence = false ->
  isinstance entity Task = false ->
  taipy.submit entity force wait timeout properties w =
    (Ret VNone,
     if core_running w then w
     else log_warning
            (WarnNoCoreService
               "The submitted entity will not be executed until the Core service is running.")
            w) /\
  forall k, store_of k (snd (taipy.submit entity force wait timeout properties w))
            = store_of k w.
Proof.
  intros H1 H2 H3.
  unfold taipy.submit, _warn_no_core_service. rewrite H1, H2, H3.
  split; [reflexivity |].
  intros k. cbn [snd]. destruct (core_running w); [reflexivity |].
  destruct k; reflexivity.
Qed.

(** C10. [set] accepts a Submission entity, although its annotation omits
    the class, and passes it to the Submission manager's [_set], which
    upserts the record under the entity's identifier; for every argument
    that is none of Cycle, Scenario, Sequence, Task, DataNode or
    Submission, [set] returns [None], raises nothing and leaves the world
    as it was. *)
Theorem set_submission_and_default (w : World) :
  (forall i d,
     taipy.set (VEnt Submission i d) w = _set Submission (VEnt Submission i d) w /\
     taipy.set (VEnt Submission i d) w =
       (Ret VNone, with_store Submission (<[i := d]> (submission_store w)) w)) /\
  (forall v,
     isinstance v Cycle = false -> isinstance v Scenario = false ->
     isinstance v Sequence = false -> isinstance v Task = false ->
     isinstance v DataNode = false -> isinstance v Submission = false ->
     taipy.set v w = (Ret VNone, w)).
Proof.
  split.
  - intros i d. split; reflexivity.
  - intros v H1 H2 H3 H4 H5 H6. unfold taipy.set.
    rewrite H1, H2, H3, H4, H5, H6. reflexivity.
Qed.

End Dispatch.

(** ** The version coordinator *)

(** A scenario is the sole scenario of its cycle exactly when one scenario
    is attached to the cycle. *)
Lemma sole_scenario (c i : string) (d : EntityData)
    (scenarios : gmap string EntityData) :
  scenarios !! i = Some d -> cycle d = Some c ->
  size (attached_to c scenarios) = 1 <->
  forall j e, scenarios !! j = Some e -> cycle e = Some c -> j = i.
Proof.
  intros Hi Hc. unfold attached_to.
  set (m := filter (fun kv : string * EntityData => cycle (snd kv) = Some c) scenarios).
  assert (Hm : m !! i = Some d) by (apply map_lookup_filter_Some; auto).
  assert (Hsize : size (delete i m) = pred (size m))
    by (apply map_size_delete_Some; eauto).
  assert (Hpos : size m <> 0).
  { apply map_size_ne_0_lookup. exists i. eauto. }
  split.
  - intros H1 j e Hj He. destruct (decide (j = i)) as [|Hne]; [assumption |].
    rewrite H1 in Hsize. cbn in Hsize. apply map_size_empty_iff in Hsize.
    assert (Hin : delete i m !! j = Some e).
    { rewrite lookup_delete_ne by congruence.
      apply map_lookup_filter_Some. auto. }
    rewrite Hsize, lookup_empty in Hin. discriminate.
  - intros Huniq.
    assert (Hempty : delete i m = ∅).
    { apply map_empty. intros j. destruct (decide (j = i)) as [->|Hne].
      - apply lookup_delete_eq.
      - rewrite lookup_delete_ne by congruence.
        destruct (m !! j) as [e|] eqn:E; [| reflexivity].
        apply map_lookup_filter_Some in E as [E1 E2]. cbn in E2.
        destruct Hne. exact (Huniq j e E1 E2). }
    rewrite Hempty, map_size_empty in Hsize. lia.
Qed.

(** The scenario manager's loop over a list of stored scenarios: the
    scenarios of the list are deleted; a cycle is deleted when scenarios of
    the list are attached to it and no other scenario is, and is kept
    otherwise. *)
Lemma delete_scenarios_of_version (l : list (string * EntityData))
    (scenarios cycles : gmap string EntityData) :
  NoDup l.*1 ->
  (forall i d, (i, d) ∈ l -> scenarios !! i = Some d) ->
  let st := foldl _delete_scenario_of_version (scenarios, cycles) l in
  (forall i, fst st !! i = if decide (i ∈ l.*1) then None else scenarios !! i) /\
  (forall c, (exists i d, (i, d) ∈ l /\ cycle d = Some c) ->
     (forall j e, scenarios !! j = Some e -> cycle e = Some c -> j ∈ l.*1) ->
     snd st !! c = None) /\
  (forall c j e, scenarios !! j = Some e -> cycle e = Some c -> j ∉ l.*1 ->
     snd st !! c = cycles !! c) /\
  (forall c, (forall i d, (i, d) ∈ l -> cycle d <> Some c) ->
     snd st !! c = cycles !! c) /\
  (forall c, cycles !! c = None -> snd st !! c = None).
Proof.
  revert scenarios cycles.
  induction l as [|[i d] l IH]; intros scenarios cycles Hnd Hl st.
  - subst st. cbn. split; [auto |]. split; [| auto].
    intros c (i & d & Hin & _). apply elem_of_nil in Hin. contradiction.
  - cbn in Hnd. apply NoDup_cons in Hnd as [Hi Hnd].
    assert (Hid : scenarios !! i = Some d) by (apply Hl, list_elem_of_here).
    subst st.
    pose (cycles1 := match cycle d with
                     | Some c =>
                         if bool_decide (size (attached_to c scenarios) = 1)
                         then delete c cycles else cycles
                     | None => cycles
                     end).
    change (foldl _delete_scenario_of_version (scenarios, cycles) ((i, d) :: l))
      with (foldl _delete_scenario_of_version (delete i scenarios, cycles1) l).
    assert (Hl1 : forall j e, (j, e) ∈ l -> delete i scenarios !! j = Some e).
    { intros j e Hin. rewrite lookup_delete_ne.
      - apply Hl, list_elem_of_further, Hin.
      - intros <-. apply Hi. apply list_elem_of_fmap. exists (i, e). auto. }
    destruct (IH (delete i scenarios) cycles1 Hnd Hl1)
      as (IH1 & IH2 & IH3 & IH4 & IH5).
    assert (Hother : forall c, cycle d <> Some c -> cycles1 !! c = cycles !! c).
    { intros c Hc. subst cycles1. destruct (cycle d) as [c0|]; [| reflexivity].
      destruct (bool_decide _); [| reflexivity].
      apply lookup_delete_ne. congruence. }
    assert (Hnone : forall c, cycles !! c = None -> cycles1 !! c = None).
    { intros c Hc. subst cycles1. destruct (cycle d) as [c0|]; [| exact Hc].
      destruct (bool_decide _); [| exact Hc].
      destruct (decide (c0 = c)) as [->|Hne];
        [apply lookup_delete_eq | rewrite lookup_delete_ne by exact Hne; exact Hc]. }
    split; [| split; [| split; [| split]]].
    + intros j. rewrite IH1.
      destruct (decide (j ∈ l.*1)) as [Hj|Hj];
        destruct (decide (j ∈ ((i, d) :: l).*1)) as [Hj'|Hj'].
      * reflexivity.
      * destruct Hj'. cbn. apply list_elem_of_further, Hj.
      * cbn in Hj'. apply elem_of_cons in Hj' as [-> | Hj'];
          [apply lookup_delete_eq | contradiction].
      * apply lookup_delete_ne. intros <-. apply Hj'. cbn.
        apply list_elem_of_here.
    + intros c (i' & d' & Hin & Hc') Hall.
      destruct (decide (cycle d = Some c)) as [Hc|Hc].
      * destruct (decide (size (attached_to c scenarios) = 1)) as [Hone|Hmany].
        -- apply IH5. subst cycles1. rewrite Hc.
           rewrite bool_decide_eq_true_2 by exact Hone. apply lookup_delete_eq.
        -- assert (Hsub : size (delete i (attached_to c scenarios)) <> 0).
           { rewrite map_size_delete_Some.
             - assert (size (attached_to c scenarios) <> 0); [| lia].
               apply map_size_ne_0_lookup. exists i.
               exists d. apply map_lookup_filter_Some. auto.
             - exists d. apply map_lookup_filter_Some. auto. }
           apply map_size_ne_0_lookup in Hsub as (j & e & Hj).
           assert (Hji : j <> i).
           { intros ->. rewrite lookup_delete_eq in Hj. discriminate. }
           rewrite lookup_delete_ne in Hj by congruence.
           apply map_lookup_filter_Some in Hj as [Hj He]. cbn in He.
           assert (Hjl : j ∈ l.*1).
           { specialize (Hall j e Hj He). cbn in Hall.
             apply elem_of_cons in Hall as [-> | Hall]; [contradiction | exact Hall]. }
           apply IH2.
           ++ apply list_elem_of_fmap in Hjl as ([j' e'] & Heq & Hin').
              cbn in Heq. subst j'. exists j, e'. split; [exact Hin' |].
              assert (e' = e) as ->; [| exact He].
              pose proof (Hl j e' (list_elem_of_further _ _ _ Hin')). congruence.
           ++ intros j0 e0 Hj0 He0.
              destruct (decide (j0 = i)) as [->|Hne0].
              ** rewrite lookup_delete_eq in Hj0. discriminate.
              ** rewrite lookup_delete_ne in Hj0 by congruence.
                 specialize (Hall j0 e0 Hj0 He0). cbn in Hall.
                 apply elem_of_cons in Hall as [-> | Hall];
                   [contradiction | exact Hall].
      * apply IH2.
        -- exists i', d'. split; [| exact Hc'].
           apply elem_of_cons in Hin as [Heq | Hin]; [| exact Hin].
           injection Heq as -> ->. contradiction.
        -- intros j0 e0 Hj0 He0.
           destruct (decide (j0 = i)) as [->|Hne0].
           ++ rewrite lookup_delete_eq in Hj0. discriminate.
           ++ rewrite lookup_delete_ne in Hj0 by congruence.
              specialize (Hall j0 e0 Hj0 He0). cbn in Hall.
              apply elem_of_cons in Hall as [-> | Hall];
                [contradiction | exact Hall].
    + intros c j e Hj He Hnot.
      assert (Hji : j <> i).
      { intros ->. apply Hnot. apply list_elem_of_here. }
      assert (Hjl : j ∉ l.*1).
      { intros Hin. apply Hnot. apply list_elem_of_further, Hin. }
      rewrite (IH3 c j e); [| rewrite lookup_delete_ne by congruence; exact Hj
                            | exact He | exact Hjl].
      destruct (decide (cycle d = Some c)) as [Hc|Hc]; [| apply Hother, Hc].
      subst cycles1. rewrite Hc.
      rewrite bool_decide_eq_false_2; [reflexivity |].
      intros Hone. apply Hji.
      exact (proj1 (sole_scenario c i d scenarios Hid Hc) Hone j e Hj He).
    + intros c Hnone'. rewrite IH4.
      * apply Hother. apply (Hnone' i d), list_elem_of_here.
      * intros j e Hin. apply (Hnone' j e), list_elem_of_further, Hin.
    + intros c Hc. apply IH5, Hnone, Hc.
Qed.

(** What the [_delete_by_version] of a manager changes: its own store, and
    for the scenario manager the cycle store. *)
Lemma delete_by_version_frame (k : Kind) (v : string) (w : World) :
  (forall k', k' <> k -> k' <> Cycle ->
     store_of k' (_delete_by_version k v w) = store_of k' w) /\
  (k <> Scenario -> cycle_store (_delete_by_version k v w) = cycle_store w) /\
  versions (_delete_by_version k v w) = versions w /\
  production_versions (_delete_by_version k v w) = production_versions w /\
  taipy_storage_folder (_delete_by_version k v w) = taipy_storage_folder w /\
  fs (_delete_by_version k v w) = fs w /\
  log (_delete_by_version k v w) = log w.
Proof.
  split; [| split].
  - intros k' Hk Hc. destruct k, k'; try congruence; reflexivity.
  - intros Hk. destruct k; try congruence; reflexivity.
  - destruct k; repeat split.
Qed.

(** The manager of a versioned kind other than scenarios empties the
    partition of the version in its store. *)
Lemma delete_by_version_store (k : Kind) (v : string) (w : World) :
  k <> Scenario -> k <> Cycle ->
  store_of k (_delete_by_version k v w) =
  filter (fun kv => version (snd kv) <> v) (store_of k w).
Proof. intros Hs Hc. destruct k; try congruence; reflexivity. Qed.

(** The scenario manager empties the partition of the version in the
    scenario store, and deletes the cycles that were attached to scenarios
    of the version only. *)
Lemma delete_by_version_scenarios (v : string) (w : World) :
  let w' := _delete_by_version Scenario v w in
  scenario_store w' =
    filter (fun kv => version (snd kv) <> v) (scenario_store w) /\
  (forall c,
     (exists i d, scenario_store w !! i = Some d /\ version d = v /\
                  cycle d = Some c) ->
     (forall j e, scenario_store w !! j = Some e -> cycle e = Some c ->
                  version e = v) ->
     cycle_store w' !! c = None) /\
  (forall c j e,
     scenario_store w !! j = Some e -> cycle e = Some c -> version e <> v ->
     cycle_store w' !! c = cycle_store w !! c) /\
  (forall c,
     (forall i d, scenario_store w !! i = Some d -> version d = v ->
                  cycle d <> Some c) ->
     cycle_store w' !! c = cycle_store w !! c) /\
  (forall c, cycle_store w !! c = None -> cycle_store w' !! c = None).
Proof.
  set (P := fun kv : string * EntityData => version (snd kv) = v).
  assert (Hmem : forall i d,
             (i, d) ∈ map_to_list (filter P (scenario_store w)) <->
             scenario_store w !! i = Some d /\ version d = v).
  { intros i d. rewrite elem_of_map_to_list, map_lookup_filter_Some.
    reflexivity. }
  assert (Hkeys : forall i,
             i ∈ (map_to_list (filter P (scenario_store w))).*1 <->
             exists d, scenario_store w !! i = Some d /\ version d = v).
  { intros i. rewrite list_elem_of_fmap. split.
    - intros ([i' d] & -> & Hin). apply Hmem in Hin. eauto.
    - intros (d & Hd). exists (i, d). split; [reflexivity | apply Hmem, Hd]. }
  destruct (delete_scenarios_of_version
              (map_to_list (filter P (scenario_store w)))
              (scenario_store w) (cycle_store w))
    as (H1 & H2 & H3 & H4 & H5).
  { apply NoDup_fst_map_to_list. }
  { intros i d Hin. apply Hmem in Hin as [Hin _]. exact Hin. }
  cbn zeta. unfold _delete_by_version.
  change (cycle_store (with_store Cycle ?m _)) with m.
  change (scenario_store (with_store Cycle _ (with_store Scenario ?m _))) with m.
  split; [| split; [| split; [| split]]].
  - apply map_eq. intros i. rewrite H1.
    destruct (decide (i ∈ _)) as [Hin|Hin].
    + apply Hkeys in Hin as (d & Hd & Hv). symmetry.
      apply map_lookup_filter_None. right. intros d' Hd' Hne. cbn in Hne.
      congruence.
    + destruct (scenario_store w !! i) as [d|] eqn:Hd.
      * symmetry. apply map_lookup_filter_Some. split; [exact Hd |].
        cbn. intros Hv. apply Hin, Hkeys. eauto.
      * symmetry. apply map_lookup_filter_None. left. exact Hd.
  - intros c (i & d & Hd & Hv & Hc) Hall. apply H2.
    + exists i, d. split; [apply Hmem; auto | exact Hc].
    + intros j e Hj He. apply Hkeys. exists e. split; [exact Hj |].
      exact (Hall j e Hj He).
  - intros c j e Hj He Hv. apply (H3 c j e Hj He).
    intros Hin. apply Hkeys in Hin as (e' & He' & Hv'). congruence.
  - intros c Hnone. apply H4. intros i d Hin. apply Hmem in Hin as [Hd Hv].
    exact (Hnone i d Hd Hv).
  - exact H5.
Qed.

Section Versions.
Context {C : Collaborators}.

(** C3. When the version passed to [clean_all_entities] cannot be resolved
    ([NonExistingVersion]) or resolves to a production version, the
    function returns [False] without raising; it only logs a warning: no
    store, no version entry and no production marker changes. *)
Theorem clean_all_entities_refused (version_number : value) (w : World) :
  (exists m, _replace_version_number w version_number
             = Raise (NonExistingVersion m)) \/
  (exists v, _replace_version_number w version_number = Ret v /\
             v ∈ production_versions w) ->
  exists entry,
    taipy.clean_all_entities version_number w = (Ret false, log_warning entry w) /\
    (forall k, store_of k (log_warning entry w) = store_of k w) /\
    versions (log_warning entry w) = versions w /\
    production_versions (log_warning entry w) = production_versions w /\
    fs (log_warning entry w) = fs w.
Proof.
  intros [[m Hm] | [v [Hv Hprod]]]; unfold taipy.clean_all_entities.
  - rewrite Hm. eexists. split; [reflexivity |].
    split; [intros []; reflexivity | repeat split].
  - rewrite Hv. unfold _get_production_versions.
    rewrite bool_decide_eq_true_2 by exact Hprod.
    eexists. split; [reflexivity |].
    split; [intros []; reflexivity | repeat split].
Qed.

(** What [clean_all_entities] does to a version that exists and is not
    protected: the partitions of that version are emptied in the job,
    submission, scenario, sequence, task and data node stores, the cycles
    attached to scenarios of that version only are deleted with their
    last scenario and the other cycles are kept, the bookkeeping entry of
    the version is removed, no production marker points at it, and the
    result is [True]. *)
Lemma clean_all_entities_versioned_kinds (version_number : value) (v : string)
    (w : World) :
  _replace_version_number w version_number = Ret v ->
  v ∈ versions w ->
  v ∉ production_versions w ->
  exists w',
    taipy.clean_all_entities version_number w = (Ret true, w') /\
    (forall k, k <> Cycle ->
       store_of k w' = filter (fun kv => version (snd kv) <> v) (store_of k w)) /\
    cycle_store w' = cycle_store (_delete_by_version Scenario v w) /\
    versions w' = filter (fun v' => v' <> v) (versions w) /\
    production_versions w' = production_versions w /\
    fs w' = fs w /\
    log w' = log w.
Proof.
  intros Hres Hin Hnot. unfold taipy.clean_all_entities.
  rewrite Hres. unfold _get_production_versions.
  rewrite bool_decide_eq_false_2 by exact Hnot.
  set (w1 := _delete_by_version Job v w).
  set (w2 := _delete_by_version Submission v w1).
  set (w3 := _delete_by_version Scenario v w2).
  set (w4 := _delete_by_version Sequence v w3).
  set (w5 := _delete_by_version Task v w4).
  set (w6 := _delete_by_version DataNode v w5).
  destruct (delete_by_version_frame Job v w) as (Fr1 & Cy1 & Ve1 & Pr1 & _ & Di1 & Lg1).
  destruct (delete_by_version_frame Submission v w1)
    as (Fr2 & Cy2 & Ve2 & Pr2 & _ & Di2 & Lg2).
  destruct (delete_by_version_frame Scenario v w2)
    as (Fr3 & _ & Ve3 & Pr3 & _ & Di3 & Lg3).
  destruct (delete_by_version_frame Sequence v w3)
    as (Fr4 & Cy4 & Ve4 & Pr4 & _ & Di4 & Lg4).
  destruct (delete_by_version_frame Task v w4) as (Fr5 & Cy5 & Ve5 & Pr5 & _ & Di5 & Lg5).
  destruct (delete_by_version_frame DataNode v w5)
    as (Fr6 & Cy6 & Ve6 & Pr6 & _ & Di6 & Lg6).
  fold w1 in Fr1, Cy1, Ve1, Pr1, Di1, Lg1. fold w2 in Fr2, Cy2, Ve2, Pr2, Di2, Lg2.
  fold w3 in Fr3, Ve3, Pr3, Di3, Lg3. fold w4 in Fr4, Cy4, Ve4, Pr4, Di4, Lg4.
  fold w5 in Fr5, Cy5, Ve5, Pr5, Di5, Lg5. fold w6 in Fr6, Cy6, Ve6, Pr6, Di6, Lg6.
  assert (Hv6 : versions w6 = versions w) by congruence.
  assert (Hp6 : production_versions w6 = production_versions w) by congruence.
  unfold _version_delete. rewrite Hv6.
  rewrite bool_decide_eq_true_2 by exact Hin.
  unfold _delete_production_version. cbn [production_versions with_versions].
  rewrite Hp6. rewrite bool_decide_eq_false_2 by exact Hnot.
  eexists. split; [reflexivity |].
  assert (Hw2 : scenario_store w2 = scenario_store w /\
                cycle_store w2 = cycle_store w).
  { split.
    - transitivity (scenario_store w1);
        [apply (Fr2 Scenario) | apply (Fr1 Scenario)]; discriminate.
    - rewrite Cy2 by discriminate. apply Cy1. discriminate. }
  destruct Hw2 as [Hs2 Hc2].
  assert (St1 : store_of Job w1 =
               filter (fun kv => version (snd kv) <> v) (store_of Job w))
    by (apply delete_by_version_store; discriminate).
  assert (St2 : store_of Submission w2 =
               filter (fun kv => version (snd kv) <> v) (store_of Submission w1))
    by (apply delete_by_version_store; discriminate).
  assert (St3 : store_of Scenario w3 =
               filter (fun kv => version (snd kv) <> v) (store_of Scenario w2))
    by (apply (delete_by_version_scenarios v w2)).
  assert (St4 : store_of Sequence w4 =
               filter (fun kv => version (snd kv) <> v) (store_of Sequence w3))
    by (apply delete_by_version_store; discriminate).
  assert (St5 : store_of Task w5 =
               filter (fun kv => version (snd kv) <> v) (store_of Task w4))
    by (apply delete_by_version_store; discriminate).
  assert (St6 : store_of DataNode w6 =
               filter (fun kv => version (snd kv) <> v) (store_of DataNode w5))
    by (apply delete_by_version_store; discriminate).
  split; [| split; [| split; [| split; [| split]]]].
  - intros k Hk.
    change (store_of k (with_versions _ w6)) with (store_of k w6).
    destruct k; try congruence.
    + rewrite (Fr6 Job), (Fr5 Job), (Fr4 Job), (Fr3 Job), (Fr2 Job) by discriminate.
      exact St1.
    + rewrite (Fr6 Scenario), (Fr5 Scenario), (Fr4 Scenario) by discriminate.
      rewrite St3. cbn [store_of]. rewrite Hs2. reflexivity.
    + rewrite (Fr6 Sequence), (Fr5 Sequence) by discriminate. rewrite St4.
      rewrite (Fr3 Sequence), (Fr2 Sequence), (Fr1 Sequence) by discriminate.
      reflexivity.
    + rewrite (Fr6 Task) by discriminate. rewrite St5.
      rewrite (Fr4 Task), (Fr3 Task), (Fr2 Task), (Fr1 Task) by discriminate.
      reflexivity.
    + rewrite St6.
      rewrite (Fr5 DataNode), (Fr4 DataNode), (Fr3 DataNode), (Fr2 DataNode),
        (Fr1 DataNode) by discriminate.
      reflexivity.
    + rewrite (Fr6 Submission), (Fr5 Submission), (Fr4 Submission),
        (Fr3 Submission) by discriminate.
      rewrite St2. rewrite (Fr1 Submission) by discriminate. reflexivity.
  - change (cycle_store (with_versions _ w6)) with (cycle_store w6).
    rewrite Cy6, Cy5, Cy4 by discriminate.
    unfold w3, _delete_by_version. cbn [cycle_store with_store store_of].
    rewrite Hs2, Hc2. reflexivity.
  - reflexivity.
  - cbn [production_versions with_versions]. exact Hp6.
  - cbn [fs with_versions]. congruence.
  - cbn [log with_versions]. congruence.
Qed.

(** C1. For a version that resolves, exists and is not a production
    version, [clean_all_entities] returns [True] and leaves no record of
    the version: the partition of the version is emptied in the job,
    submission, scenario, sequence, task and data node stores; the cycles
    of the version, which are the cycles whose scenarios all belong to it
    (a cycle has no version of its own), are deleted by the scenario
    manager with their last scenario; the bookkeeping entry of the version
    is removed and no production marker points at it. *)
Theorem clean_all_entities_cleans_version (version_number : value)
    (v : string) (w : World) :
  _replace_version_number w version_number = Ret v ->
  v ∈ versions w ->
  v ∉ production_versions w ->
  exists w',
    taipy.clean_all_entities version_number w = (Ret true, w') /\
    (forall k i d, k <> Cycle -> store_of k w !! i = Some d -> version d = v ->
                   store_of k w' !! i = None) /\
    (forall c,
       (exists i d, scenario_store w !! i = Some d /\ version d = v /\
                    cycle d = Some c) ->
       (forall j e, scenario_store w !! j = Some e -> cycle e = Some c ->
                    version e = v) ->
       cycle_store w' !! c = None) /\
    (v ∉ versions w') /\
    (v ∉ production_versions w').
Proof.
  intros Hres Hin Hnot.
  destruct (clean_all_entities_versioned_kinds version_number v w Hres Hin Hnot)
    as (w' & Hrun & Hstores & Hcycles & Hver & Hprod & _).
  exists w'. split; [exact Hrun |]. split; [| split; [| split]].
  - intros k i d Hk Hd Hv. rewrite (Hstores k Hk).
    apply map_lookup_filter_None. right. intros d' Hd' Hne. cbn in Hne.
    congruence.
  - intros c Hsome Hall. rewrite Hcycles.
    destruct (delete_by_version_scenarios v w) as (_ & H & _).
    exact (H c Hsome Hall).
  - rewrite Hver. intros Hv. apply list_elem_of_filter in Hv as [Hv _].
    congruence.
  - rewrite Hprod. exact Hnot.
Qed.

End Versions.

(** ** Export of a scenario *)

Lemma write_all_app (folder : path) (rs1 rs2 : list Exported) (w : World) :
  write_all folder (rs1 ++ rs2) w = write_all folder rs2 (write_all folder rs1 w).
Proof. unfold write_all. apply foldl_app. Qed.

Lemma write_all_spec (folder : path) (rs : list Exported) (w : World) :
  write_all folder rs w =
  match rs with
  | [] => w
  | _ :: _ =>
      with_fs (<[path_str folder :=
                   (default [] (fs w !! path_str folder) ++ rs)%list]> (fs w)) w
  end.
Proof.
  revert w. induction rs as [|r rs IH]; intros w; [reflexivity |].
  change (write_all folder (r :: rs) w)
    with (write_all folder rs (write_record folder r w)).
  rewrite IH. destruct rs as [|r' rs]; [reflexivity |].
  unfold write_record. cbn [fs with_fs].
  rewrite lookup_insert_eq, insert_insert_eq. cbn [default id].
  rewrite <- app_assoc. reflexivity.
Qed.

(** Writing records changes the disk only. *)
Lemma write_all_keeps (folder : path) (rs : list Exported) (w : World) :
  (forall k, store_of k (write_all folder rs w) = store_of k w) /\
  versions (write_all folder rs w) = versions w /\
  production_versions (write_all folder rs w) = production_versions w /\
  taipy_storage_folder (write_all folder rs w) = taipy_storage_folder w /\
  log (write_all folder rs w) = log w /\
  (forall p, p <> path_str folder -> fs (write_all folder rs w) !! p = fs w !! p).
Proof.
  rewrite write_all_spec. destruct rs as [|r rs].
  - repeat split.
  - split; [intros k; destruct k; reflexivity |]. repeat split.
    intros p Hp. cbn [fs with_fs]. apply lookup_insert_ne. congruence.
Qed.

Lemma exportable_write_record (folder : path) (r r' : Exported) (w : World) :
  exportable (write_record folder r w) r' = exportable w r'.
Proof. destruct r' as [k i b | v]; [destruct k |]; reflexivity. Qed.

Lemma in_tree_refl (folder : string) : in_tree folder folder = true.
Proof. unfold in_tree. rewrite String.eqb_refl. reflexivity. Qed.

(** [rmtree] leaves nothing in the tree of the folder, keeps the rest of
    the disk, and keeps the stores unless the storage folder was in the
    tree. *)
Lemma rmtree_spec (folder : path) (w : World) :
  let w1 := rmtree folder w in
  (forall p, in_tree (path_str folder) p = true -> fs w1 !! p = None) /\
  (forall p, in_tree (path_str folder) p = false -> fs w1 !! p = fs w !! p) /\
  taipy_storage_folder w1 = taipy_storage_folder w /\
  log w1 = log w /\
  (in_tree (path_str folder) (taipy_storage_folder w) = true ->
   (forall k, store_of k w1 = ∅) /\ versions w1 = []) /\
  (in_tree (path_str folder) (taipy_storage_folder w) = false ->
   (forall k, store_of k w1 = store_of k w) /\ versions w1 = versions w /\
   production_versions w1 = production_versions w).
Proof.
  cbn zeta. unfold rmtree. cbn [taipy_storage_folder with_fs].
  assert (Hgone : forall p, in_tree (path_str folder) p = true ->
            filter (fun kv : string * list Exported =>
                      in_tree (path_str folder) (fst kv) = false) (fs w) !! p
            = None).
  { intros p Hp. apply map_lookup_filter_None. right. intros l _ Hl.
    cbn in Hl. congruence. }
  assert (Hkept : forall p, in_tree (path_str folder) p = false ->
            filter (fun kv : string * list Exported =>
                      in_tree (path_str folder) (fst kv) = false) (fs w) !! p
            = fs w !! p).
  { intros p Hp. destruct (fs w !! p) as [l|] eqn:E.
    - apply map_lookup_filter_Some. auto.
    - apply map_lookup_filter_None. auto. }
  destruct (in_tree (path_str folder) (taipy_storage_folder w));
    (split; [exact Hgone |]); (split; [exact Hkept |]);
    (split; [reflexivity |]); (split; [reflexivity |]);
    split; intros H; try discriminate H.
  - split; [intros k; destruct k; reflexivity | reflexivity].
  - split; [intros k; destruct k; reflexivity |]. split; reflexivity.
Qed.

Section ExportScenario.
Context {C : Collaborators}.

Lemma andthen_ret {A B : Type} (m : action A) (k : action B) (w w1 : World)
    (a : A) :
  m w = (Ret a, w1) -> (m >> k) w = k w1.
Proof. intros H. unfold andthen. rewrite H. reflexivity. Qed.

Lemma write_until_app (folder : path) (rs1 rs2 : list Exported) (w : World) :
  write_until folder (rs1 ++ rs2) w =
  (write_until folder rs1 >> write_until folder rs2) w.
Proof.
  revert w. induction rs1 as [|r rs1 IH]; intros w; [reflexivity |].
  cbn [app write_until]. unfold andthen. cbn [write_until].
  destruct (exportable w r); [| reflexivity].
  rewrite IH. reflexivity.
Qed.

Lemma export_ids_write_until (k : Kind) (ids : gset string) (folder : path)
    (include_data : bool) (w : World) :
  taipy.export_ids k ids folder include_data w =
  write_until folder ((fun i => ExpEntity k i include_data) <$> elements ids) w.
Proof.
  unfold taipy.export_ids. generalize (elements ids). intros l. revert w.
  induction l as [|i l IH]; intros w; [reflexivity |].
  cbn [taipy.export_list fmap list_fmap write_until exportable record_name].
  unfold andthen, _export.
  destruct (store_of k w !! i) as [d|] eqn:E.
  - rewrite bool_decide_eq_true_2 by eauto. apply IH.
  - rewrite bool_decide_eq_false_2 by (intros [x Hx]; discriminate Hx).
    reflexivity.
Qed.

Lemma andthen_write_until (m k : action value) (folder : path)
    (rs1 rs2 : list Exported) :
  (forall w, m w = write_until folder rs1 w) ->
  (forall w, k w = write_until folder rs2 w) ->
  forall w, (m >> k) w = write_until folder (rs1 ++ rs2) w.
Proof.
  intros Hm Hk w. rewrite write_until_app. unfold andthen. rewrite Hm.
  destruct (write_until folder rs1 w) as [[a|e] w1]; [apply Hk | reflexivity].
Qed.

(** The export loops write the records of [exported_records] in order,
    until a record cannot be exported. *)
Lemma export_all_write_until (entity_ids : EntityIds) (v : string) (folder : path)
    (include_data : bool) (w : World) :
  taipy.export_all entity_ids v folder include_data w =
  write_until folder (exported_records entity_ids v include_data) w.
Proof.
  unfold taipy.export_all, exported_records. revert w.
  repeat (apply andthen_write_until;
          [intros w; apply export_ids_write_until |]).
  intros w. unfold _version_export. cbn [write_until exportable record_name].
  destruct (bool_decide _); reflexivity.
Qed.

(** A run of the export loops: what is on the disk was written in order;
    the run succeeds exactly when every record can be exported, and then
    all of them are written. *)
Lemma write_until_run (folder : path) (rs : list Exported) (w : World) :
  exists written,
    written `prefix_of` rs /\
    snd (write_until folder rs w) = write_all folder written w /\
    (fst (write_until folder rs w) = Ret VNone ->
     written = rs /\ forall r, r ∈ rs -> exportable w r = true) /\
    ((forall r, r ∈ rs -> exportable w r = true) ->
     fst (write_until folder rs w) = Ret VNone /\ written = rs).
Proof.
  revert w. induction rs as [|r rs IH]; intros w.
  - exists []. cbn. split; [reflexivity |]. split; [reflexivity |].
    split; [intros _; split; [reflexivity |] | auto].
    intros r Hr. apply elem_of_nil in Hr. contradiction.
  - cbn [write_until]. destruct (exportable w r) eqn:Hr.
    + destruct (IH (write_record folder r w)) as (l & Hpre & Hsnd & Hok & Hall).
      exists (r :: l). split; [apply prefix_cons, Hpre |].
      split; [exact Hsnd |]. split.
      * intros Hret. destruct (Hok Hret) as [-> Hex]. split; [reflexivity |].
        intros r' Hr'. apply elem_of_cons in Hr' as [-> | Hr']; [exact Hr |].
        rewrite <- (exportable_write_record folder r r' w). exact (Hex r' Hr').
      * intros Hex. destruct Hall as [Hret ->].
        { intros r' Hr'. rewrite exportable_write_record.
          apply Hex, list_elem_of_further, Hr'. }
        split; [exact Hret | reflexivity].
    + exists []. split; [apply prefix_nil |]. split; [reflexivity |].
      split; [discriminate |].
      intros Hex. rewrite (Hex r (list_elem_of_here _ _)) in Hr. discriminate.
Qed.

Lemma exported_records_cons (entity_ids : EntityIds) (v : string) (b : bool) :
  exists r rs, exported_records entity_ids v b = r :: rs.
Proof.
  destruct (exported_records entity_ids v b) as [|r rs] eqn:E; [| eauto].
  unfold exported_records in E.
  repeat (apply app_eq_nil in E as [_ E]).
  discriminate E.
Qed.

(** X23. The guards of [export_scenario], for a scenario the scenario
    manager holds, in the order of the code: a folder path that is the configured
    storage folder as a string raises [InvalidExportPath]; otherwise, when
    the folder exists and [override] is [False], [ExportFolderAlreadyExists]
    is raised; in both cases the world is left as it was. Otherwise, when
    the folder exists and [override] is [True], the tree of the folder is
    removed before any record is exported: the export loops start from a
    disk without it, so that afterwards the folder holds records of this
    export only, in order, and all of them when the call returns. *)
Theorem export_scenario_guards (scenario_id : string) (scenario : EntityData)
    (folder_path : path) (override include_data : bool) (w : World) :
  scenario_store w !! scenario_id = Some scenario ->
  let r := taipy.export_scenario scenario_id folder_path override include_data w in
  let entity_ids := taipy.export_entity_ids scenario_id scenario w in
  (path_eq_str folder_path (taipy_storage_folder w) = true ->
   r = (Raise (InvalidExportPath
                 "The export folder must not be the storage folder."), w)) /\
  (path_eq_str folder_path (taipy_storage_folder w) = false ->
   path_exists folder_path w = true -> override = false ->
   r = (Raise (ExportFolderAlreadyExists (path_str folder_path)
                                         (VStr scenario_id)), w)) /\
  (path_eq_str folder_path (taipy_storage_folder w) = false ->
   path_exists folder_path w = true -> override = true ->
   let w1 := rmtree folder_path
               (log_warning (WarnOverride (path_str folder_path)) w) in
   (forall p, in_tree (path_str folder_path) p = true -> fs w1 !! p = None) /\
   r = taipy.export_all entity_ids (version scenario) folder_path include_data w1 /\
   exists written,
     written `prefix_of`
       exported_records entity_ids (version scenario) include_data /\
     snd r = write_all folder_path written w1 /\
     (fst r = Ret VNone ->
      written = exported_records entity_ids (version scenario) include_data)) /\
  (path_eq_str folder_path (taipy_storage_folder w) = false ->
   path_exists folder_path w = false ->
   r = taipy.export_all entity_ids (version scenario) folder_path include_data w).
Proof.
  intros Hs r entity_ids. subst r entity_ids.
  unfold taipy.export_scenario, _get. cbn [entity_id_of store_of]. rewrite Hs.
  split; [| split; [| split]].
  - intros ->. reflexivity.
  - intros -> -> ->. reflexivity.
  - intros -> -> ->. cbn zeta.
    split; [apply (rmtree_spec folder_path) |].
    split; [reflexivity |].
    rewrite export_all_write_until.
    destruct (write_until_run folder_path
                (exported_records
                   (taipy.export_entity_ids scenario_id scenario w)
                   (version scenario) include_data)
                (rmtree folder_path
                   (log_warning (WarnOverride (path_str folder_path)) w)))
      as (written & Hpre & Hsnd & Hok & _).
    exists written. split; [exact Hpre |]. split; [exact Hsnd |].
    intros Hret. apply Hok, Hret.
  - intros -> ->. reflexivity.
Qed.

End ExportScenario.

(** The guard of the storage folder in the demonstration world: the
    storage folder given as a string is refused before the existence of
    the folder is looked at; an identifier the scenario manager has no
    record for raises [AttributeError] before any check of the folder. *)
Example export_scenario_checks_ordered :
  (is_Some (scenario_store Demo.w0 !! "SCENARIO_s") /\
   path_exists (PStr "user_data") Demo.w0 = true /\
   @taipy.export_scenario Demo.demo "SCENARIO_s" (PStr "user_data") false false
      Demo.w0 =
     (Raise (InvalidExportPath
               "The export folder must not be the storage folder."), Demo.w0)) /\
  (scenario_store Demo.w0 !! "SCENARIO_x" = None /\
   path_eq_str (PStr "user_data") (taipy_storage_folder Demo.w0) = true /\
   @taipy.export_scenario Demo.demo "SCENARIO_x" (PStr "user_data") false false
      Demo.w0 = (Raise AttributeError, Demo.w0)).
Proof.
  split.
  - split; [eexists; reflexivity |]. split; reflexivity.
  - split; [reflexivity |]. split; reflexivity.
Qed.

(** C6. The guard of the storage folder misses a case. In the
    demonstration world the storage folder ["user_data"] exists and
    ["SCENARIO_s"] is stored. With the storage folder given as a
    [pathlib.Path], [folder_path == Config.core.taipy_storage_folder]
    compares a path with a string and is false: [export_scenario] does not
    raise [InvalidExportPath]. With [override] left [False] it raises
    [ExportFolderAlreadyExists]; with [override=True] it removes the
    storage folder, the stores with it, and the export that follows
    raises. The same folder given as a string is refused with
    [InvalidExportPath]. *)
Theorem export_scenario_path_spelling :
  path_str (PPath "user_data") = taipy_storage_folder Demo.w0 /\
  is_Some (scenario_store Demo.w0 !! "SCENARIO_s") /\
  @taipy.export_scenario Demo.demo "SCENARIO_s" (PStr "user_data") false false
     Demo.w0 =
    (Raise (InvalidExportPath
              "The export folder must not be the storage folder."), Demo.w0) /\
  @taipy.export_scenario Demo.demo "SCENARIO_s" (PPath "user_data") false false
     Demo.w0 =
    (Raise (ExportFolderAlreadyExists "user_data" (VStr "SCENARIO_s")), Demo.w0) /\
  (exists e,
     fst (@taipy.export_scenario Demo.demo "SCENARIO_s" (PPath "user_data") true
            false Demo.w0) = Raise e /\
     (forall msg, e <> InvalidExportPath msg)) /\
  (forall k,
     store_of k (snd (@taipy.export_scenario Demo.demo "SCENARIO_s"
                        (PPath "user_data") true false Demo.w0)) = ∅).
Proof.
  split; [reflexivity |]. split; [eexists; reflexivity |].
  split; [reflexivity |]. split; [reflexivity |]. split.
  - eexists. split; [vm_compute; reflexivity | discriminate].
  - intros k. destruct k; vm_compute; reflexivity.
Qed.

(** ** Ancestor resolution *)

Lemma MANAGER_NAME_inj (k k' : Kind) :
  _MANAGER_NAME k = _MANAGER_NAME k' -> k = k'.
Proof. destruct k, k'; intros H; first [reflexivity | discriminate H]. Qed.

Lemma from_stores_well_keyed (w : World) (pd : ParentDict) :
  from_stores w pd -> well_keyed pd.
Proof. intros H n s k i d Hn Hs. apply (H n s k i d Hn Hs). Qed.

Lemma well_keyed_empty : well_keyed ∅.
Proof. intros n s k i d Hn. rewrite lookup_empty in Hn. discriminate. Qed.

Lemma from_stores_empty (w : World) : from_stores w ∅.
Proof. intros n s k i d Hn. rewrite lookup_empty in Hn. discriminate. Qed.

Lemma update_parent_dict_lookup (cur pd : ParentDict) (n : string) :
  taipy.update_parent_dict cur pd !! n = merge_sets (pd !! n) (cur !! n).
Proof.
  unfold taipy.update_parent_dict. revert n.
  apply (map_fold_weak_ind
           (fun (r : ParentDict) (m : ParentDict) =>
              forall n, r !! n = merge_sets (pd !! n) (m !! n))).
  - intros n. rewrite lookup_empty. destruct (pd !! n); reflexivity.
  - intros i x m r Hi IH n.
    pose proof (IH i) as IHi. rewrite Hi in IHi.
    destruct (decide (n = i)) as [->|Hne].
    + rewrite lookup_insert_eq. rewrite IHi.
      destruct (pd !! i); cbn; rewrite lookup_insert_eq; reflexivity.
    + rewrite (lookup_insert_ne m) by congruence.
      rewrite <- IH.
      destruct (r !! i); rewrite lookup_insert_ne by congruence; reflexivity.
Qed.

Lemma update_parent_dict_empty (cur : ParentDict) :
  taipy.update_parent_dict cur ∅ = cur.
Proof.
  apply map_eq. intros n. rewrite update_parent_dict_lookup, lookup_empty.
  reflexivity.
Qed.

Lemma merge_sets_entry (old new : option EntitySet) (s : EntitySet)
    (ki : Kind * string) (d : EntityData) :
  merge_sets old new = Some s -> s !! ki = Some d ->
  (exists s0, old = Some s0 /\ s0 !! ki = Some d) \/
  (exists s1, new = Some s1 /\ s1 !! ki = Some d).
Proof.
  destruct old as [s0|], new as [s1|]; cbn; intros Hs Hd; try discriminate;
    injection Hs as <-.
  - apply lookup_union_Some_raw in Hd as [Hd | [_ Hd]]; eauto.
  - eauto.
  - eauto.
Qed.

Lemma update_parent_dict_well_keyed (cur pd : ParentDict) :
  well_keyed cur -> well_keyed pd -> well_keyed (taipy.update_parent_dict cur pd).
Proof.
  intros Hcur Hpd n s k i d Hn Hs.
  rewrite update_parent_dict_lookup in Hn.
  destruct (merge_sets_entry _ _ _ _ _ Hn Hs) as [(s0 & H0 & Hd) | (s1 & H1 & Hd)].
  - exact (Hpd n s0 k i d H0 Hd).
  - exact (Hcur n s1 k i d H1 Hd).
Qed.

Lemma update_parent_dict_from_stores (w : World) (cur pd : ParentDict) :
  from_stores w cur -> from_stores w pd ->
  from_stores w (taipy.update_parent_dict cur pd).
Proof.
  intros Hcur Hpd n s k i d Hn Hs.
  rewrite update_parent_dict_lookup in Hn.
  destruct (merge_sets_entry _ _ _ _ _ Hn Hs) as [(s0 & H0 & Hd) | (s1 & H1 & Hd)].
  - exact (Hpd n s0 k i d H0 Hd).
  - exact (Hcur n s1 k i d H1 Hd).
Qed.

Lemma merge_sets_has (old new : option EntitySet) (s : EntitySet)
    (ki : Kind * string) :
  (old = Some s \/ new = Some s) -> is_Some (s !! ki) ->
  exists s', merge_sets old new = Some s' /\ is_Some (s' !! ki).
Proof.
  intros [-> | ->] [d Hd].
  - destruct new as [s1|]; cbn; eexists; (split; [reflexivity |]).
    + exists d. apply lookup_union_Some_raw. left. exact Hd.
    + eauto.
  - destruct old as [s0|]; cbn; eexists; (split; [reflexivity |]).
    + destruct (s0 !! ki) as [d0|] eqn:E.
      * exists d0. apply lookup_union_Some_raw. left. exact E.
      * exists d. apply lookup_union_Some_raw. right. split; assumption.
    + eauto.
Qed.

Lemma update_parent_dict_has (cur pd : ParentDict) (k : Kind) (i : string) :
  has_parent pd k i \/ has_parent cur k i ->
  has_parent (taipy.update_parent_dict cur pd) k i.
Proof.
  intros H. unfold has_parent. rewrite update_parent_dict_lookup.
  destruct H as [(s & Hs & Hi) | (s & Hs & Hi)];
    apply (merge_sets_has _ _ s); auto.
Qed.

Lemma or_empty_default (pdo : option ParentDict) :
  taipy.or_empty pdo = default ∅ pdo.
Proof.
  destruct pdo as [pd|]; cbn; [| reflexivity].
  destruct (decide (pd = ∅)); congruence.
Qed.

Section Parents.
Context {C : Collaborators}.

(** [get] on an identifier: the record the store of the resolved kind
    holds under it. *)
Lemma get_str (p : string) (w : World) :
  taipy.get (VStr p) w =
  match kind_of p with
  | Some k =>
      Ret (match store_of k w !! p with
           | Some d => VEnt k p d
           | None => VNone
           end)
  | None => Raise (ModelNotFound "NOT_DETERMINED" (VStr p))
  end.
Proof.
  unfold taipy.get.
  rewrite (prefix_chain p (fun k => Ret (_get k (VStr p) w))).
  reflexivity.
Qed.

Lemma get_str_found (p : string) (w : World) (k : Kind) (d : EntityData) :
  kind_of p = Some k -> store_of k w !! p = Some d ->
  taipy.get (VStr p) w = Ret (VEnt k p d).
Proof. intros Hk Hd. rewrite get_str, Hk, Hd. reflexivity. Qed.

Lemma get_str_inv (p : string) (w : World) (k : Kind) (i : string)
    (d : EntityData) :
  taipy.get (VStr p) w = Ret (VEnt k i d) ->
  kind_of p = Some k /\ i = p /\ store_of k w !! p = Some d.
Proof.
  rewrite get_str. destruct (kind_of p) as [k0|]; [| discriminate].
  destruct (store_of k0 w !! p) as [d0|] eqn:E; [| discriminate].
  intros H. injection H as -> -> ->. auto.
Qed.

Lemma get_str_not_str (p : string) (w : World) (e : value) :
  taipy.get (VStr p) w = Ret e -> is_str e = false.
Proof.
  rewrite get_str. destruct (kind_of p) as [k0|]; [| discriminate].
  destruct (store_of k0 w !! p); intros H; injection H as <-; reflexivity.
Qed.

Lemma add_parent_well_keyed (cur cur' : ParentDict) (e : value) :
  well_keyed cur -> taipy.add_parent cur e = Ret cur' -> well_keyed cur'.
Proof.
  intros Hcur Hadd. destruct e as [| | k i d |]; try discriminate Hadd.
  cbn in Hadd. injection Hadd as <-.
  intros n s k' i' d' Hn Hs.
  destruct (cur !! _MANAGER_NAME k) as [s0|] eqn:E.
  - destruct (decide (n = _MANAGER_NAME k)) as [->|Hne].
    + rewrite lookup_insert_eq in Hn. injection Hn as <-.
      apply lookup_union_Some_raw in Hs as [Hs | [_ Hs]].
      * exact (Hcur _ _ _ _ _ E Hs).
      * apply lookup_singleton_Some in Hs as [Hki _].
        injection Hki as <- <-. reflexivity.
    + rewrite lookup_insert_ne in Hn by congruence.
      exact (Hcur _ _ _ _ _ Hn Hs).
  - destruct (decide (n = _MANAGER_NAME k)) as [->|Hne].
    + rewrite lookup_insert_eq in Hn. injection Hn as <-.
      apply lookup_singleton_Some in Hs as [Hki _].
      injection Hki as <- <-. reflexivity.
    + rewrite lookup_insert_ne in Hn by congruence.
      exact (Hcur _ _ _ _ _ Hn Hs).
Qed.

Lemma collect_parents_well_keyed (w : World) (ids : list string)
    (cur cur' : ParentDict) :
  well_keyed cur -> taipy.collect_parents w ids cur = Ret cur' -> well_keyed cur'.
Proof.
  revert cur. induction ids as [|p ids IH]; intros cur Hcur Hcol.
  - cbn in Hcol. injection Hcol as <-. exact Hcur.
  - cbn in Hcol.
    destruct (taipy.get (VStr p) w) as [e|]; [| discriminate].
    destruct (taipy.add_parent cur e) as [cur1|] eqn:Hadd; [| discriminate].
    exact (IH cur1 (add_parent_well_keyed _ _ _ Hcur Hadd) Hcol).
Qed.

(** Adding a record of the stores keeps [from_stores], keeps what was
    there, files the record, and opens no key but the one of its class. *)
Lemma add_parent_stored (w : World) (cur : ParentDict) (k : Kind) (i : string)
    (d : EntityData) :
  from_stores w cur -> store_of k w !! i = Some d ->
  exists cur',
    taipy.add_parent cur (VEnt k i d) = Ret cur' /\
    from_stores w cur' /\
    has_parent cur' k i /\
    (forall k' i', has_parent cur k' i' -> has_parent cur' k' i') /\
    (forall k' i', has_parent cur' k' i' ->
                   has_parent cur k' i' \/ (k' = k /\ i' = i)).
Proof.
  intros Hcur Hd. cbn. eexists. split; [reflexivity |].
  destruct (cur !! _MANAGER_NAME k) as [s0|] eqn:E.
  - split; [| split; [| split]].
    + intros n s k' i' d' Hn Hs.
      destruct (decide (n = _MANAGER_NAME k)) as [->|Hne].
      * rewrite lookup_insert_eq in Hn. injection Hn as <-.
        apply lookup_union_Some_raw in Hs as [Hs | [_ Hs]].
        -- exact (Hcur _ _ _ _ _ E Hs).
        -- apply lookup_singleton_Some in Hs as [Hki <-].
           injection Hki as <- <-. auto.
      * rewrite lookup_insert_ne in Hn by congruence.
        exact (Hcur _ _ _ _ _ Hn Hs).
    + exists (s0 ∪ {[(k, i) := d]}). rewrite lookup_insert_eq.
      split; [reflexivity |].
      destruct (s0 !! (k, i)) as [d0|] eqn:E0.
      * exists d0. apply lookup_union_Some_raw. auto.
      * exists d. apply lookup_union_Some_raw. right.
        split; [exact E0 | apply lookup_singleton_eq].
    + intros k' i' (s & Hs & [d' Hd']).
      destruct (decide (_MANAGER_NAME k' = _MANAGER_NAME k)) as [Heq|Hne].
      * apply MANAGER_NAME_inj in Heq as ->. rewrite E in Hs.
        injection Hs as <-.
        exists (s0 ∪ {[(k, i) := d]}). rewrite lookup_insert_eq.
        split; [reflexivity |]. exists d'.
        apply lookup_union_Some_raw. auto.
      * exists s. rewrite lookup_insert_ne by congruence. eauto.
    + intros k' i' (s & Hs & [d' Hd']).
      destruct (decide (_MANAGER_NAME k' = _MANAGER_NAME k)) as [Heq|Hne].
      * apply MANAGER_NAME_inj in Heq as ->.
        rewrite lookup_insert_eq in Hs. injection Hs as <-.
        apply lookup_union_Some_raw in Hd' as [Hd' | [_ Hd']].
        -- left. exists s0. eauto.
        -- apply lookup_singleton_Some in Hd' as [Hki _].
           right. split; congruence.
      * rewrite lookup_insert_ne in Hs by congruence. left. exists s. eauto.
  - split; [| split; [| split]].
    + intros n s k' i' d' Hn Hs.
      destruct (decide (n = _MANAGER_NAME k)) as [->|Hne].
      * rewrite lookup_insert_eq in Hn. injection Hn as <-.
        apply lookup_singleton_Some in Hs as [Hki <-].
        injection Hki as <- <-. auto.
      * rewrite lookup_insert_ne in Hn by congruence.
        exact (Hcur _ _ _ _ _ Hn Hs).
    + exists {[(k, i) := d]}. rewrite lookup_insert_eq.
      split; [reflexivity |]. exists d. apply lookup_singleton_eq.
    + intros k' i' (s & Hs & Hd').
      destruct (decide (_MANAGER_NAME k' = _MANAGER_NAME k)) as [Heq|Hne].
      * apply MANAGER_NAME_inj in Heq as ->. congruence.
      * exists s. rewrite lookup_insert_ne by congruence. eauto.
    + intros k' i' (s & Hs & [d' Hd']).
      destruct (decide (_MANAGER_NAME k' = _MANAGER_NAME k)) as [Heq|Hne].
      * apply MANAGER_NAME_inj in Heq as ->.
        rewrite lookup_insert_eq in Hs. injection Hs as <-.
        apply lookup_singleton_Some in Hd' as [Hki _].
        right. split; congruence.
      * rewrite lookup_insert_ne in Hs by congruence. left. exists s. eauto.
Qed.

(** When every identifier of the list names a stored entity, the loop
    succeeds and files exactly those entities on top of what was there. *)
Lemma collect_parents_stored (w : World) (ids : list string) (cur : ParentDict) :
  from_stores w cur ->
  (forall p, p ∈ ids -> exists k d, kind_of p = Some k /\ store_of k w !! p = Some d) ->
  exists cur',
    taipy.collect_parents w ids cur = Ret cur' /\
    from_stores w cur' /\
    (forall k i, has_parent cur k i -> has_parent cur' k i) /\
    (forall p k, p ∈ ids -> kind_of p = Some k -> has_parent cur' k p) /\
    (forall k i, has_parent cur' k i ->
                 has_parent cur k i \/ (i ∈ ids /\ kind_of i = Some k)).
Proof.
  revert cur. induction ids as [|p ids IH]; intros cur Hcur Hres.
  - exists cur. cbn. split; [reflexivity |]. split; [exact Hcur |].
    split; [auto |]. split; [| auto].
    intros p k Hp. apply elem_of_nil in Hp. contradiction.
  - destruct (Hres p (list_elem_of_here _ _)) as (k & d & Hk & Hd).
    cbn [taipy.collect_parents]. rewrite (get_str_found p w k d Hk Hd).
    destruct (add_parent_stored w cur k p d Hcur Hd)
      as (cur1 & Hadd & Hfs1 & Hhas1 & Hmono1 & Hinv1).
    rewrite Hadd.
    destruct (IH cur1 Hfs1) as (cur' & Hcol & Hfs' & Hmono' & Hnew' & Hinv').
    { intros q Hq. apply Hres. apply list_elem_of_further, Hq. }
    exists cur'. split; [exact Hcol |]. split; [exact Hfs' |].
    split; [| split].
    + intros k' i' H. apply Hmono', Hmono1, H.
    + intros q k' Hq Hk'. apply elem_of_cons in Hq as [-> | Hq].
      * assert (k' = k) as -> by congruence. apply Hmono', Hhas1.
      * apply Hnew'; assumption.
    + intros k' i' H. destruct (Hinv' k' i' H) as [H1 | [Hin Hk']].
      * destruct (Hinv1 k' i' H1) as [H0 | [-> ->]]; [left; exact H0 |].
        right. split; [apply list_elem_of_here | exact Hk].
      * right. split; [apply list_elem_of_further, Hin | exact Hk'].
Qed.

(** Decides the class tests of an entity of a known class. *)
Ltac kind_tests :=
  repeat first [ rewrite bool_decide_eq_true_2 by reflexivity
               | rewrite bool_decide_eq_false_2 by discriminate ].

(** One activation of [get_parents] on an entity object. *)
Lemma get_parents_entity (n : nat) (w : World) (k : Kind) (i : string)
    (d : EntityData) (pdo : option ParentDict) :
  taipy.get_parents (S n) w (VEnt k i d) pdo =
  match k with
  | Scenario | Cycle => Some (Ret (taipy.or_empty pdo))
  | Sequence =>
      match taipy.collect_parents w (elements (parent_ids d)) ∅ with
      | Ret cur => Some (Ret (taipy.update_parent_dict cur (taipy.or_empty pdo)))
      | Raise e => Some (Raise e)
      end
  | Task =>
      match taipy.collect_parents w (elements (parent_ids d)) ∅ with
      | Ret cur =>
          taipy.search_next (taipy.get_parents n w) "scenario"
            (taipy.update_parent_dict cur (taipy.or_empty pdo))
      | Raise e => Some (Raise e)
      end
  | DataNode =>
      match taipy.collect_parents w (elements (parent_ids d)) ∅ with
      | Ret cur =>
          taipy.search_next (taipy.get_parents n w) "task"
            (taipy.update_parent_dict cur (taipy.or_empty pdo))
      | Raise e => Some (Raise e)
      end
  | Job | Submission => Some (Raise AttributeError)
  end.
Proof.
  destruct k; cbn -[taipy.collect_parents taipy.search_next taipy.or_empty
                    taipy.update_parent_dict bool_decide];
    kind_tests; cbn -[taipy.collect_parents taipy.search_next taipy.or_empty
                      taipy.update_parent_dict];
    try reflexivity;
    destruct (taipy.collect_parents w (elements (parent_ids d)) ∅) as [cur|e];
    cbn -[taipy.search_next taipy.or_empty taipy.update_parent_dict];
    try reflexivity.
  - destruct (taipy.search_next (taipy.get_parents n w) "scenario" _)
      as [[pd|e]|]; reflexivity.
  - destruct (taipy.search_next (taipy.get_parents n w) "task" _)
      as [[pd|e]|]; reflexivity.
Qed.

(** An identifier is first replaced by the entity [get] returns. *)
Lemma get_parents_identifier (n : nat) (w : World) (s : string)
    (pdo : option ParentDict) :
  taipy.get_parents (S n) w (VStr s) pdo =
  match taipy.get (VStr s) w with
  | Ret e => taipy.get_parents (S n) w e pdo
  | Raise e => Some (Raise e)
  end.
Proof.
  destruct (taipy.get (VStr s) w) as [e|e] eqn:He.
  - pose proof (get_str_not_str s w e He) as Hns.
    cbn -[taipy.get taipy.collect_parents taipy.search_next taipy.or_empty
          taipy.update_parent_dict].
    rewrite He, Hns. reflexivity.
  - cbn -[taipy.get]. rewrite He. reflexivity.
Qed.

Lemma get_parents_no_attribute (n : nat) (w : World) (v : value)
    (pdo : option ParentDict) :
  v = VNone \/ (exists c, v = VObj c) ->
  taipy.get_parents (S n) w v pdo = Some (Raise AttributeError).
Proof. intros [-> | [c ->]]; reflexivity. Qed.

(** Walking a set of scenarios and cycles changes nothing. *)
Lemma for_parents_terminal (n : nat) (w : World) (key : string) (used : nat)
    (xs : list (Kind * string * EntityData)) (pd : ParentDict) :
  (forall x, x ∈ xs -> fst (fst x) = Scenario \/ fst (fst x) = Cycle) ->
  pd <> ∅ ->
  size (default ∅ (pd !! key)) = used ->
  taipy.for_parents (taipy.get_parents (S n) w) key used xs pd = Some (Ret pd).
Proof.
  intros Hxs Hne Hsize. induction xs as [|[[k i] d] xs IH]; [reflexivity |].
  cbn [taipy.for_parents].
  assert (Hk : k = Scenario \/ k = Cycle)
    by exact (Hxs (k, i, d) (list_elem_of_here _ _)).
  assert (Hrec : taipy.get_parents (S n) w (VEnt k i d) (Some pd) = Some (Ret pd)).
  { rewrite get_parents_entity, or_empty_default. destruct Hk as [-> | ->]; reflexivity. }
  rewrite Hrec. cbn [fbind].
  destruct (decide (pd = ∅)); [contradiction |].
  destruct (decide (size (default ∅ (pd !! key)) = used)); [| contradiction].
  apply IH. intros x Hx. apply Hxs, list_elem_of_further, Hx.
Qed.

Lemma search_next_scenario (n : nat) (w : World) (pd : ParentDict) :
  well_keyed pd ->
  taipy.search_next (taipy.get_parents (S n) w) "scenario" pd = Some (Ret pd).
Proof.
  intros Hwk. unfold taipy.search_next.
  destruct (pd !! "scenario") as [s|] eqn:E; [| reflexivity].
  apply for_parents_terminal.
  - intros [[k i] d] Hx. apply elem_of_map_to_list in Hx.
    left. cbn. apply MANAGER_NAME_inj. exact (Hwk _ _ _ _ _ E Hx).
  - intros ->. rewrite lookup_empty in E. discriminate.
  - rewrite E. reflexivity.
Qed.

(** A task needs one more activation: its own parents are merged into the
    accumulator, and the scenarios then found are terminal. *)
Lemma get_parents_task (n : nat) (w : World) (i : string) (d : EntityData)
    (pdo : option ParentDict) :
  well_keyed (default ∅ pdo) ->
  taipy.get_parents (S (S n)) w (VEnt Task i d) pdo =
  Some (match taipy.collect_parents w (elements (parent_ids d)) ∅ with
        | Ret cur => Ret (taipy.update_parent_dict cur (default ∅ pdo))
        | Raise e => Raise e
        end).
Proof.
  intros Hwk. rewrite get_parents_entity, or_empty_default.
  destruct (taipy.collect_parents w (elements (parent_ids d)) ∅) as [cur|e] eqn:E;
    [| reflexivity].
  apply search_next_scenario, update_parent_dict_well_keyed; [| exact Hwk].
  exact (collect_parents_well_keyed w _ ∅ cur well_keyed_empty E).
Qed.

(** Walking a set of tasks with two activations left always ends, with an
    exception or with a well keyed dictionary. *)
Lemma for_parents_tasks_end (n : nat) (w : World) (key : string) (used : nat)
    (xs : list (Kind * string * EntityData)) (pd : ParentDict) :
  (forall x, x ∈ xs -> fst (fst x) = Task) ->
  well_keyed pd ->
  exists r,
    taipy.for_parents (taipy.get_parents (S (S n)) w) key used xs pd = Some r /\
    forall pd', r = Ret pd' -> well_keyed pd'.
Proof.
  revert pd. induction xs as [|[[k i] d] xs IH]; intros pd Hxs Hwk.
  - eexists. split; [reflexivity |]. intros pd' H. injection H as <-. exact Hwk.
  - assert (k = Task) as -> by exact (Hxs (k, i, d) (list_elem_of_here _ _)).
    cbn [taipy.for_parents].
    rewrite (get_parents_task n w i d (Some pd) Hwk). cbn [default id].
    destruct (taipy.collect_parents w (elements (parent_ids d)) ∅) as [cur|e] eqn:E.
    + cbn [fbind].
      set (pd1 := if decide (pd = ∅) then pd
                  else taipy.update_parent_dict cur pd).
      assert (Hwk1 : well_keyed pd1).
      { subst pd1. destruct (decide (pd = ∅)); [exact Hwk |].
        apply update_parent_dict_well_keyed; [| exact Hwk].
        exact (collect_parents_well_keyed w _ ∅ cur well_keyed_empty E). }
      destruct (decide (size (default ∅ (pd1 !! key)) = used)).
      * apply IH; [| exact Hwk1].
        intros x Hx. apply Hxs, list_elem_of_further, Hx.
      * eexists. split; [reflexivity |]. intros pd' H. discriminate H.
    + cbn [fbind]. eexists. split; [reflexivity |]. intros pd' H. discriminate H.
Qed.

Lemma search_next_tasks_end (n : nat) (w : World) (pd : ParentDict) :
  well_keyed pd ->
  exists r, taipy.search_next (taipy.get_parents (S (S n)) w) "task" pd = Some r.
Proof.
  intros Hwk. unfold taipy.search_next.
  destruct (pd !! "task") as [s|] eqn:E; [| eauto].
  destruct (for_parents_tasks_end n w "task" (size s) (map_to_list s) pd)
    as (r & Hr & _); [| exact Hwk | eauto].
  intros [[k i] d] Hx. apply elem_of_map_to_list in Hx.
  cbn. apply MANAGER_NAME_inj. exact (Hwk _ _ _ _ _ E Hx).
Qed.

(** Three activations are enough for any entity object, whatever well
    keyed accumulator it is given. *)
Lemma get_parents_entity_ends (n : nat) (w : World) (k : Kind) (i : string)
    (d : EntityData) (pdo : option ParentDict) :
  well_keyed (default ∅ pdo) ->
  exists r, taipy.get_parents (S (S (S n))) w (VEnt k i d) pdo = Some r.
Proof.
  intros Hwk. rewrite get_parents_entity, or_empty_default.
  destruct k; eauto;
    destruct (taipy.collect_parents w (elements (parent_ids d)) ∅) as [cur|e] eqn:E;
    eauto;
    assert (Hwk1 : well_keyed (taipy.update_parent_dict cur (default ∅ pdo)))
      by (apply update_parent_dict_well_keyed; [| exact Hwk];
          exact (collect_parents_well_keyed w _ ∅ cur well_keyed_empty E)).
  - rewrite search_next_scenario by exact Hwk1. eauto.
  - apply search_next_tasks_end, Hwk1.
Qed.

Lemma get_parents_ends (n : nat) (w : World) (v : value)
    (pdo : option ParentDict) :
  well_keyed (default ∅ pdo) ->
  exists r, taipy.get_parents (S (S (S n))) w v pdo = Some r.
Proof.
  intros Hwk. destruct v as [| s | k i d | c].
  - rewrite get_parents_no_attribute; eauto.
  - rewrite get_parents_identifier.
    destruct (taipy.get (VStr s) w) as [e|e] eqn:He; [| eauto].
    rewrite get_str in He. destruct (kind_of s) as [k|]; [| discriminate].
    destruct (store_of k w !! s) as [d|]; injection He as <-.
    + apply get_parents_entity_ends, Hwk.
    + rewrite get_parents_no_attribute; eauto.
  - apply get_parents_entity_ends, Hwk.
  - rewrite get_parents_no_attribute; eauto.
Qed.

(** More activations never change a result. *)
Lemma for_parents_more_fuel
    (rec1 rec2 : value -> option ParentDict -> fueled ParentDict)
    (key : string) (used : nat) (xs : list (Kind * string * EntityData))
    (pd : ParentDict) (r : outcome ParentDict) :
  (forall v pdo r, rec1 v pdo = Some r -> rec2 v pdo = Some r) ->
  taipy.for_parents rec1 key used xs pd = Some r ->
  taipy.for_parents rec2 key used xs pd = Some r.
Proof.
  intros Hrec. revert pd. induction xs as [|[[k i] d] xs IH]; intros pd H.
  - exact H.
  - cbn [taipy.for_parents] in H |- *.
    destruct (rec1 (VEnt k i d) (Some pd)) as [[r1|e]|] eqn:E1; cbn [fbind] in H;
      [| | discriminate H]; rewrite (Hrec _ _ _ E1); cbn [fbind]; [| exact H].
    destruct (decide _); [apply IH, H | exact H].
Qed.

Lemma search_next_more_fuel
    (rec1 rec2 : value -> option ParentDict -> fueled ParentDict)
    (key : string) (pd : ParentDict) (r : outcome ParentDict) :
  (forall v pdo r, rec1 v pdo = Some r -> rec2 v pdo = Some r) ->
  taipy.search_next rec1 key pd = Some r ->
  taipy.search_next rec2 key pd = Some r.
Proof.
  intros Hrec. unfold taipy.search_next.
  destruct (pd !! key); [apply for_parents_more_fuel, Hrec | auto].
Qed.

Lemma get_parents_more_fuel (n : nat) (w : World) (v : value)
    (pdo : option ParentDict) (r : outcome ParentDict) :
  taipy.get_parents n w v pdo = Some r ->
  taipy.get_parents (S n) w v pdo = Some r.
Proof.
  revert v pdo r. induction n as [|n IH]; intros v pdo r H; [discriminate H |].
  assert (Hent : forall k i d r,
             taipy.get_parents (S n) w (VEnt k i d) pdo = Some r ->
             taipy.get_parents (S (S n)) w (VEnt k i d) pdo = Some r).
  { intros k i d r0. rewrite !get_parents_entity.
    destruct k; try exact (fun H => H);
      destruct (taipy.collect_parents w (elements (parent_ids d)) ∅);
      try exact (fun H => H);
      apply search_next_more_fuel; exact IH. }
  destruct v as [| s | k i d | c].
  - rewrite get_parents_no_attribute in H |- * by auto. exact H.
  - rewrite get_parents_identifier in H |- *.
    destruct (taipy.get (VStr s) w) as [e|e] eqn:He; [| exact H].
    rewrite get_str in He. destruct (kind_of s) as [k|]; [| discriminate].
    destruct (store_of k w !! s) as [d|]; injection He as <-.
    + apply Hent, H.
    + rewrite get_parents_no_attribute in H |- * by auto. exact H.
  - apply Hent, H.
  - rewrite get_parents_no_attribute in H |- * by eauto. exact H.
Qed.

(** A property of the dictionary that every activation keeps is kept by
    the walk. *)
Lemma for_parents_preserves (P : ParentDict -> Prop)
    (rec : value -> option ParentDict -> fueled ParentDict)
    (key : string) (used : nat) (xs : list (Kind * string * EntityData))
    (pd pd' : ParentDict) :
  (forall v pd r, P pd -> rec v (Some pd) = Some (Ret r) -> P r) ->
  P pd ->
  taipy.for_parents rec key used xs pd = Some (Ret pd') -> P pd'.
Proof.
  intros Hrec. revert pd. induction xs as [|[[k i] d] xs IH]; intros pd HP H.
  - injection H as <-. exact HP.
  - cbn [taipy.for_parents] in H.
    destruct (rec (VEnt k i d) (Some pd)) as [[r1|e]|] eqn:E1; cbn [fbind] in H;
      try discriminate H.
    destruct (decide (size _ = used)); [| discriminate H].
    apply (IH (if decide (pd = ∅) then pd else r1)); [| exact H].
    destruct (decide (pd = ∅)); eauto.
Qed.

(** What [get_parents] returns from a well keyed accumulator is well keyed
    again: the accumulators handed down the recursion never leave that
    class. *)
Lemma get_parents_well_keyed (n : nat) (w : World) (v : value)
    (pdo : option ParentDict) (pd' : ParentDict) :
  well_keyed (default ∅ pdo) ->
  taipy.get_parents n w v pdo = Some (Ret pd') -> well_keyed pd'.
Proof.
  revert v pdo pd'. induction n as [|n IH]; intros v pdo pd' Hwk H;
    [discriminate H |].
  assert (Hent : forall k i d,
             taipy.get_parents (S n) w (VEnt k i d) pdo = Some (Ret pd') ->
             well_keyed pd').
  { intros k i d. rewrite get_parents_entity, or_empty_default.
    assert (Hupd : forall cur,
               taipy.collect_parents w (elements (parent_ids d)) ∅ = Ret cur ->
               well_keyed (taipy.update_parent_dict cur (default ∅ pdo))).
    { intros cur E. apply update_parent_dict_well_keyed; [| exact Hwk].
      exact (collect_parents_well_keyed w _ ∅ cur well_keyed_empty E). }
    assert (Hnext : forall key cur,
               taipy.collect_parents w (elements (parent_ids d)) ∅ = Ret cur ->
               taipy.search_next (taipy.get_parents n w) key
                 (taipy.update_parent_dict cur (default ∅ pdo)) = Some (Ret pd') ->
               well_keyed pd').
    { intros key cur E. unfold taipy.search_next.
      destruct (_ !! key).
      - apply for_parents_preserves; [| exact (Hupd cur E)].
        intros v0 pd0 r0 Hpd0. exact (IH v0 (Some pd0) r0 Hpd0).
      - intros G. injection G as <-. exact (Hupd cur E). }
    destruct k;
      try (intros G; injection G as <-; exact Hwk);
      destruct (taipy.collect_parents w (elements (parent_ids d)) ∅) as [cur|e] eqn:E;
      try (intros G; discriminate G);
      try (intros G; injection G as <-; first [exact Hwk | exact (Hupd cur eq_refl)]).
    - apply (Hnext "scenario" cur eq_refl).
    - apply (Hnext "task" cur eq_refl). }
  destruct v as [| s | k i d | c].
  - rewrite get_parents_no_attribute in H by auto. discriminate H.
  - rewrite get_parents_identifier in H.
    destruct (taipy.get (VStr s) w) as [e|e] eqn:He; [| discriminate H].
    rewrite get_str in He. destruct (kind_of s) as [k|]; [| discriminate].
    destruct (store_of k w !! s) as [d|]; injection He as <-.
    + exact (Hent _ _ _ H).
    + rewrite get_parents_no_attribute in H by auto. discriminate H.
  - exact (Hent _ _ _ H).
  - rewrite get_parents_no_attribute in H by eauto. discriminate H.
Qed.

(** C8. [get_parents] terminates on every entity or identifier, within a
    fixed number of nested activations ([fuel] counts them, the outermost
    call included). One activation handles a Scenario or a Cycle: the
    accumulated dictionary is returned as it is (the empty one when none
    was accumulated) and nothing recurses. Two activations handle a Task,
    the second one on the scenarios found. Three activations handle every
    input, a DataNode being the deepest: its tasks, then their scenarios.
    The accumulator is the one the function builds for itself: none at the
    outermost call, and below it a dictionary that files every entity
    under the name of its own manager, which is what every activation
    returns. Allowing more activations changes no result. *)
Theorem get_parents_terminates (w : World) :
  (forall n v k i d pdo,
     denotes w v k i d -> k = Scenario \/ k = Cycle ->
     taipy.get_parents (S n) w v pdo = Some (Ret (default ∅ pdo))) /\
  (forall n v i d pdo,
     denotes w v Task i d ->
     well_keyed (default ∅ pdo) ->
     exists r, taipy.get_parents (S (S n)) w v pdo = Some r) /\
  (forall n v pdo,
     well_keyed (default ∅ pdo) ->
     exists r, taipy.get_parents (S (S (S n))) w v pdo = Some r) /\
  (forall n v, exists r, taipy.get_parents (S (S (S n))) w v None = Some r) /\
  (forall n v pdo pd,
     well_keyed (default ∅ pdo) ->
     taipy.get_parents n w v pdo = Some (Ret pd) -> well_keyed pd) /\
  (forall n v pdo r,
     taipy.get_parents n w v pdo = Some r ->
     taipy.get_parents (S n) w v pdo = Some r).
Proof.
  assert (Hden : forall n v k i d pdo,
             denotes w v k i d ->
             taipy.get_parents (S n) w v pdo =
             taipy.get_parents (S n) w (VEnt k i d) pdo).
  { intros n v k i d pdo [-> | (s & -> & Hs)]; [reflexivity |].
    rewrite get_parents_identifier, Hs. reflexivity. }
  split; [| split; [| split; [| split; [| split]]]].
  - intros n v k i d pdo Hv Hk.
    rewrite (Hden n v k i d pdo Hv), get_parents_entity, or_empty_default.
    destruct Hk as [-> | ->]; reflexivity.
  - intros n v i d pdo Hv Hwk.
    rewrite (Hden (S n) v Task i d pdo Hv).
    rewrite get_parents_task by exact Hwk. eauto.
  - intros n v pdo. apply get_parents_ends.
  - intros n v. apply get_parents_ends. exact well_keyed_empty.
  - intros n v pdo pd. apply get_parents_well_keyed.
  - intros n v pdo r. apply get_parents_more_fuel.
Qed.

Lemma has_parent_stored (w : World) (pd : ParentDict) (k : Kind) (i : string)
    (d : EntityData) :
  from_stores w pd -> has_parent pd k i -> store_of k w !! i = Some d ->
  exists s, pd !! _MANAGER_NAME k = Some s /\ s !! (k, i) = Some d.
Proof.
  intros Hfs (s & Hs & [d' Hd']) Hd. exists s. split; [exact Hs |].
  destruct (Hfs _ _ _ _ _ Hs Hd') as [_ Hst]. congruence.
Qed.

(** Walking the tasks of a data node: when the parents of each task are
    stored entities other than tasks, every activation succeeds, the set
    walked is left as it was, and the parents of every task walked end up
    in the dictionary. *)
Lemma for_parents_tasks_stored (n : nat) (w : World) (tasks0 : EntitySet)
    (xs : list (Kind * string * EntityData)) (pd : ParentDict) :
  (forall x, x ∈ xs ->
     exists i d, x = (Task, i, d) /\
       forall q, q ∈ parent_ids d ->
         exists k e, kind_of q = Some k /\ k <> Task /\ store_of k w !! q = Some e) ->
  from_stores w pd ->
  pd !! "task" = Some tasks0 ->
  exists pd',
    taipy.for_parents (taipy.get_parents (S (S n)) w) "task" (size tasks0) xs pd
      = Some (Ret pd') /\
    from_stores w pd' /\
    pd' !! "task" = Some tasks0 /\
    (forall k i, has_parent pd k i -> has_parent pd' k i) /\
    (forall i d q k, (Task, i, d) ∈ xs -> q ∈ parent_ids d ->
                     kind_of q = Some k -> has_parent pd' k q).
Proof.
  revert pd. induction xs as [|x xs IH]; intros pd Hxs Hfs Htasks.
  - exists pd. cbn. split; [reflexivity |]. split; [exact Hfs |].
    split; [exact Htasks |]. split; [auto |].
    intros i d q k Hin. apply elem_of_nil in Hin. contradiction.
  - destruct (Hxs x (list_elem_of_here _ _)) as (i & d & -> & Hpar).
    cbn [taipy.for_parents].
    rewrite (get_parents_task n w i d (Some pd))
      by exact (from_stores_well_keyed w pd Hfs).
    cbn [default id].
    destruct (collect_parents_stored w (elements (parent_ids d)) ∅
                (from_stores_empty w))
      as (cur & Hcol & Hfscur & _ & Hnew & Hinv).
    { intros q Hq. apply elem_of_elements in Hq.
      destruct (Hpar q Hq) as (k & e & Hk & _ & He). eauto. }
    rewrite Hcol. cbn [fbind].
    assert (Hne : pd <> ∅).
    { intros ->. rewrite lookup_empty in Htasks. discriminate. }
    destruct (decide (pd = ∅)) as [|_]; [contradiction |].
    set (pd1 := taipy.update_parent_dict cur pd).
    assert (Hfs1 : from_stores w pd1)
      by (apply update_parent_dict_from_stores; assumption).
    assert (Htasks1 : pd1 !! "task" = Some tasks0).
    { subst pd1. rewrite update_parent_dict_lookup, Htasks.
      destruct (cur !! "task") as [s1|] eqn:E1; cbn; [| reflexivity].
      assert (s1 = ∅) as ->.
      { apply map_empty. intros [k j].
        destruct (s1 !! (k, j)) as [e|] eqn:Ee; [| reflexivity].
        destruct (Hfscur _ _ _ _ _ E1 Ee) as [Hname _].
        assert (k = Task) as -> by (apply MANAGER_NAME_inj; exact Hname).
        destruct (Hinv Task j) as [(s0 & Hs0 & _) | [Hj Hkj]].
        - exists s1. split; [exact E1 | eauto].
        - rewrite lookup_empty in Hs0. discriminate.
        - apply elem_of_elements in Hj.
          destruct (Hpar j Hj) as (k & e' & Hk & Hnt & _). congruence. }
      rewrite (right_id_L ∅ (∪)). reflexivity. }
    rewrite Htasks1. cbn [default id].
    destruct (decide (size tasks0 = size tasks0)) as [_|]; [| contradiction].
    destruct (IH pd1) as (pd' & Hloop & Hfs' & Htasks' & Hmono' & Hnew').
    { intros y Hy. apply Hxs, list_elem_of_further, Hy. }
    { exact Hfs1. }
    { exact Htasks1. }
    exists pd'. split; [exact Hloop |]. split; [exact Hfs' |].
    split; [exact Htasks' |]. split.
    + intros k j H. apply Hmono'. apply update_parent_dict_has. left. exact H.
    + intros j e q k Hin Hq Hk. apply elem_of_cons in Hin as [Heq | Hin].
      * injection Heq as -> ->. apply Hmono'.
        apply update_parent_dict_has. right.
        apply Hnew; [apply elem_of_elements, Hq | exact Hk].
      * exact (Hnew' j e q k Hin Hq Hk).
Qed.

(** C5. For a data node produced by a task [t] that a scenario [s]
    consumes, in an entity graph whose ownership references resolve (the
    parents of the data node and of its tasks are stored entities, and no
    task is owned by a task), [get_parents] applied to the data node or to
    its identifier returns a dictionary whose ["task"] set holds [t] and
    whose ["scenario"] set holds [s], two hops above the data node. The
    sets hold each entity once. *)
Theorem get_parents_data_node (n : nat) (w : World) (v : value)
    (i : string) (dd : EntityData) (t : string) (td : EntityData)
    (s : string) (sd : EntityData) :
  v = VEnt DataNode i dd \/
  (v = VStr i /\ kind_of i = Some DataNode /\ data_store w !! i = Some dd) ->
  (forall p, p ∈ parent_ids dd ->
     exists k d, kind_of p = Some k /\ store_of k w !! p = Some d) ->
  (forall p d, p ∈ parent_ids dd -> kind_of p = Some Task ->
     task_store w !! p = Some d ->
     forall q, q ∈ parent_ids d ->
       exists k e, kind_of q = Some k /\ k <> Task /\ store_of k w !! q = Some e) ->
  t ∈ parent_ids dd -> kind_of t = Some Task -> task_store w !! t = Some td ->
  s ∈ parent_ids td -> kind_of s = Some Scenario ->
  scenario_store w !! s = Some sd ->
  exists pd tasks scenarios,
    taipy.get_parents (S (S (S n))) w v None = Some (Ret pd) /\
    pd !! "task" = Some tasks /\ tasks !! (Task, t) = Some td /\
    pd !! "scenario" = Some scenarios /\ scenarios !! (Scenario, s) = Some sd /\
    NoDup (fst <$> map_to_list tasks) /\
    NoDup (fst <$> map_to_list scenarios).
Proof.
  intros Hv Hres Htask Ht Hkt Htd Hs Hks Hsd.
  assert (Hent : taipy.get_parents (S (S (S n))) w v None =
                 taipy.get_parents (S (S (S n))) w (VEnt DataNode i dd) None).
  { destruct Hv as [-> | (-> & Hki & Hdd)]; [reflexivity |].
    rewrite get_parents_identifier.
    rewrite (get_str_found i w DataNode dd Hki Hdd). reflexivity. }
  rewrite Hent, get_parents_entity. cbn [taipy.or_empty].
  destruct (collect_parents_stored w (elements (parent_ids dd)) ∅
              (from_stores_empty w))
    as (cur & Hcol & Hfscur & _ & Hnew & Hinv).
  { intros p Hp. apply Hres, elem_of_elements, Hp. }
  rewrite Hcol, update_parent_dict_empty.
  assert (Hhast : has_parent cur Task t)
    by (apply Hnew; [apply elem_of_elements, Ht | exact Hkt]).
  destruct (has_parent_stored w cur Task t td Hfscur Hhast Htd)
    as (tasks0 & Htasks0 & Ht0).
  change (_MANAGER_NAME Task) with "task" in Htasks0.
  unfold taipy.search_next. rewrite Htasks0.
  destruct (for_parents_tasks_stored n w tasks0 (map_to_list tasks0) cur)
    as (pd & Hloop & Hfs & Htasks & Hmono & Hnewpd).
  { intros [[k j] d] Hx. apply elem_of_map_to_list in Hx.
    destruct (Hfscur _ _ _ _ _ Htasks0 Hx) as [Hname Hst].
    assert (k = Task) as -> by (apply MANAGER_NAME_inj; exact Hname).
    exists j, d. split; [reflexivity |].
    destruct (Hinv Task j) as [(s0 & Hs0 & _) | [Hj Hkj]].
    - exists tasks0. split; [exact Htasks0 | eauto].
    - rewrite lookup_empty in Hs0. discriminate.
    - apply elem_of_elements in Hj. exact (Htask j d Hj Hkj Hst). }
  { exact Hfscur. }
  { exact Htasks0. }
  assert (Hhass : has_parent pd Scenario s).
  { apply (Hnewpd t td s Scenario); [| exact Hs | exact Hks].
    apply elem_of_map_to_list. exact Ht0. }
  destruct (has_parent_stored w pd Scenario s sd Hfs Hhass Hsd)
    as (scenarios & Hscenarios & Hs0).
  change (_MANAGER_NAME Scenario) with "scenario" in Hscenarios.
  exists pd, tasks0, scenarios.
  split; [exact Hloop |].
  split; [exact Htasks |]. split; [exact Ht0 |].
  split; [exact Hscenarios |]. split; [exact Hs0 |].
  split; apply NoDup_fst_map_to_list.
Qed.

End Parents.

(** ** Runs in the demonstration world *)

Example get_task :
  @taipy.get Demo.demo (VStr "TASK_u") Demo.w0 =
  Ret (VEnt Task "TASK_u" (Demo.ent "1.0" ["SCENARIO_s"] None false)).
Proof. reflexivity. Qed.

Example get_missing_task :
  @taipy.get Demo.demo (VStr "TASK_x") Demo.w0 = Ret VNone.
Proof. reflexivity. Qed.

Example exists_unknown_prefix :
  @taipy.exists_ Demo.demo (VStr "PIPELINE_p") Demo.w0 =
  Raise (ModelNotFound "NOT_DETERMINED" (VStr "PIPELINE_p")).
Proof. reflexivity. Qed.

Example delete_finished_job :
  @taipy.delete Demo.demo (VStr "JOB_j") Demo.w0 =
  (Ret VNone, with_store Job ∅ Demo.w0).
Proof. vm_compute. reflexivity. Qed.

(** The data node is shared by two tasks of one scenario: the scenario is
    reached along both and is in the result once. *)
Example get_parents_shared_data_node :
  @taipy.get_parents Demo.demo 3 Demo.w0 (VStr "DATANODE_d") None =
  Some (Ret {[ "task" :=
                 {[ (Task, "TASK_t") :=
                      Demo.ent "1.0" ["SCENARIO_s"; "SEQUENCE_q"] None false;
                    (Task, "TASK_u") :=
                      Demo.ent "1.0" ["SCENARIO_s"] None false ]};
               "scenario" :=
                 {[ (Scenario, "SCENARIO_s") :=
                      Demo.ent "1.0" [] (Some "CYCLE_c") false ]};
               "sequence" :=
                 {[ (Sequence, "SEQUENCE_q") :=
                      Demo.ent "1.0" ["SCENARIO_s"] None false ]} ]}).
Proof. vm_compute. reflexivity. Qed.

(** Two activations are not enough for that data node, and are enough for
    its tasks: the bounds on the depth are reached. *)
Example get_parents_data_node_depth :
  @taipy.get_parents Demo.demo 2 Demo.w0 (VStr "DATANODE_d") None = None /\
  @taipy.get_parents Demo.demo 1 Demo.w0 (VStr "TASK_t") None = None /\
  @taipy.get_parents Demo.demo 2 Demo.w0 (VStr "TASK_t") None =
  Some (Ret {[ "scenario" :=
                 {[ (Scenario, "SCENARIO_s") :=
                      Demo.ent "1.0" [] (Some "CYCLE_c") false ]};
               "sequence" :=
                 {[ (Sequence, "SEQUENCE_q") :=
                      Demo.ent "1.0" ["SCENARIO_s"] None false ]} ]}).
Proof. repeat split; vm_compute; reflexivity. Qed.

(** ** The properties at work in the demonstration world *)

Lemma delete_dispatch_witness :
  @kind_of Demo.demo "DATANODE_d" = Some DataNode /\
  @taipy.delete Demo.demo (VStr "DATANODE_d") Demo.w0 =
    (Ret VNone, with_store DataNode (delete "DATANODE_d" (data_store Demo.w0)) Demo.w0).
Proof.
  split; [reflexivity |].
  destruct (@delete_dispatch Demo.demo "DATANODE_d" DataNode Demo.w0 eq_refl)
    as (_ & H & _).
  exact H.
Defined.

Lemma is_deletable_default_witness :
  @prefix_free Demo.demo /\
  @taipy._is_kind Demo.demo DataNode (VStr "DATANODE_d") = true /\
  @taipy.is_deletable Demo.demo (VStr "DATANODE_d") Demo.w0 = true.
Proof.
  assert (Hfree : @prefix_free Demo.demo)
    by (intros [] [] Hne; try reflexivity; congruence).
  split; [exact Hfree |]. split; [reflexivity |].
  destruct (@is_deletable_default Demo.demo (VStr "DATANODE_d") Demo.w0 Hfree)
    as [H _].
  exact (H DataNode eq_refl).
Defined.

Lemma submit_other_returns_none_witness :
  isinstance (VEnt DataNode "DATANODE_d" (Demo.ent "1.0" ["TASK_t"] None false))
    Scenario = false /\
  @taipy.submit Demo.demo
    (VEnt DataNode "DATANODE_d" (Demo.ent "1.0" ["TASK_t"] None false))
    false false VNone [] Demo.w0 = (Ret VNone, Demo.w0).
Proof.
  split; [reflexivity |].
  destruct (@submit_other_returns_none Demo.demo
              (VEnt DataNode "DATANODE_d" (Demo.ent "1.0" ["TASK_t"] None false))
              false false VNone [] Demo.w0 eq_refl eq_refl eq_refl) as [H _].
  exact H.
Defined.

Lemma set_submission_and_default_witness :
  isinstance (VStr "SCENARIO_s") Scenario = false /\
  @taipy.set Demo.demo (VStr "SCENARIO_s") Demo.w0 = (Ret VNone, Demo.w0).
Proof.
  split; [reflexivity |].
  destruct (@set_submission_and_default Demo.demo Demo.w0) as [_ H].
  exact (H (VStr "SCENARIO_s") eq_refl eq_refl eq_refl eq_refl eq_refl eq_refl).
Defined.

Lemma clean_all_entities_cleans_version_witness :
  @_replace_version_number Demo.demo Demo.w0 (VStr "1.0") = Ret "1.0" /\
  exists w',
    @taipy.clean_all_entities Demo.demo (VStr "1.0") Demo.w0 = (Ret true, w') /\
    task_store w' !! "TASK_t" = None /\
    cycle_store w' !! "CYCLE_c" = None /\
    ("1.0" ∉ versions w').
Proof.
  assert (H1 : "1.0" ∈ versions Demo.w0)
    by (apply (bool_decide_unpack _); vm_compute; exact I).
  assert (H2 : "1.0" ∉ production_versions Demo.w0)
    by (apply (bool_decide_unpack _); vm_compute; exact I).
  assert (H0 : @_replace_version_number Demo.demo Demo.w0 (VStr "1.0") = Ret "1.0")
    by (vm_compute; reflexivity).
  split; [exact H0 |].
  destruct (@clean_all_entities_cleans_version Demo.demo (VStr "1.0") "1.0"
              Demo.w0 H0 H1 H2) as (w' & Hrun & Hst & Hcy & Hv & _).
  exists w'. split; [exact Hrun |]. split; [| split; [| exact Hv]].
  - apply (Hst Task "TASK_t"
             (Demo.ent "1.0" ["SCENARIO_s"; "SEQUENCE_q"] None false));
      [discriminate | reflexivity | reflexivity].
  - apply Hcy.
    + exists "SCENARIO_s", (Demo.ent "1.0" [] (Some "CYCLE_c") false).
      split; [reflexivity |]. split; reflexivity.
    + intros j e Hj _. unfold Demo.w0 in Hj. cbn [scenario_store] in Hj.
      apply lookup_singleton_Some in Hj as [_ <-]. reflexivity.
Defined.

Lemma clean_all_entities_refused_witness :
  (exists v, @_replace_version_number Demo.demo Demo.w0 (VStr "2.0") = Ret v /\
             v ∈ production_versions Demo.w0) /\
  exists entry,
    @taipy.clean_all_entities Demo.demo (VStr "2.0") Demo.w0
    = (Ret false, log_warning entry Demo.w0).
Proof.
  assert (Hprod : exists v,
             @_replace_version_number Demo.demo Demo.w0 (VStr "2.0") = Ret v /\
             v ∈ production_versions Demo.w0).
  { exists "2.0". split; [reflexivity |].
    apply (bool_decide_unpack _). vm_compute. exact I. }
  split; [exact Hprod |].
  destruct (@clean_all_entities_refused Demo.demo (VStr "2.0") Demo.w0
              (or_intror Hprod)) as (entry & H & _).
  exists entry. exact H.
Defined.

Lemma get_parents_terminates_witness :
  exists r,
    @taipy.get_parents Demo.demo 3 Demo.w0 (VStr "DATANODE_d") None = Some r.
Proof.
  destruct (@get_parents_terminates Demo.demo Demo.w0)
    as (_ & _ & _ & H & _).
  exact (H 0 (VStr "DATANODE_d")).
Defined.

(** Splits a membership in a literal set of identifiers into its cases. *)
Ltac id_cases H :=
  apply elem_of_list_to_set in H;
  repeat (apply elem_of_cons in H as [-> | H]);
  try (apply elem_of_nil in H; contradiction).

Lemma get_parents_data_node_witness :
  exists pd tasks scenarios,
    @taipy.get_parents Demo.demo 3 Demo.w0 (VStr "DATANODE_d") None
      = Some (Ret pd) /\
    pd !! "task" = Some tasks /\
    tasks !! (Task, "TASK_t")
      = Some (Demo.ent "1.0" ["SCENARIO_s"; "SEQUENCE_q"] None false) /\
    pd !! "scenario" = Some scenarios /\
    scenarios !! (Scenario, "SCENARIO_s")
      = Some (Demo.ent "1.0" [] (Some "CYCLE_c") false) /\
    NoDup (fst <$> map_to_list tasks) /\
    NoDup (fst <$> map_to_list scenarios).
Proof.
  apply (@get_parents_data_node Demo.demo 0 Demo.w0 (VStr "DATANODE_d")
           "DATANODE_d" (Demo.ent "1.0" ["TASK_t"; "TASK_u"] None false)
           "TASK_t" (Demo.ent "1.0" ["SCENARIO_s"; "SEQUENCE_q"] None false)
           "SCENARIO_s" (Demo.ent "1.0" [] (Some "CYCLE_c") false)).
  - right. split; [reflexivity |]. split; reflexivity.
  - intros p Hp. unfold Demo.ent in Hp; cbn [parent_ids] in Hp. id_cases Hp.
    + exists Task, (Demo.ent "1.0" ["SCENARIO_s"; "SEQUENCE_q"] None false).
      split; reflexivity.
    + exists Task, (Demo.ent "1.0" ["SCENARIO_s"] None false).
      split; reflexivity.
  - intros p d Hp _ Hd q Hq. unfold Demo.ent in Hp; cbn [parent_ids] in Hp.
    id_cases Hp.
    + assert (d = Demo.ent "1.0" ["SCENARIO_s"; "SEQUENCE_q"] None false) as ->.
      { change (Some (Demo.ent "1.0" ["SCENARIO_s"; "SEQUENCE_q"] None false)
                = Some d) in Hd.
        injection Hd as <-. reflexivity. }
      unfold Demo.ent in Hq; cbn [parent_ids] in Hq. id_cases Hq.
      * exists Scenario, (Demo.ent "1.0" [] (Some "CYCLE_c") false).
        split; [reflexivity |]. split; [discriminate | reflexivity].
      * exists Sequence, (Demo.ent "1.0" ["SCENARIO_s"] None false).
        split; [reflexivity |]. split; [discriminate | reflexivity].
    + assert (d = Demo.ent "1.0" ["SCENARIO_s"] None false) as ->.
      { change (Some (Demo.ent "1.0" ["SCENARIO_s"] None false) = Some d) in Hd.
        injection Hd as <-. reflexivity. }
      unfold Demo.ent in Hq; cbn [parent_ids] in Hq. id_cases Hq.
      exists Scenario, (Demo.ent "1.0" [] (Some "CYCLE_c") false).
      split; [reflexivity |]. split; [discriminate | reflexivity].
  - unfold Demo.ent; cbn [parent_ids].
    apply elem_of_list_to_set, list_elem_of_here.
  - reflexivity.
  - reflexivity.
  - unfold Demo.ent; cbn [parent_ids].
    apply elem_of_list_to_set, list_elem_of_here.
  - reflexivity.
  - reflexivity.
Defined.

(** * Further properties *)

(** ** The entity router, continued *)

Section RouterVerdicts.
Context {C : Collaborators} {S : Services}.

(** Under [prefix_free], the prefix tests of an identifier are settled by
    its kind. *)
Lemma prefix_table (s : string) (k k' : Kind) :
  prefix_free -> kind_of s = Some k ->
  String.prefix (_ID_PREFIX k') s = bool_decide (k' = k).
Proof.
  intros Hfree Hk. apply kind_of_Some in Hk as [Hk _].
  destruct (decide (k' = k)) as [->|Hne].
  - rewrite bool_decide_eq_true_2 by reflexivity. exact Hk.
  - rewrite bool_decide_eq_false_2 by exact Hne.
    exact (prefix_unique s k k' Hfree Hk Hne).
Qed.

(** Rewrites the seven prefix tests of an identifier of kind [k]. *)
Ltac settle_prefixes Hfree Hk :=
  rewrite ?(prefix_table _ _ Job Hfree Hk), ?(prefix_table _ _ Cycle Hfree Hk),
    ?(prefix_table _ _ Scenario Hfree Hk), ?(prefix_table _ _ Sequence Hfree Hk),
    ?(prefix_table _ _ Task Hfree Hk), ?(prefix_table _ _ DataNode Hfree Hk),
    ?(prefix_table _ _ Submission Hfree Hk).

(** X1. [is_submittable] answers for scenarios, sequences and tasks only:
    an identifier is passed to the manager of the kind the router resolves
    it to when that kind is one of the three, an entity to the manager of
    its class when that class is one of the three, and everything else is
    not submittable, no manager being asked. *)
Theorem is_submittable_resolves (w : World) :
  prefix_free ->
  (forall s,
     taipy.is_submittable (VStr s) w =
     match kind_of s with
     | Some Scenario => _is_submittable Scenario (VStr s) w
     | Some Sequence => _is_submittable Sequence (VStr s) w
     | Some Task => _is_submittable Task (VStr s) w
     | _ => false
     end) /\
  (forall k i d,
     taipy.is_submittable (VEnt k i d) w =
     match k with
     | Scenario | Sequence | Task => _is_submittable k (VEnt k i d) w
     | _ => false
     end) /\
  taipy.is_submittable VNone w = false /\
  (forall c, taipy.is_submittable (VObj c) w = false).
Proof.
  intros Hfree. split; [| split; [| split]].
  - intros s. unfold taipy.is_submittable. cbn [isinstance str_startswith].
    destruct (kind_of s) as [k|] eqn:Hk.
    + settle_prefixes Hfree Hk. destruct k; reflexivity.
    + pose proof (proj1 (kind_of_None s) Hk) as Hnone.
      rewrite !Hnone. reflexivity.
  - intros k i d. destruct k; reflexivity.
  - reflexivity.
  - intros c. reflexivity.
Qed.

(** X2. [is_editable] asks the manager of the kind the router resolves:
    although it tests the kinds in another order than [get] (Cycle first,
    Job fifth), an identifier is passed to the manager of [kind_of], an
    entity to the manager of its class; an identifier of no kind, [None]
    and foreign objects are not editable. *)
Theorem is_editable_resolves (w : World) :
  prefix_free ->
  (forall s,
     taipy.is_editable (VStr s) w =
     match kind_of s with
     | Some k => _is_editable k (VStr s) w
     | None => false
     end) /\
  (forall k i d, taipy.is_editable (VEnt k i d) w = _is_editable k (VEnt k i d) w) /\
  taipy.is_editable VNone w = false /\
  (forall c, taipy.is_editable (VObj c) w = false).
Proof.
  intros Hfree. split; [| split; [| split]].
  - intros s. unfold taipy.is_editable. cbn [isinstance str_startswith].
    destruct (kind_of s) as [k|] eqn:Hk.
    + settle_prefixes Hfree Hk. destruct k; reflexivity.
    + pose proof (proj1 (kind_of_None s) Hk) as Hnone.
      rewrite !Hnone. reflexivity.
  - intros k i d. destruct k; reflexivity.
  - reflexivity.
  - intros c. reflexivity.
Qed.

(** X3. [is_readable] asks the manager of the kind the router resolves, as
    [is_editable] does; an identifier of no kind, [None] and foreign
    objects are not readable. *)
Theorem is_readable_resolves (w : World) :
  prefix_free ->
  (forall s,
     taipy.is_readable (VStr s) w =
     match kind_of s with
     | Some k => _is_readable k (VStr s) w
     | None => false
     end) /\
  (forall k i d, taipy.is_readable (VEnt k i d) w = _is_readable k (VEnt k i d) w) /\
  taipy.is_readable VNone w = false /\
  (forall c, taipy.is_readable (VObj c) w = false).
Proof.
  intros Hfree. split; [| split; [| split]].
  - intros s. unfold taipy.is_readable. cbn [isinstance str_startswith].
    destruct (kind_of s) as [k|] eqn:Hk.
    + settle_prefixes Hfree Hk. destruct k; reflexivity.
    + pose proof (proj1 (kind_of_None s) Hk) as Hnone.
      rewrite !Hnone. reflexivity.
  - intros k i d. destruct k; reflexivity.
  - reflexivity.
  - intros c. reflexivity.
Qed.

(** X4. The verdicts on an identifier of no known kind do not agree:
    [is_deletable] says [True], yet [delete] raises [ModelNotFound] and
    changes nothing, as [get] and [exists] raise; [is_editable],
    [is_readable] and [is_submittable] say [False]. *)
Theorem unknown_identifier_verdicts (s : string) (w : World) :
  kind_of s = None ->
  taipy.is_deletable (VStr s) w = true /\
  taipy.delete (VStr s) w = (Raise (ModelNotFound "NOT_DETERMINED" (VStr s)), w) /\
  taipy.get (VStr s) w = Raise (ModelNotFound "NOT_DETERMINED" (VStr s)) /\
  taipy.exists_ (VStr s) w = Raise (ModelNotFound "NOT_DETERMINED" (VStr s)) /\
  taipy.is_editable (VStr s) w = false /\
  taipy.is_readable (VStr s) w = false /\
  taipy.is_submittable (VStr s) w = false.
Proof.
  intros Hk. pose proof (proj1 (kind_of_None s) Hk) as Hnone.
  unfold taipy.is_deletable, taipy.delete, taipy.get, taipy.exists_,
    taipy.is_editable, taipy.is_readable, taipy.is_submittable,
    taipy._is_job, taipy._is_cycle, taipy._is_scenario, taipy._is_sequence,
    taipy._is_task, taipy._is_data_node, taipy._is_submission, taipy._is_kind.
  cbn [isinstance str_startswith orb]. rewrite !Hnone.
  repeat split.
Qed.

End RouterVerdicts.

(** ** Deletes through the router *)

Section RouterStores.
Context {C : Collaborators} {S : Services}.

Lemma exists_str (p : string) (w : World) :
  taipy.exists_ (VStr p) w =
  match kind_of p with
  | Some k => Ret (bool_decide (is_Some (store_of k w !! p)))
  | None => Raise (ModelNotFound "NOT_DETERMINED" (VStr p))
  end.
Proof.
  unfold taipy.exists_.
  rewrite (prefix_chain p (fun k => Ret (_exists k (VStr p) w))).
  reflexivity.
Qed.

Lemma delete_str (p : string) (w : World) :
  taipy.delete (VStr p) w =
  match kind_of p with
  | Some k => delete_of_kind k (VStr p) w
  | None => (Raise (ModelNotFound "NOT_DETERMINED" (VStr p)), w)
  end.
Proof.
  pose proof (prefix_chain p (fun k => delete_of_kind k (VStr p) w)
                (Raise (ModelNotFound "NOT_DETERMINED" (VStr p)), w)) as H.
  cbn [delete_of_kind] in H. exact H.
Qed.

(** X7. Deleting a data node twice: after [delete] on the identifier of a
    stored data node, [exists] is [False] and [get] returns [None] for it,
    and a second [delete] raises [ModelNotFound] and changes nothing. *)
Theorem delete_data_node_twice (s : string) (d : EntityData) (w : World) :
  kind_of s = Some DataNode -> data_store w !! s = Some d ->
  let w1 := snd (taipy.delete (VStr s) w) in
  fst (taipy.delete (VStr s) w) = Ret VNone /\
  taipy.exists_ (VStr s) w1 = Ret false /\
  taipy.get (VStr s) w1 = Ret VNone /\
  taipy.delete (VStr s) w1 = (Raise (ModelNotFound "" (VStr s)), w1).
Proof.
  intros Hk Hd w1.
  assert (Hdel : forall w0, taipy.delete (VStr s) w0 = _delete DataNode (VStr s) w0).
  { intros w0. rewrite delete_str, Hk. reflexivity. }
  assert (Hw1 : taipy.delete (VStr s) w =
                (Ret VNone, with_store DataNode (delete s (data_store w)) w)).
  { rewrite Hdel. unfold _delete. cbn [entity_id_of store_of]. rewrite Hd.
    reflexivity. }
  subst w1. rewrite Hw1. cbn [fst snd].
  split; [reflexivity |]. split; [| split].
  - rewrite exists_str, Hk, store_of_with_store_eq, lookup_delete_eq.
    rewrite bool_decide_eq_false_2 by (intros [x Hx]; discriminate Hx).
    reflexivity.
  - rewrite get_str, Hk, store_of_with_store_eq, lookup_delete_eq. reflexivity.
  - rewrite Hdel. unfold _delete. cbn [entity_id_of].
    rewrite store_of_with_store_eq, lookup_delete_eq. reflexivity.
Qed.

(** X8. [delete_job] against [delete]: on the identifier of a job, [delete]
    is [delete_job] without [force] on the job the manager holds; a stored
    job that has not finished is refused by both with [JobNotDeletable],
    the world unchanged, and [delete_job] with [force] removes it, and
    that record only. *)
Theorem delete_job_force (s : string) (d : EntityData) (w : World) :
  kind_of s = Some Job -> job_store w !! s = Some d ->
  taipy.delete (VStr s) w = taipy.delete_job (VEnt Job s d) false w /\
  (finished d = false ->
   taipy.delete (VStr s) w = (Raise (JobNotDeletable s), w)) /\
  taipy.delete_job (VEnt Job s d) true w =
    (Ret VNone, with_store Job (delete s (job_store w)) w) /\
  removes_only Job s w (snd (taipy.delete_job (VEnt Job s d) true w)).
Proof.
  intros Hk Hd.
  assert (Hdel : taipy.delete (VStr s) w = _job_delete (VEnt Job s d) w).
  { rewrite delete_str, Hk.
    cbn [delete_of_kind]. unfold _get. cbn [entity_id_of store_of].
    rewrite Hd. reflexivity. }
  assert (Hforce : taipy.delete_job (VEnt Job s d) true w =
                   (Ret VNone, with_store Job (delete s (job_store w)) w)).
  { unfold taipy.delete_job, _job_delete_force, _delete.
    rewrite orb_true_r. cbn [entity_id_of store_of]. rewrite Hd. reflexivity. }
  split; [| split; [| split]].
  - rewrite Hdel. unfold taipy.delete_job, _job_delete_force, _job_delete.
    rewrite orb_false_r. reflexivity.
  - intros Hf. rewrite Hdel. unfold _job_delete. rewrite Hf. reflexivity.
  - exact Hforce.
  - rewrite Hforce. apply (removes_only_delete Job).
Qed.

(** X9. What [clean_all_entities] keeps: when the version resolves, exists
    and is not a production version, every record of another version is
    still in the job, submission, scenario, sequence, task and data node
    stores afterwards; a cycle that a scenario of another version is
    attached to, or that no scenario of the cleaned version is attached
    to, is as it was; every other version keeps its bookkeeping entry; and
    production markers, export folders and the log are untouched. *)
Theorem clean_all_entities_keeps_other_versions (version_number : value)
    (v : string) (w : World) :
  _replace_version_number w version_number = Ret v ->
  v ∈ versions w ->
  v ∉ production_versions w ->
  let w' := snd (taipy.clean_all_entities version_number w) in
  (forall k i d, k <> Cycle -> store_of k w !! i = Some d -> version d <> v ->
                 store_of k w' !! i = Some d) /\
  (forall c j e,
     scenario_store w !! j = Some e -> cycle e = Some c -> version e <> v ->
     cycle_store w' !! c = cycle_store w !! c) /\
  (forall c,
     (forall i d, scenario_store w !! i = Some d -> version d = v ->
                  cycle d <> Some c) ->
     cycle_store w' !! c = cycle_store w !! c) /\
  (forall v', v' ∈ versions w -> v' <> v -> v' ∈ versions w') /\
  production_versions w' = production_versions w /\
  fs w' = fs w /\
  log w' = log w.
Proof.
  intros Hres Hin Hnot w'. subst w'.
  destruct (clean_all_entities_versioned_kinds version_number v w Hres Hin Hnot)
    as (w' & -> & Hstores & Hcycles & Hver & Hprod & Hfs & Hlog).
  cbn [snd].
  destruct (delete_by_version_scenarios v w) as (_ & _ & Hkept & Hfree & _).
  cbn zeta in Hkept, Hfree.
  split; [| split; [| split; [| split; [| split; [| split]]]]].
  - intros k i d Hk Hd Hv. rewrite (Hstores k Hk).
    apply map_lookup_filter_Some. split; assumption.
  - intros c j e Hj He Hv. rewrite Hcycles. exact (Hkept c j e Hj He Hv).
  - intros c Hc. rewrite Hcycles. exact (Hfree c Hc).
  - intros v' Hv' Hne. rewrite Hver. apply list_elem_of_filter.
    split; assumption.
  - exact Hprod.
  - exact Hfs.
  - exact Hlog.
Qed.

(** X13. Cleaning a version, seen through the router: after a successful
    [clean_all_entities], [exists] is [False] and [get] returns [None] for
    the identifier of every job, submission, scenario, sequence, task and
    data node of the version, and for the identifier of every cycle whose
    scenarios all belonged to the version. *)
Theorem clean_all_entities_then_exists (version_number : value) (v : string)
    (w : World) :
  _replace_version_number w version_number = Ret v ->
  v ∈ versions w ->
  v ∉ production_versions w ->
  let w' := snd (taipy.clean_all_entities version_number w) in
  fst (taipy.clean_all_entities version_number w) = Ret true /\
  (forall k i d,
     k <> Cycle -> kind_of i = Some k -> store_of k w !! i = Some d ->
     version d = v ->
     taipy.exists_ (VStr i) w' = Ret false /\ taipy.get (VStr i) w' = Ret VNone) /\
  (forall c,
     kind_of c = Some Cycle ->
     (exists i d, scenario_store w !! i = Some d /\ version d = v /\
                  cycle d = Some c) ->
     (forall j e, scenario_store w !! j = Some e -> cycle e = Some c ->
                  version e = v) ->
     taipy.exists_ (VStr c) w' = Ret false /\ taipy.get (VStr c) w' = Ret VNone).
Proof.
  intros Hres Hin Hnot w'. subst w'.
  destruct (clean_all_entities_versioned_kinds version_number v w Hres Hin Hnot)
    as (w' & -> & Hstores & Hcycles & _).
  cbn [fst snd]. split; [reflexivity |].
  assert (Hgone : forall k i, kind_of i = Some k -> store_of k w' !! i = None ->
            taipy.exists_ (VStr i) w' = Ret false /\
            taipy.get (VStr i) w' = Ret VNone).
  { intros k i Hk Hnone. rewrite exists_str, get_str, Hk, Hnone.
    rewrite bool_decide_eq_false_2 by (intros [x Hx]; discriminate Hx).
    split; reflexivity. }
  split.
  - intros k i d Hk Hki Hd Hv. apply (Hgone k i Hki).
    rewrite (Hstores k Hk). apply map_lookup_filter_None. right.
    intros d' Hd' Hne. cbn in Hne. congruence.
  - intros c Hkc Hsome Hall. apply (Hgone Cycle c Hkc).
    cbn [store_of]. rewrite Hcycles.
    destruct (delete_by_version_scenarios v w) as (_ & H & _).
    exact (H c Hsome Hall).
Qed.

End RouterStores.

(** ** Listings of scenarios *)

Section Listings.
Context {C : Collaborators} {S : Services}.

(** A manager lists records of its store, each once. *)
Lemma elem_of_get_all (k : Kind) (w : World) (x : value) :
  x ∈ _get_all k w <->
  exists i d, x = VEnt k i d /\ store_of k w !! i = Some d /\
              _listed k w i d = true.
Proof.
  unfold _get_all. rewrite list_elem_of_fmap. split.
  - intros ([i d] & -> & Hin). apply elem_of_map_to_list in Hin.
    apply map_lookup_filter_Some in Hin as [Hd Hl]. eauto.
  - intros (i & d & -> & Hd & Hl). exists (i, d). split; [reflexivity |].
    apply elem_of_map_to_list, map_lookup_filter_Some. auto.
Qed.

Lemma NoDup_get_all (k : Kind) (w : World) : NoDup (_get_all k w).
Proof.
  unfold _get_all. apply NoDup_fmap_2; [| apply NoDup_map_to_list].
  intros [i d] [i' d'] H. cbn in H. injection H as -> ->. reflexivity.
Qed.

Lemma get_scenarios_all (w : World) :
  taipy.get_scenarios VNone VNone w = _get_all Scenario w.
Proof. reflexivity. Qed.

(** X10. How the two filters of [get_scenarios] combine: a tag that is
    [None] or the empty string is no filter, a cycle that is [None] is no
    filter, and with both given the result is the by-cycle result from
    which the scenarios without the tag are dropped, in the same order. *)
Theorem get_scenarios_filters (cycle tag : value) (w : World) :
  (truthy tag = false ->
   taipy.get_scenarios cycle tag w = taipy.get_scenarios cycle VNone w) /\
  (truthy cycle = false ->
   taipy.get_scenarios cycle tag w = taipy.get_scenarios VNone tag w) /\
  (truthy cycle = true -> truthy tag = true ->
   taipy.get_scenarios cycle tag w =
   filter (fun scenario => has_tag scenario tag = true)
          (taipy.get_scenarios cycle VNone w)) /\
  taipy.get_scenarios cycle (VStr "") w = taipy.get_scenarios cycle VNone w.
Proof.
  unfold taipy.get_scenarios. split; [| split; [| split]].
  - intros ->. destruct (truthy cycle); reflexivity.
  - intros ->. reflexivity.
  - intros -> ->. reflexivity.
  - destruct (truthy cycle); reflexivity.
Qed.

Lemma group_by_cycle_lookup (l : list value)
    (acc : gmap (option string) (list value)) :
  (forall x, x ∈ l -> exists k i d, x = VEnt k i d) ->
  exists m,
    taipy.group_by_cycle l acc = Ret m /\
    forall c, m !! c = joined (acc !! c) (filter (fun s => scenario_cycle s = c) l).
Proof.
  revert acc. induction l as [|x l IH]; intros acc Hent.
  - exists acc. split; [reflexivity |]. intros c. cbn.
    destruct (acc !! c); cbn; [rewrite app_nil_r |]; reflexivity.
  - destruct (Hent x (list_elem_of_here _ _)) as (k & i & d & ->).
    cbn [taipy.group_by_cycle].
    destruct (IH (match acc !! cycle d with
                  | Some l0 => <[cycle d := (l0 ++ [VEnt k i d])%list]> acc
                  | None => <[cycle d := [VEnt k i d]]> acc
                  end)) as (m & Hm & Hlook).
    { intros y Hy. apply Hent, list_elem_of_further, Hy. }
    exists m. split; [exact Hm |]. intros c. rewrite Hlook.
    destruct (decide (cycle d = c)) as [<-|Hne].
    + rewrite filter_cons_True by reflexivity.
      destruct (acc !! cycle d) as [l0|]; rewrite lookup_insert_eq; cbn.
      * rewrite <- app_assoc. reflexivity.
      * reflexivity.
    + rewrite filter_cons_False by exact Hne.
      destruct (acc !! cycle d) as [l0|];
        rewrite lookup_insert_ne by exact Hne; reflexivity.
Qed.

(** X11. [get_cycles_scenarios] never raises, and the list it files under
    a cycle (or under [None]) is the list [get_scenarios()] returns,
    restricted to the scenarios of that cycle, in the same order; a cycle
    without scenarios is no key of the result. *)
Theorem get_cycles_scenarios_groups (w : World) :
  exists m,
    taipy.get_cycles_scenarios w = Ret m /\
    forall c,
      m !! c =
      match filter (fun s => scenario_cycle s = c)
                   (taipy.get_scenarios VNone VNone w) with
      | [] => None
      | x :: l => Some (x :: l)
      end.
Proof.
  unfold taipy.get_cycles_scenarios.
  destruct (group_by_cycle_lookup (taipy.get_scenarios VNone VNone w) ∅)
    as (m & Hm & Hlook).
  { intros x Hx. rewrite get_scenarios_all in Hx.
    apply elem_of_get_all in Hx as (i & d & -> & _). eauto. }
  exists m. split; [exact Hm |]. intros c. rewrite Hlook, lookup_empty.
  destruct (filter _ _); reflexivity.
Qed.

(** X12. [get_cycles_scenarios] is a partition of what [get_scenarios()]
    lists: every list of the result is non-empty, repeats no scenario and
    holds only listed scenarios of the cycle it is filed under, each of
    them a record of the scenario store; and every listed scenario is in
    the list of its cycle. *)
Theorem get_cycles_scenarios_partition (w : World) :
  exists m,
    taipy.get_cycles_scenarios w = Ret m /\
    (forall c l, m !! c = Some l ->
       l <> [] /\ NoDup l /\
       forall x, x ∈ l ->
         x ∈ taipy.get_scenarios VNone VNone w /\
         exists i d, x = VEnt Scenario i d /\
                     scenario_store w !! i = Some d /\ cycle d = c) /\
    (forall x, x ∈ taipy.get_scenarios VNone VNone w ->
       exists l, m !! scenario_cycle x = Some l /\ x ∈ l).
Proof.
  unfold taipy.get_cycles_scenarios. rewrite get_scenarios_all.
  destruct (group_by_cycle_lookup (_get_all Scenario w) ∅) as (m & Hm & Hlook).
  { intros x Hx. apply elem_of_get_all in Hx as (i & d & -> & _). eauto. }
  exists m. split; [exact Hm |]. split.
  - intros c l Hl. rewrite Hlook, lookup_empty in Hl.
    destruct (filter _ _) as [|x l0] eqn:Hf; [discriminate |].
    injection Hl as <-. split; [discriminate |]. split.
    + rewrite <- Hf. apply NoDup_filter, NoDup_get_all.
    + intros y Hy. rewrite <- Hf in Hy.
      apply list_elem_of_filter in Hy as [Hc Hy]. split; [exact Hy |].
      apply elem_of_get_all in Hy as (i & d & -> & Hd & _).
      exists i, d. auto.
  - intros x Hx.
    assert (Hin : x ∈ filter (fun s => scenario_cycle s = scenario_cycle x)
                             (_get_all Scenario w)).
    { apply list_elem_of_filter. split; [reflexivity | exact Hx]. }
    rewrite Hlook, lookup_empty. destruct (filter _ _) as [|y l0]; [| eauto].
    apply elem_of_nil in Hin. contradiction.
Qed.

End Listings.

(** ** Export of a scenario, continued *)

Lemma elem_of_exported_records (entity_ids : EntityIds) (v : string)
    (include_data : bool) (r : Exported) :
  r ∈ exported_records entity_ids v include_data <->
  match r with
  | ExpEntity k j b =>
      j ∈ ids_of k entity_ids /\
      b = match k with DataNode => include_data | _ => false end
  | ExpVersion v' => v' = v
  end.
Proof.
  unfold exported_records. rewrite !elem_of_app, !list_elem_of_fmap.
  setoid_rewrite elem_of_elements. rewrite list_elem_of_singleton.
  split.
  - intros H.
    repeat (destruct H as [(j & -> & Hj) | H]; [cbn; auto |]).
    subst r. reflexivity.
  - destruct r as [k j b | v']; [| intros ->; tauto].
    intros [Hj ->]. destruct k; cbn in Hj; eauto 12.
Qed.

Lemma NoDup_exported_records (entity_ids : EntityIds) (v : string)
    (include_data : bool) :
  NoDup (exported_records entity_ids v include_data).
Proof.
  assert (Hseg : forall k b (X : gset string),
             NoDup ((fun i => ExpEntity k i b) <$> elements X)).
  { intros k b X. apply NoDup_fmap_2; [| apply NoDup_elements].
    intros i j H. injection H as ->. reflexivity. }
  assert (Hin : forall k b (X : gset string) r,
             r ∈ (fun i => ExpEntity k i b) <$> elements X ->
             exists j, r = ExpEntity k j b).
  { intros k b X r H. apply list_elem_of_fmap in H as (j & -> & _). eauto. }
  unfold exported_records.
  repeat (apply NoDup_app; split; [apply Hseg | split]);
    try (apply NoDup_singleton);
    intros r Hr; apply Hin in Hr as (j & ->);
    rewrite ?elem_of_app, ?list_elem_of_fmap, ?list_elem_of_singleton;
    intros H;
    repeat (destruct H as [(j' & Hj' & _) | H]; [discriminate Hj' |]);
    discriminate H.
Qed.

Section ExportFurther.
Context {C : Collaborators}.

Lemma log_warning_keeps (e : LogEntry) (w : World) (k : Kind) :
  store_of k (log_warning e w) = store_of k w.
Proof. destruct k; reflexivity. Qed.

(** A successful export: the scenario is stored, the folder is not the
    storage folder as a string, it did not exist or was overridden, it
    holds the exported records afterwards, and the stores are as they
    were. *)
Lemma export_scenario_success (scenario_id : string) (folder_path : path)
    (override include_data : bool) (w : World) :
  let r := taipy.export_scenario scenario_id folder_path override include_data w in
  fst r = Ret VNone ->
  exists scenario,
    scenario_store w !! scenario_id = Some scenario /\
    path_eq_str folder_path (taipy_storage_folder w) = false /\
    (path_exists folder_path w = false \/ override = true) /\
    fs (snd r) !! path_str folder_path =
      Some (exported_records (taipy.export_entity_ids scenario_id scenario w)
                             (version scenario) include_data) /\
    (forall k, store_of k (snd r) = store_of k w) /\
    taipy_storage_folder (snd r) = taipy_storage_folder w.
Proof.
  unfold taipy.export_scenario, _get. cbn [entity_id_of store_of].
  destruct (scenario_store w !! scenario_id) as [scenario|]; [| discriminate].
  destruct (path_eq_str folder_path (taipy_storage_folder w)); [discriminate |].
  set (records := exported_records
                    (taipy.export_entity_ids scenario_id scenario w)
                    (version scenario) include_data).
  assert (Hscen : ExpEntity Scenario scenario_id false ∈ records).
  { apply elem_of_exported_records. split; [| reflexivity].
    unfold taipy.export_entity_ids.
    destruct (cycle scenario); cbn [ids_of scenario_ids];
      apply elem_of_singleton; reflexivity. }
  assert (Hrun : forall wp,
            fs wp !! path_str folder_path = None ->
            fst (taipy.export_all
                   (taipy.export_entity_ids scenario_id scenario w)
                   (version scenario) folder_path include_data wp) = Ret VNone ->
            fs (snd (taipy.export_all
                       (taipy.export_entity_ids scenario_id scenario w)
                       (version scenario) folder_path include_data wp))
               !! path_str folder_path = Some records /\
            (forall k, store_of k
                         (snd (taipy.export_all
                                 (taipy.export_entity_ids scenario_id scenario w)
                                 (version scenario) folder_path include_data wp))
                       = store_of k wp) /\
            taipy_storage_folder
              (snd (taipy.export_all
                      (taipy.export_entity_ids scenario_id scenario w)
                      (version scenario) folder_path include_data wp))
            = taipy_storage_folder wp /\
            is_Some (scenario_store wp !! scenario_id)).
  { intros wp Hfresh. rewrite export_all_write_until. fold records.
    destruct (write_until_run folder_path records wp)
      as (written & _ & Hsnd & Hok & _).
    intros Hret. destruct (Hok Hret) as [-> Hex]. rewrite Hsnd.
    destruct (write_all_keeps folder_path records wp)
      as (Hst & _ & _ & Hroot & _).
    split; [| split; [exact Hst | split; [exact Hroot |]]].
    - rewrite write_all_spec.
      destruct (exported_records_cons
                  (taipy.export_entity_ids scenario_id scenario w)
                  (version scenario) include_data) as (r0 & rs & Hrs).
      fold records in Hrs. rewrite Hrs. cbn [fs with_fs].
      rewrite lookup_insert_eq, Hfresh. reflexivity.
    - specialize (Hex _ Hscen). cbn [exportable store_of] in Hex.
      apply bool_decide_eq_true_1 in Hex. exact Hex. }
  destruct (path_exists folder_path w) eqn:Hex.
  - destruct override; [| discriminate]. cbn [fst snd].
    set (w1 := rmtree folder_path
                 (log_warning (WarnOverride (path_str folder_path)) w)).
    destruct (rmtree_spec folder_path
                (log_warning (WarnOverride (path_str folder_path)) w))
      as (Hgone & _ & Hroot1 & _ & Hwiped & Hkept).
    cbn zeta in Hgone, Hroot1, Hwiped, Hkept.
    fold w1 in Hgone, Hroot1, Hwiped, Hkept.
    intros Hret.
    destruct (Hrun w1 (Hgone _ (in_tree_refl _)) Hret)
      as (Hfs & Hst & Hroot & Hstored).
    exists scenario. split; [reflexivity |]. split; [reflexivity |].
    split; [right; reflexivity |]. split; [exact Hfs |].
    destruct (in_tree (path_str folder_path)
                (taipy_storage_folder
                   (log_warning (WarnOverride (path_str folder_path)) w)))
      eqn:Htree.
    + destruct (Hwiped eq_refl) as [Hempty _].
      specialize (Hempty Scenario). cbn [store_of] in Hempty.
      rewrite Hempty, lookup_empty in Hstored. destruct Hstored as [x Hx].
      discriminate Hx.
    + destruct (Hkept eq_refl) as (Hsame & _).
      split; [| rewrite Hroot; exact Hroot1].
      intros k. rewrite Hst, Hsame. apply log_warning_keeps.
  - cbn [fst snd]. intros Hret.
    assert (Hfresh : fs w !! path_str folder_path = None).
    { apply bool_decide_eq_false_1 in Hex.
      destruct (fs w !! path_str folder_path) as [l|] eqn:E; [| reflexivity].
      destruct Hex. eauto. }
    destruct (Hrun w Hfresh Hret) as (Hfs & Hst & Hroot & _).
    exists scenario. split; [reflexivity |]. split; [reflexivity |].
    split; [left; reflexivity |]. auto.
Qed.


(** X15. What a successful export puts into the folder: the folder holds
    each record once, the version record of the scenario's version last;
    the only scenario record is the exported scenario itself; when the
    scenario has a cycle the only cycle record is that cycle, whatever the
    scenario manager collected; the records of every other kind are those
    of the identifiers the scenario manager collected; and [include_data]
    is passed on to the data node records only. *)
Theorem export_scenario_content (scenario_id : string) (folder_path : path)
    (override include_data : bool) (w : World) :
  let r := taipy.export_scenario scenario_id folder_path override include_data w in
  fst r = Ret VNone ->
  exists scenario records,
    scenario_store w !! scenario_id = Some scenario /\
    fs (snd r) !! path_str folder_path = Some records /\
    NoDup records /\
    last records = Some (ExpVersion (version scenario)) /\
    (forall v, ExpVersion v ∈ records <-> v = version scenario) /\
    (forall j b, ExpEntity Scenario j b ∈ records <-> j = scenario_id /\ b = false) /\
    (forall j b,
       ExpEntity Cycle j b ∈ records <->
       b = false /\
       match cycle scenario with
       | Some c => j = c
       | None => j ∈ cycle_ids (_get_children_entity_ids w scenario_id scenario)
       end) /\
    (forall k j b,
       k <> Scenario -> k <> Cycle ->
       ExpEntity k j b ∈ records <->
       j ∈ ids_of k (_get_children_entity_ids w scenario_id scenario) /\
       b = match k with DataNode => include_data | _ => false end).
Proof.
  intros r Hok. subst r.
  destruct (export_scenario_success scenario_id folder_path override include_data
              w Hok) as (scenario & Hs & _ & _ & Hfs & _).
  exists scenario. eexists. split; [exact Hs |].
  split; [exact Hfs |].
  split; [apply NoDup_exported_records |].
  split.
  { unfold exported_records. rewrite !app_assoc. apply last_snoc. }
  split; [intros v; apply (elem_of_exported_records _ _ _ (ExpVersion v)) |].
  split; [| split].
  - intros j b. rewrite (elem_of_exported_records _ _ _ (ExpEntity Scenario j b)).
    unfold taipy.export_entity_ids.
    destruct (cycle scenario); cbn [ids_of scenario_ids];
      rewrite elem_of_singleton; reflexivity.
  - intros j b. rewrite (elem_of_exported_records _ _ _ (ExpEntity Cycle j b)).
    unfold taipy.export_entity_ids.
    destruct (cycle scenario); cbn [ids_of cycle_ids];
      rewrite ?elem_of_singleton; tauto.
  - intros k j b Hk1 Hk2.
    rewrite (elem_of_exported_records _ _ _ (ExpEntity k j b)).
    unfold taipy.export_entity_ids.
    destruct (cycle scenario), k; try contradiction; reflexivity.
Qed.

(** X16. Exporting again: after a successful export the scenario is still
    stored and the folder exists, so the same call without [override]
    raises [ExportFolderAlreadyExists] and leaves the first export as it
    is. *)
Theorem export_scenario_again (scenario_id : string) (folder_path : path)
    (override include_data include_data' : bool) (w : World) :
  let r := taipy.export_scenario scenario_id folder_path override include_data w in
  fst r = Ret VNone ->
  taipy.export_scenario scenario_id folder_path false include_data' (snd r) =
  (Raise (ExportFolderAlreadyExists (path_str folder_path) (VStr scenario_id)),
   snd r).
Proof.
  intros r Hok.
  destruct (export_scenario_success scenario_id folder_path override include_data
              w Hok) as (scenario & Hs & Hneq & _ & Hfs & Hstores & Hroot).
  fold r in Hfs, Hstores, Hroot. specialize (Hstores Scenario).
  cbn [store_of] in Hstores.
  unfold taipy.export_scenario at 1, _get. cbn [entity_id_of store_of].
  rewrite Hstores, Hs, Hroot, Hneq.
  unfold path_exists. rewrite Hfs.
  rewrite bool_decide_eq_true_2 by eauto. reflexivity.
Qed.

End ExportFurther.

(** ** Ancestor resolution, continued *)

Lemma has_parent_empty (k : Kind) (i : string) : ~ has_parent ∅ k i.
Proof. intros (s & Hs & _). rewrite lookup_empty in Hs. discriminate. Qed.

Lemma update_parent_dict_has_inv (cur pd : ParentDict) (k : Kind) (i : string) :
  has_parent (taipy.update_parent_dict cur pd) k i ->
  has_parent pd k i \/ has_parent cur k i.
Proof.
  intros (s & Hs & [d Hd]). rewrite update_parent_dict_lookup in Hs.
  destruct (merge_sets_entry _ _ _ _ _ Hs Hd) as [(s0 & H0 & Hd0) | (s1 & H1 & Hd1)];
    [left | right]; eexists; eauto.
Qed.

Section ParentsFurther.
Context {C : Collaborators}.

(** Whatever the loop over [parent_ids] returns was filed from the stores,
    and holds nothing but what was there and the identifiers walked. *)
Lemma collect_parents_inv (w : World) (ids : list string) (cur cur' : ParentDict) :
  from_stores w cur ->
  taipy.collect_parents w ids cur = Ret cur' ->
  from_stores w cur' /\
  (forall p, p ∈ ids -> exists k d, kind_of p = Some k /\ store_of k w !! p = Some d) /\
  (forall k i, has_parent cur' k i ->
               has_parent cur k i \/ (i ∈ ids /\ kind_of i = Some k)).
Proof.
  revert cur. induction ids as [|p ids IH]; intros cur Hcur Hcol.
  - cbn in Hcol. injection Hcol as <-. split; [exact Hcur |]. split; [| auto].
    intros p Hp. apply elem_of_nil in Hp. contradiction.
  - cbn [taipy.collect_parents] in Hcol.
    destruct (taipy.get (VStr p) w) as [e|] eqn:Hget; [| discriminate].
    destruct (taipy.add_parent cur e) as [cur1|] eqn:Hadd; [| discriminate].
    destruct e as [| | k i d |]; try discriminate Hadd.
    apply get_str_inv in Hget as (Hk & -> & Hd).
    destruct (add_parent_stored w cur k p d Hcur Hd)
      as (cur1' & Hadd' & Hfs1 & _ & _ & Hinv1).
    assert (cur1' = cur1) as -> by congruence.
    destruct (IH cur1 Hfs1 Hcol) as (Hfs' & Hres' & Hinv').
    split; [exact Hfs' |]. split.
    + intros q Hq. apply elem_of_cons in Hq as [-> | Hq]; [eauto | auto].
    + intros k' i' H. destruct (Hinv' k' i' H) as [H1 | [Hin Hk']].
      * destruct (Hinv1 k' i' H1) as [H0 | [-> ->]]; [left; exact H0 |].
        right. split; [apply list_elem_of_here | exact Hk].
      * right. split; [apply list_elem_of_further, Hin | exact Hk'].
Qed.

(** The loop raises as soon as one of the identifiers names nothing. *)
Lemma collect_parents_dangling (w : World) (ids : list string) (cur : ParentDict)
    (p : string) :
  p ∈ ids ->
  (forall e, taipy.get (VStr p) w = Ret e -> e = VNone) ->
  exists e,
    taipy.collect_parents w ids cur = Raise e /\
    (e = AttributeError \/
     exists q, q ∈ ids /\ e = ModelNotFound "NOT_DETERMINED" (VStr q)).
Proof.
  intros Hp Hdang. revert cur. induction ids as [|q ids IH]; intros cur.
  - apply elem_of_nil in Hp. contradiction.
  - cbn [taipy.collect_parents]. rewrite get_str.
    destruct (kind_of q) as [k|] eqn:Hk.
    + destruct (store_of k w !! q) as [d|] eqn:Hd.
      * assert (Hin : p ∈ ids).
        { apply elem_of_cons in Hp as [-> | Hp]; [| exact Hp].
          specialize (Hdang (VEnt k q d)). rewrite get_str, Hk, Hd in Hdang.
          discriminate (Hdang eq_refl). }
        destruct (taipy.add_parent cur (VEnt k q d)) as [cur1|e] eqn:Hadd;
          [| discriminate Hadd].
        destruct (IH Hin cur1) as (e & He & Hcase).
        exists e. split; [exact He |].
        destruct Hcase as [-> | (q' & Hq' & ->)]; [left; reflexivity |].
        right. exists q'. split; [apply list_elem_of_further, Hq' | reflexivity].
      * exists AttributeError. split; [reflexivity | left; reflexivity].
    + eexists. split; [reflexivity |]. right. exists q.
      split; [apply list_elem_of_here | reflexivity].
Qed.

Lemma get_parents_denotes (n : nat) (w : World) (v : value) (k : Kind)
    (i : string) (d : EntityData) (pdo : option ParentDict) :
  denotes w v k i d ->
  taipy.get_parents (S n) w v pdo = taipy.get_parents (S n) w (VEnt k i d) pdo.
Proof.
  intros [-> | (s & -> & Hs)]; [reflexivity |].
  rewrite get_parents_identifier, Hs. reflexivity.
Qed.

(** X17. What [get_parents] does with an identifier: one that starts with
    no known prefix raises [ModelNotFound], as [get] does; one of a known
    kind that names no stored entity raises [AttributeError], the lookup
    having returned [None]; any other one is handled as the entity it
    names. *)
Theorem get_parents_of_identifier (n : nat) (w : World) (s : string)
    (pdo : option ParentDict) :
  taipy.get_parents (S n) w (VStr s) pdo =
  match kind_of s with
  | None => Some (Raise (ModelNotFound "NOT_DETERMINED" (VStr s)))
  | Some k =>
      match store_of k w !! s with
      | None => Some (Raise AttributeError)
      | Some d => taipy.get_parents (S n) w (VEnt k s d) pdo
      end
  end.
Proof.
  rewrite get_parents_identifier, get_str.
  destruct (kind_of s) as [k|]; [| reflexivity].
  destruct (store_of k w !! s); reflexivity.
Qed.

(** X18. A dangling owner makes [get_parents] fail: for an entity that is
    neither a scenario nor a cycle, as soon as one identifier of its
    [parent_ids] names nothing ([get] raises for it or returns [None]),
    the call raises, whatever the other owners are: [AttributeError], or
    the [ModelNotFound] of an owner whose identifier has no known
    prefix. *)
Theorem get_parents_dangling_parent (n : nat) (w : World) (v : value) (k : Kind)
    (i : string) (d : EntityData) (pdo : option ParentDict) (p : string) :
  denotes w v k i d -> k <> Scenario -> k <> Cycle ->
  p ∈ parent_ids d ->
  (forall e, taipy.get (VStr p) w = Ret e -> e = VNone) ->
  exists e,
    taipy.get_parents (S n) w v pdo = Some (Raise e) /\
    (e = AttributeError \/
     exists q, q ∈ parent_ids d /\ e = ModelNotFound "NOT_DETERMINED" (VStr q)).
Proof.
  intros Hv Hs Hc Hp Hdang.
  rewrite (get_parents_denotes n w v k i d pdo Hv), get_parents_entity.
  destruct (collect_parents_dangling w (elements (parent_ids d)) ∅ p)
    as (e & He & Hcase); [apply elem_of_elements, Hp | exact Hdang |].
  assert (Hcase' : e = AttributeError \/
            exists q, q ∈ parent_ids d /\
                      e = ModelNotFound "NOT_DETERMINED" (VStr q)).
  { destruct Hcase as [-> | (q & Hq & ->)]; [left; reflexivity |].
    right. exists q. split; [apply elem_of_elements, Hq | reflexivity]. }
  destruct k; try contradiction;
    first [ exists AttributeError; split; [reflexivity | left; reflexivity]
          | exists e; rewrite He; split; [reflexivity | exact Hcase'] ].
Qed.

(** X19. The owners of a sequence or of a task: when every identifier of
    its [parent_ids] names a stored entity, [get_parents] without
    accumulator returns, within two activations, a dictionary that holds
    exactly the direct owners, each under the manager name of the kind its
    identifier resolves to; the owners of these owners are not added. *)
Theorem get_parents_direct_owners (n : nat) (w : World) (v : value) (k : Kind)
    (i : string) (d : EntityData) :
  denotes w v k i d -> k = Sequence \/ k = Task ->
  (forall p, p ∈ parent_ids d ->
     exists k' d', kind_of p = Some k' /\ store_of k' w !! p = Some d') ->
  exists pd,
    taipy.get_parents (S (S n)) w v None = Some (Ret pd) /\
    from_stores w pd /\
    forall k' p, has_parent pd k' p <-> p ∈ parent_ids d /\ kind_of p = Some k'.
Proof.
  intros Hv Hk Hres.
  destruct (collect_parents_stored w (elements (parent_ids d)) ∅
              (from_stores_empty w))
    as (cur & Hcol & Hfscur & _ & Hnew & Hinv).
  { intros p Hp. apply Hres, elem_of_elements, Hp. }
  exists cur. split; [| split; [exact Hfscur |]].
  - rewrite (get_parents_denotes (S n) w v k i d None Hv).
    destruct Hk as [-> | ->].
    + rewrite get_parents_entity, Hcol. cbn [taipy.or_empty].
      rewrite update_parent_dict_empty. reflexivity.
    + rewrite get_parents_task by exact well_keyed_empty.
      rewrite Hcol. cbn [default]. rewrite update_parent_dict_empty. reflexivity.
  - intros k' p. split.
    + intros H. destruct (Hinv k' p H) as [H0 | [Hin Hk']].
      * destruct (has_parent_empty _ _ H0).
      * split; [apply elem_of_elements, Hin | exact Hk'].
    + intros [Hin Hk']. apply Hnew; [apply elem_of_elements, Hin | exact Hk'].
Qed.

(** X20. Jobs and submissions are not among the entities [get_parents]
    accepts: they have no [parent_ids], and the call raises
    [AttributeError] for every job and every submission, given as an
    entity or as the identifier of a stored one, whatever the
    accumulator. *)
Theorem get_parents_job_or_submission (n : nat) (w : World) (v : value)
    (k : Kind) (i : string) (d : EntityData) (pdo : option ParentDict) :
  denotes w v k i d -> k = Job \/ k = Submission ->
  taipy.get_parents (S n) w v pdo = Some (Raise AttributeError).
Proof.
  intros Hv Hk.
  rewrite (get_parents_denotes n w v k i d pdo Hv), get_parents_entity.
  destruct Hk as [-> | ->]; reflexivity.
Qed.

(** What [get_parents] returns from an accumulator filed from the stores
    is filed from the stores. *)
Lemma get_parents_from_stores (n : nat) (w : World) (v : value)
    (pdo : option ParentDict) (pd' : ParentDict) :
  from_stores w (default ∅ pdo) ->
  taipy.get_parents n w v pdo = Some (Ret pd') -> from_stores w pd'.
Proof.
  revert v pdo pd'. induction n as [|n IH]; intros v pdo pd' Hfs H;
    [discriminate H |].
  assert (Hent : forall k i d,
             taipy.get_parents (S n) w (VEnt k i d) pdo = Some (Ret pd') ->
             from_stores w pd').
  { intros k i d. rewrite get_parents_entity, or_empty_default.
    assert (Hupd : forall cur,
               taipy.collect_parents w (elements (parent_ids d)) ∅ = Ret cur ->
               from_stores w (taipy.update_parent_dict cur (default ∅ pdo))).
    { intros cur E. apply update_parent_dict_from_stores; [| exact Hfs].
      exact (proj1 (collect_parents_inv w _ ∅ cur (from_stores_empty w) E)). }
    assert (Hnext : forall key cur,
               taipy.collect_parents w (elements (parent_ids d)) ∅ = Ret cur ->
               taipy.search_next (taipy.get_parents n w) key
                 (taipy.update_parent_dict cur (default ∅ pdo)) = Some (Ret pd') ->
               from_stores w pd').
    { intros key cur E. unfold taipy.search_next.
      destruct (_ !! key).
      - apply for_parents_preserves; [| exact (Hupd cur E)].
        intros v0 pd0 r0 Hpd0. exact (IH v0 (Some pd0) r0 Hpd0).
      - intros G. injection G as <-. exact (Hupd cur E). }
    destruct k;
      try (intros G; injection G as <-; exact Hfs);
      destruct (taipy.collect_parents w (elements (parent_ids d)) ∅) as [cur|e] eqn:E;
      try (intros G; discriminate G);
      try (intros G; injection G as <-; first [exact Hfs | exact (Hupd cur eq_refl)]).
    - apply (Hnext "scenario" cur eq_refl).
    - apply (Hnext "task" cur eq_refl). }
  destruct v as [| s | k i d | c].
  - rewrite get_parents_no_attribute in H by auto. discriminate H.
  - rewrite get_parents_identifier in H.
    destruct (taipy.get (VStr s) w) as [e|e] eqn:He; [| discriminate H].
    rewrite get_str in He. destruct (kind_of s) as [k|]; [| discriminate].
    destruct (store_of k w !! s) as [d|]; injection He as <-.
    + exact (Hent _ _ _ H).
    + rewrite get_parents_no_attribute in H by auto. discriminate H.
  - exact (Hent _ _ _ H).
  - rewrite get_parents_no_attribute in H by eauto. discriminate H.
Qed.

(** X21. [get_parents] invents nothing: whatever the entity and the depth
    allowed, every entity of a dictionary it returns is a record of the
    store of its class, with the data that store holds, and sits under the
    manager name of that class. *)
Theorem get_parents_returns_stored (n : nat) (w : World) (v : value)
    (pd : ParentDict) :
  taipy.get_parents n w v None = Some (Ret pd) ->
  forall name s k i d,
    pd !! name = Some s -> s !! (k, i) = Some d ->
    name = _MANAGER_NAME k /\ store_of k w !! i = Some d.
Proof.
  intros H name s k i d Hn Hs.
  destruct (get_parents_from_stores n w v None pd (from_stores_empty w) H
              name s k i d Hn Hs) as [Hname Hst].
  split; [symmetry; exact Hname | exact Hst].
Qed.

(** Walking tasks whose accumulator was filed from the stores adds nothing
    but owners of the tasks walked. *)
Lemma for_parents_tasks_exact (n : nat) (w : World) (key : string) (used : nat)
    (xs : list (Kind * string * EntityData)) (pd pd' : ParentDict) :
  (forall x, x ∈ xs -> fst (fst x) = Task) ->
  from_stores w pd ->
  taipy.for_parents (taipy.get_parents (S (S n)) w) key used xs pd
    = Some (Ret pd') ->
  forall k q, has_parent pd' k q ->
    has_parent pd k q \/
    exists i d, (Task, i, d) ∈ xs /\ q ∈ parent_ids d /\ kind_of q = Some k.
Proof.
  revert pd. induction xs as [|[[k0 i] d] xs IH]; intros pd Hxs Hfs H k q Hhas.
  - injection H as <-. left. exact Hhas.
  - assert (k0 = Task) as -> by exact (Hxs (k0, i, d) (list_elem_of_here _ _)).
    cbn [taipy.for_parents] in H.
    rewrite (get_parents_task n w i d (Some pd)) in H
      by exact (from_stores_well_keyed w pd Hfs).
    cbn [default id] in H.
    destruct (taipy.collect_parents w (elements (parent_ids d)) ∅) as [cur|e] eqn:E;
      cbn [fbind] in H; [| discriminate H].
    destruct (collect_parents_inv w _ ∅ cur (from_stores_empty w) E)
      as (Hfscur & _ & Hinv).
    destruct (decide (size _ = used)); [| discriminate H].
    assert (Hfs1 : from_stores w (if decide (pd = ∅) then pd
                                  else taipy.update_parent_dict cur pd)).
    { destruct (decide (pd = ∅)); [exact Hfs |].
      apply update_parent_dict_from_stores; assumption. }
    destruct (IH _ (fun x Hx => Hxs x (list_elem_of_further _ _ _ Hx)) Hfs1 H k q Hhas)
      as [H1 | (j & dj & Hin & Hq & Hk)].
    + assert (H2 : has_parent pd k q \/ has_parent cur k q).
      { destruct (decide (pd = ∅)); [left; exact H1 |].
        apply update_parent_dict_has_inv, H1. }
      destruct H2 as [H2 | H2]; [left; exact H2 |].
      destruct (Hinv k q H2) as [H0 | [Hq Hk]]; [destruct (has_parent_empty _ _ H0) |].
      right. exists i, d. split; [apply list_elem_of_here |].
      split; [apply elem_of_elements, Hq | exact Hk].
    + right. exists j, dj. split; [apply list_elem_of_further, Hin | auto].
Qed.

(** X22. The dictionary of a data node, exactly: in an entity graph whose
    ownership references resolve (the owners of the data node and of its
    tasks are stored entities, and no task is owned by a task),
    [get_parents] applied to the data node or to its identifier returns a
    dictionary that holds an entity if and only if it is an owner of the
    data node or an owner of a task that owns the data node, under the
    manager name of its kind. Nothing further up is added: the owners of
    the sequences found, or the cycle of a scenario found, are not in
    it unless they own the data node or one of its tasks themselves. *)
Theorem get_parents_data_node_exact (n : nat) (w : World) (v : value)
    (i : string) (dd : EntityData) :
  denotes w v DataNode i dd ->
  (forall p, p ∈ parent_ids dd ->
     exists k d, kind_of p = Some k /\ store_of k w !! p = Some d) ->
  (forall p d, p ∈ parent_ids dd -> kind_of p = Some Task ->
     task_store w !! p = Some d ->
     forall q, q ∈ parent_ids d ->
       exists k e, kind_of q = Some k /\ k <> Task /\ store_of k w !! q = Some e) ->
  exists pd,
    taipy.get_parents (S (S (S n))) w v None = Some (Ret pd) /\
    forall k q,
      has_parent pd k q <->
      (q ∈ parent_ids dd /\ kind_of q = Some k) \/
      (exists t td, t ∈ parent_ids dd /\ kind_of t = Some Task /\
                    task_store w !! t = Some td /\
                    q ∈ parent_ids td /\ kind_of q = Some k).
Proof.
  intros Hv Hres Htask.
  rewrite (get_parents_denotes _ w v DataNode i dd None Hv), get_parents_entity.
  cbn [taipy.or_empty].
  destruct (collect_parents_stored w (elements (parent_ids dd)) ∅
              (from_stores_empty w))
    as (cur & Hcol & Hfscur & _ & Hnew & Hinv).
  { intros p Hp. apply Hres, elem_of_elements, Hp. }
  rewrite Hcol, update_parent_dict_empty.
  assert (Hdirect : forall k q,
             has_parent cur k q <-> q ∈ parent_ids dd /\ kind_of q = Some k).
  { intros k q. split.
    - intros H. destruct (Hinv k q H) as [H0 | [Hin Hk]].
      + destruct (has_parent_empty _ _ H0).
      + split; [apply elem_of_elements, Hin | exact Hk].
    - intros [Hin Hk]. apply Hnew; [apply elem_of_elements, Hin | exact Hk]. }
  unfold taipy.search_next.
  destruct (cur !! "task") as [tasks0|] eqn:Htasks0.
  - assert (Hmember : forall k j d, (k, j, d) ∈ map_to_list tasks0 ->
               k = Task /\ j ∈ parent_ids dd /\ kind_of j = Some Task /\
               task_store w !! j = Some d).
    { intros k j d Hx. apply elem_of_map_to_list in Hx.
      destruct (Hfscur _ _ _ _ _ Htasks0 Hx) as [Hname Hst].
      assert (k = Task) as -> by (apply MANAGER_NAME_inj; exact Hname).
      assert (Hh : has_parent cur Task j) by (exists tasks0; eauto).
      apply Hdirect in Hh as [Hj Hkj]. auto. }
    destruct (for_parents_tasks_stored n w tasks0 (map_to_list tasks0) cur)
      as (pd & Hloop & Hfs & Htasks & Hmono & Hnewpd).
    { intros [[k j] d] Hx. destruct (Hmember k j d Hx) as (-> & Hj & Hkj & Hst).
      exists j, d. split; [reflexivity |]. exact (Htask j d Hj Hkj Hst). }
    { exact Hfscur. }
    { exact Htasks0. }
    exists pd. split; [exact Hloop |]. intros k q. split.
    + intros H.
      destruct (for_parents_tasks_exact n w "task" (size tasks0)
                  (map_to_list tasks0) cur pd) with (k := k) (q := q)
        as [H0 | (t & td & Hin & Hq & Hk)].
      * intros [[k' j] d] Hx. exact (proj1 (Hmember k' j d Hx)).
      * exact Hfscur.
      * exact Hloop.
      * exact H.
      * left. apply Hdirect, H0.
      * destruct (Hmember Task t td Hin) as (_ & Ht & Hkt & Hst).
        right. exists t, td. auto.
    + intros [Hd | (t & td & Ht & Hkt & Hst & Hq & Hk)].
      * apply Hmono, Hdirect, Hd.
      * apply (Hnewpd t td q k); [| exact Hq | exact Hk].
        apply elem_of_map_to_list.
        assert (Hh : has_parent cur Task t) by (apply Hdirect; auto).
        destruct (has_parent_stored w cur Task t td Hfscur Hh Hst)
          as (s0 & Hs0 & Htd).
        change (_MANAGER_NAME Task) with "task" in Hs0. congruence.
  - exists cur. split; [reflexivity |]. intros k q. split.
    + intros H. left. apply Hdirect, H.
    + intros [Hd | (t & td & Ht & Hkt & Hst & Hq & Hk)]; [apply Hdirect, Hd |].
      assert (Hh : has_parent cur Task t) by (apply Hdirect; auto).
      destruct Hh as (s0 & Hs0 & _).
      change (_MANAGER_NAME Task) with "task" in Hs0. congruence.
Qed.

End ParentsFurther.

(** ** The further properties at work in the demonstration world *)

Lemma demo_prefix_free : @prefix_free Demo.demo.
Proof. intros [] [] Hne; try reflexivity; congruence. Qed.

Lemma is_submittable_resolves_witness :
  @prefix_free Demo.demo /\
  @taipy.is_submittable Demo.demo Demo.services (VStr "TASK_t") Demo.w0 = true /\
  @taipy.is_submittable Demo.demo Demo.services (VStr "DATANODE_d") Demo.w0 = false.
Proof.
  split; [exact demo_prefix_free |].
  destruct (@is_submittable_resolves Demo.demo Demo.services Demo.w0
              demo_prefix_free) as [H _].
  split; [exact (H "TASK_t") | exact (H "DATANODE_d")].
Defined.

Lemma is_editable_resolves_witness :
  @prefix_free Demo.demo /\
  @taipy.is_editable Demo.demo Demo.services (VStr "JOB_j") Demo.w0 = true /\
  @taipy.is_editable Demo.demo Demo.services (VStr "PIPELINE_p") Demo.w0 = false.
Proof.
  split; [exact demo_prefix_free |].
  destruct (@is_editable_resolves Demo.demo Demo.services Demo.w0
              demo_prefix_free) as [H _].
  split; [exact (H "JOB_j") | exact (H "PIPELINE_p")].
Defined.

Lemma is_readable_resolves_witness :
  @prefix_free Demo.demo /\
  @taipy.is_readable Demo.demo Demo.services (VStr "SUBMISSION_b") Demo.w0 = true /\
  @taipy.is_readable Demo.demo Demo.services (VStr "PIPELINE_p") Demo.w0 = false.
Proof.
  split; [exact demo_prefix_free |].
  destruct (@is_readable_resolves Demo.demo Demo.services Demo.w0
              demo_prefix_free) as [H _].
  split; [exact (H "SUBMISSION_b") | exact (H "PIPELINE_p")].
Defined.

Lemma unknown_identifier_verdicts_witness :
  @kind_of Demo.demo "PIPELINE_p" = None /\
  @taipy.is_deletable Demo.demo (VStr "PIPELINE_p") Demo.w0 = true /\
  @taipy.delete Demo.demo (VStr "PIPELINE_p") Demo.w0 =
    (Raise (ModelNotFound "NOT_DETERMINED" (VStr "PIPELINE_p")), Demo.w0).
Proof.
  split; [reflexivity |].
  destruct (@unknown_identifier_verdicts Demo.demo Demo.services "PIPELINE_p"
              Demo.w0 eq_refl) as (H1 & H2 & _).
  split; [exact H1 | exact H2].
Defined.

Lemma delete_data_node_twice_witness :
  @kind_of Demo.demo "DATANODE_d" = Some DataNode /\
  @taipy.delete Demo.demo (VStr "DATANODE_d")
    (snd (@taipy.delete Demo.demo (VStr "DATANODE_d") Demo.w0)) =
  (Raise (ModelNotFound "" (VStr "DATANODE_d")),
   snd (@taipy.delete Demo.demo (VStr "DATANODE_d") Demo.w0)).
Proof.
  split; [reflexivity |].
  pose proof (@delete_data_node_twice Demo.demo "DATANODE_d"
                (Demo.ent "1.0" ["TASK_t"; "TASK_u"] None false) Demo.w0
                eq_refl eq_refl) as H.
  cbv zeta in H. destruct H as (_ & _ & _ & H). exact H.
Defined.

Lemma delete_job_force_witness :
  @kind_of Demo.demo "JOB_j" = Some Job /\
  @taipy.delete Demo.demo (VStr "JOB_j") Demo.w0 =
  taipy.delete_job (VEnt Job "JOB_j" (Demo.ent "1.0" [] None true)) false Demo.w0.
Proof.
  split; [reflexivity |].
  destruct (@delete_job_force Demo.demo "JOB_j" (Demo.ent "1.0" [] None true)
              Demo.w0 eq_refl eq_refl) as (H & _).
  exact H.
Defined.

Lemma clean_all_entities_keeps_other_versions_witness :
  @_replace_version_number Demo.demo Demo.w0 (VStr "1.0") = Ret "1.0" /\
  "2.0" ∈ versions (snd (@taipy.clean_all_entities Demo.demo (VStr "1.0") Demo.w0)) /\
  production_versions (snd (@taipy.clean_all_entities Demo.demo (VStr "1.0") Demo.w0))
  = ["2.0"].
Proof.
  assert (H1 : "1.0" ∈ versions Demo.w0)
    by (apply (bool_decide_unpack _); vm_compute; exact I).
  assert (H2 : "2.0" ∈ versions Demo.w0)
    by (apply (bool_decide_unpack _); vm_compute; exact I).
  assert (H3 : "1.0" ∉ production_versions Demo.w0)
    by (apply (bool_decide_unpack _); vm_compute; exact I).
  split; [vm_compute; reflexivity |].
  pose proof (@clean_all_entities_keeps_other_versions Demo.demo (VStr "1.0")
                "1.0" Demo.w0 ltac:(vm_compute; reflexivity) H1 H3) as H.
  cbv zeta in H. destruct H as (_ & _ & _ & Hv & Hp & _).
  split; [apply (Hv "2.0" H2); discriminate | exact Hp].
Defined.

Lemma get_parents_dangling_parent_witness :
  @taipy.get Demo.demo (VStr "SCENARIO_x") Demo.w0 = Ret VNone /\
  exists e,
    @taipy.get_parents Demo.demo 1 Demo.w0
      (VEnt Task "TASK_z" (Demo.ent "1.0" ["SCENARIO_x"] None false)) None
    = Some (Raise e).
Proof.
  split; [reflexivity |].
  destruct (@get_parents_dangling_parent Demo.demo 0 Demo.w0
              (VEnt Task "TASK_z" (Demo.ent "1.0" ["SCENARIO_x"] None false))
              Task "TASK_z" (Demo.ent "1.0" ["SCENARIO_x"] None false) None
              "SCENARIO_x") as (e & He & _).
  - left. reflexivity.
  - discriminate.
  - discriminate.
  - unfold Demo.ent; cbn [parent_ids].
    apply elem_of_list_to_set, list_elem_of_here.
  - intros e He.
    change (@taipy.get Demo.demo (VStr "SCENARIO_x") Demo.w0) with (Ret VNone) in He.
    injection He as <-. reflexivity.
  - exists e. exact He.
Defined.

Lemma get_parents_direct_owners_witness :
  exists pd,
    @taipy.get_parents Demo.demo 2 Demo.w0 (VStr "TASK_t") None = Some (Ret pd) /\
    has_parent pd Scenario "SCENARIO_s" /\
    has_parent pd Sequence "SEQUENCE_q".
Proof.
  destruct (@get_parents_direct_owners Demo.demo 0 Demo.w0 (VStr "TASK_t") Task
              "TASK_t" (Demo.ent "1.0" ["SCENARIO_s"; "SEQUENCE_q"] None false))
    as (pd & Hrun & _ & Hiff).
  - right. exists "TASK_t". split; reflexivity.
  - right. reflexivity.
  - intros p Hp. unfold Demo.ent in Hp; cbn [parent_ids] in Hp. id_cases Hp.
    + exists Scenario, (Demo.ent "1.0" [] (Some "CYCLE_c") false).
      split; reflexivity.
    + exists Sequence, (Demo.ent "1.0" ["SCENARIO_s"] None false).
      split; reflexivity.
  - exists pd. split; [exact Hrun |].
    split; apply Hiff; (split; [| reflexivity]);
      unfold Demo.ent; cbn [parent_ids]; apply elem_of_list_to_set.
    + apply list_elem_of_here.
    + apply list_elem_of_further, list_elem_of_here.
Defined.

Lemma get_parents_job_or_submission_witness :
  @taipy.get Demo.demo (VStr "JOB_j") Demo.w0 =
    Ret (VEnt Job "JOB_j" (Demo.ent "1.0" [] None true)) /\
  @taipy.get_parents Demo.demo 1 Demo.w0 (VStr "JOB_j") None
  = Some (Raise AttributeError).
Proof.
  split; [reflexivity |].
  apply (@get_parents_job_or_submission Demo.demo 0 Demo.w0 (VStr "JOB_j")
           Job "JOB_j" (Demo.ent "1.0" [] None true) None).
  - right. exists "JOB_j". split; reflexivity.
  - left. reflexivity.
Defined.

Lemma get_parents_returns_stored_witness :
  exists pd,
    @taipy.get_parents Demo.demo 3 Demo.w0 (VStr "DATANODE_d") None
      = Some (Ret pd) /\
    forall name s k i d,
      pd !! name = Some s -> s !! (k, i) = Some d ->
      name = _MANAGER_NAME k /\ store_of k Demo.w0 !! i = Some d.
Proof.
  assert (Hrun :
    @taipy.get_parents Demo.demo 3 Demo.w0 (VStr "DATANODE_d") None =
    Some (Ret {[ "task" :=
                   {[ (Task, "TASK_t") :=
                        Demo.ent "1.0" ["SCENARIO_s"; "SEQUENCE_q"] None false;
                      (Task, "TASK_u") :=
                        Demo.ent "1.0" ["SCENARIO_s"] None false ]};
                 "scenario" :=
                   {[ (Scenario, "SCENARIO_s") :=
                        Demo.ent "1.0" [] (Some "CYCLE_c") false ]};
                 "sequence" :=
                   {[ (Sequence, "SEQUENCE_q") :=
                        Demo.ent "1.0" ["SCENARIO_s"] None false ]} ]}))
    by (vm_compute; reflexivity).
  eexists. split; [exact Hrun |].
  exact (@get_parents_returns_stored Demo.demo 3 Demo.w0 (VStr "DATANODE_d") _
           Hrun).
Defined.

Lemma get_parents_data_node_exact_witness :
  exists pd,
    @taipy.get_parents Demo.demo 3 Demo.w0 (VStr "DATANODE_d") None
      = Some (Ret pd) /\
    has_parent pd Task "TASK_u" /\
    has_parent pd Sequence "SEQUENCE_q".
Proof.
  destruct (@get_parents_data_node_exact Demo.demo 0 Demo.w0 (VStr "DATANODE_d")
              "DATANODE_d" (Demo.ent "1.0" ["TASK_t"; "TASK_u"] None false))
    as (pd & Hrun & Hiff).
  - right. exists "DATANODE_d". split; reflexivity.
  - intros p Hp. unfold Demo.ent in Hp; cbn [parent_ids] in Hp. id_cases Hp.
    + exists Task, (Demo.ent "1.0" ["SCENARIO_s"; "SEQUENCE_q"] None false).
      split; reflexivity.
    + exists Task, (Demo.ent "1.0" ["SCENARIO_s"] None false).
      split; reflexivity.
  - intros p d Hp _ Hd q Hq. unfold Demo.ent in Hp; cbn [parent_ids] in Hp.
    id_cases Hp.
    + assert (d = Demo.ent "1.0" ["SCENARIO_s"; "SEQUENCE_q"] None false) as ->.
      { change (Some (Demo.ent "1.0" ["SCENARIO_s"; "SEQUENCE_q"] None false)
                = Some d) in Hd.
        injection Hd as <-. reflexivity. }
      unfold Demo.ent in Hq; cbn [parent_ids] in Hq. id_cases Hq.
      * exists Scenario, (Demo.ent "1.0" [] (Some "CYCLE_c") false).
        split; [reflexivity |]. split; [discriminate | reflexivity].
      * exists Sequence, (Demo.ent "1.0" ["SCENARIO_s"] None false).
        split; [reflexivity |]. split; [discriminate | reflexivity].
    + assert (d = Demo.ent "1.0" ["SCENARIO_s"] None false) as ->.
      { change (Some (Demo.ent "1.0" ["SCENARIO_s"] None false) = Some d) in Hd.
        injection Hd as <-. reflexivity. }
      unfold Demo.ent in Hq; cbn [parent_ids] in Hq. id_cases Hq.
      exists Scenario, (Demo.ent "1.0" [] (Some "CYCLE_c") false).
      split; [reflexivity |]. split; [discriminate | reflexivity].
  - exists pd. split; [exact Hrun |]. split; apply Hiff.
    + left. split; [| reflexivity].
      unfold Demo.ent; cbn [parent_ids]. apply elem_of_list_to_set.
      apply list_elem_of_further, list_elem_of_here.
    + right.
      exists "TASK_t", (Demo.ent "1.0" ["SCENARIO_s"; "SEQUENCE_q"] None false).
      split; [unfold Demo.ent; cbn [parent_ids];
              apply elem_of_list_to_set, list_elem_of_here |].
      split; [reflexivity |]. split; [reflexivity |].
      split; [| reflexivity].
      unfold Demo.ent; cbn [parent_ids]. apply elem_of_list_to_set.
      apply list_elem_of_further, list_elem_of_here.
Defined.

Lemma export_scenario_content_witness :
  fst (@taipy.export_scenario Demo.demo "SCENARIO_s" (PStr "fresh") false true
         Demo.w0) = Ret VNone /\
  exists records,
    fs (snd (@taipy.export_scenario Demo.demo "SCENARIO_s" (PStr "fresh") false
               true Demo.w0)) !! "fresh" = Some records /\
    NoDup records /\
    (ExpEntity Scenario "SCENARIO_s" false ∈ records) /\
    (ExpEntity Cycle "CYCLE_c" false ∈ records).
Proof.
  assert (Hok : fst (@taipy.export_scenario Demo.demo "SCENARIO_s" (PStr "fresh")
                       false true Demo.w0) = Ret VNone)
    by (vm_compute; reflexivity).
  split; [exact Hok |].
  pose proof (@export_scenario_content Demo.demo "SCENARIO_s" (PStr "fresh")
                false true Demo.w0) as H.
  cbv zeta in H.
  destruct (H Hok) as (scenario & records & Hs & Hfs & Hnd & _ & _ & Hsc & Hcy & _).
  change (Some (Demo.ent "1.0" [] (Some "CYCLE_c") false) = Some scenario) in Hs.
  injection Hs as <-.
  exists records. split; [exact Hfs |]. split; [exact Hnd |]. split.
  - apply Hsc. split; reflexivity.
  - apply Hcy. split; reflexivity.
Defined.

Lemma export_scenario_again_witness :
  fst (@taipy.export_scenario Demo.demo "SCENARIO_s" (PStr "fresh") false true
         Demo.w0) = Ret VNone /\
  @taipy.export_scenario Demo.demo "SCENARIO_s" (PStr "fresh") false false
    (snd (@taipy.export_scenario Demo.demo "SCENARIO_s" (PStr "fresh") false true
            Demo.w0)) =
  (Raise (ExportFolderAlreadyExists "fresh" (VStr "SCENARIO_s")),
   snd (@taipy.export_scenario Demo.demo "SCENARIO_s" (PStr "fresh") false true
          Demo.w0)).
Proof.
  assert (Hok : fst (@taipy.export_scenario Demo.demo "SCENARIO_s" (PStr "fresh")
                       false true Demo.w0) = Ret VNone)
    by (vm_compute; reflexivity).
  split; [exact Hok |].
  exact (@export_scenario_again Demo.demo "SCENARIO_s" (PStr "fresh") false true
           false Demo.w0 Hok).
Defined.

Lemma clean_all_entities_then_exists_witness :
  @_replace_version_number Demo.demo Demo.w0 (VStr "1.0") = Ret "1.0" /\
  fst (@taipy.clean_all_entities Demo.demo (VStr "1.0") Demo.w0) = Ret true /\
  @taipy.exists_ Demo.demo (VStr "TASK_t")
    (snd (@taipy.clean_all_entities Demo.demo (VStr "1.0") Demo.w0)) = Ret false /\
  @taipy.exists_ Demo.demo (VStr "CYCLE_c")
    (snd (@taipy.clean_all_entities Demo.demo (VStr "1.0") Demo.w0)) = Ret false.
Proof.
  assert (H1 : "1.0" ∈ versions Demo.w0)
    by (apply (bool_decide_unpack _); vm_compute; exact I).
  assert (H3 : "1.0" ∉ production_versions Demo.w0)
    by (apply (bool_decide_unpack _); vm_compute; exact I).
  split; [vm_compute; reflexivity |].
  pose proof (@clean_all_entities_then_exists Demo.demo (VStr "1.0") "1.0"
                Demo.w0 ltac:(vm_compute; reflexivity) H1 H3) as H.
  cbv zeta in H. destruct H as (Hok & Hent & Hcyc).
  split; [exact Hok |]. split.
  - apply (Hent Task "TASK_t"
             (Demo.ent "1.0" ["SCENARIO_s"; "SEQUENCE_q"] None false));
      [discriminate | reflexivity | reflexivity | reflexivity].
  - apply Hcyc.
    + reflexivity.
    + exists "SCENARIO_s", (Demo.ent "1.0" [] (Some "CYCLE_c") false).
      split; [reflexivity |]. split; reflexivity.
    + intros j e Hj _. unfold Demo.w0 in Hj. cbn [scenario_store] in Hj.
      apply lookup_singleton_Some in Hj as [_ <-]. reflexivity.
Defined.

Lemma export_scenario_guards_witness :
  scenario_store Demo.w0 !! "SCENARIO_s" =
    Some (Demo.ent "1.0" [] (Some "CYCLE_c") false) /\
  path_eq_str (PStr "export") (taipy_storage_folder Demo.w0) = false /\
  path_exists (PStr "export") Demo.w0 = true /\
  fs (snd (@taipy.export_scenario Demo.demo "SCENARIO_s" (PStr "export") true true
             Demo.w0)) !! "export" =
  Some [ExpEntity DataNode "DATANODE_d" true; ExpEntity Task "TASK_u" false;
        ExpEntity Task "TASK_t" false; ExpEntity Cycle "CYCLE_c" false;
        ExpEntity Scenario "SCENARIO_s" false; ExpVersion "1.0"].
Proof.
  split; [reflexivity |]. split; [reflexivity |]. split; [reflexivity |].
  pose proof (@export_scenario_guards Demo.demo "SCENARIO_s"
                (Demo.ent "1.0" [] (Some "CYCLE_c") false) (PStr "export")
                true true Demo.w0 eq_refl) as H.
  cbv zeta in H. destruct H as (_ & _ & H & _).
  destruct (H eq_refl eq_refl eq_refl) as (_ & _ & written & _ & Hsnd & Hfull).
  rewrite Hsnd, (Hfull ltac:(vm_compute; reflexivity)).
  vm_compute. reflexivity.
Defined.
